(** * microserver: the request/response interception pipeline

    A shallow embedding of the Go program (the plain variant [main.go] and
    the TLS variant, which differ only in [Config] and [main]) together with
    the properties its specification states about it.

    Layout: the Go library functions the program calls ([strings], [regexp],
    [net/url], [net/http], [compress/gzip], [os] as far as the access log
    goes) are modelled first, each as far as the program uses it, with
    [net.JoinHostPort], by which the server names the peer of a connection,
    and [strconv.ParseInt], by which it reads a declared Content-Length;
    then the program itself, one definition per source function; then the
    vocabulary of the specification; then the lemmas. *)

From Stdlib Require Import ZArith String Ascii List Bool Lia DecimalString.
From stdpp Require Import base strings gmap.

Local Open Scope string_scope.
Local Open Scope Z_scope.

(** ** Go strings

    A Go [string] and a Go [[]byte] are both byte sequences; both are
    modelled by [string], whose characters are the 256 byte values. *)

Abbreviation bytes := string (only parsing).

Definition len (s : string) : Z := Z.of_nat (String.length s).

Definition quote : string := String (ascii_of_nat 34) EmptyString.
Definition newline : string := String (ascii_of_nat 10) EmptyString.

Module gostrings.

(** [strings.HasPrefix s prefix] *)
Fixpoint HasPrefix (s prefix : string) {struct prefix} : bool :=
  match prefix with
  | EmptyString => true
  | String p prefix' =>
      match s with
      | EmptyString => false
      | String c s' => Ascii.eqb c p && HasPrefix s' prefix'
      end
  end.

(** [strings.CutPrefix s prefix]: [s] without the leading [prefix], if it
    starts with it. *)
Fixpoint CutPrefix (s prefix : string) {struct prefix} : option string :=
  match prefix with
  | EmptyString => Some s
  | String p prefix' =>
      match s with
      | EmptyString => None
      | String c s' => if Ascii.eqb c p then CutPrefix s' prefix' else None
      end
  end.

(** [strings.Index s substr]: the byte offset of the first occurrence of
    [substr] in [s], or -1. *)
Fixpoint index_from (i : Z) (s substr : string) : Z :=
  if HasPrefix s substr then i
  else match s with
       | EmptyString => -1
       | String _ s' => index_from (i + 1) s' substr
       end.

Definition Index (s substr : string) : Z := index_from 0 s substr.

(** [strings.Contains s substr] is [Index(s, substr) >= 0]. *)
Definition Contains (s substr : string) : bool := 0 <=? Index s substr.

(** [strings.LastIndex s substr]: the offset of the last occurrence, or -1
    ([found] is the last occurrence met so far). *)
Fixpoint last_index_from (i found : Z) (s substr : string) : Z :=
  let found' := if HasPrefix s substr then i else found in
  match s with
  | EmptyString => found'
  | String _ s' => last_index_from (i + 1) found' s' substr
  end.

Definition LastIndex (s substr : string) : Z := last_index_from 0 (-1) s substr.

Fixpoint in_cutset (c : ascii) (cutset : string) : bool :=
  match cutset with
  | EmptyString => false
  | String d cutset' => Ascii.eqb c d || in_cutset c cutset'
  end.

(** [strings.TrimLeft], [strings.TrimRight], [strings.Trim] for a cutset of
    ASCII characters: every leading (trailing) byte that occurs in the
    cutset is removed. *)
Fixpoint TrimLeft (s cutset : string) : string :=
  match s with
  | EmptyString => EmptyString
  | String c s' => if in_cutset c cutset then TrimLeft s' cutset else s
  end.

Fixpoint TrimRight (s cutset : string) : string :=
  match s with
  | EmptyString => EmptyString
  | String c s' =>
      match TrimRight s' cutset with
      | EmptyString => if in_cutset c cutset then EmptyString else String c EmptyString
      | String d t => String c (String d t)
      end
  end.

Definition Trim (s cutset : string) : string := TrimRight (TrimLeft s cutset) cutset.

(** [strings.Join elems sep] *)
Fixpoint Join (elems : list string) (sep : string) : string :=
  match elems with
  | [] => EmptyString
  | [e] => e
  | e :: elems' => e ++ sep ++ Join elems' sep
  end.

Fixpoint all_bytes (p : ascii -> bool) (s : string) : bool :=
  match s with
  | EmptyString => true
  | String c s' => p c && all_bytes p s'
  end.

(** The slice expression [s[:hi]]. *)
Definition slice_to (s : string) (hi : Z) : string := substring 0 (Z.to_nat hi) s.

(** ASCII case mapping of one byte, and [strings.ToLower] on ASCII text. *)
Definition is_upper (c : ascii) : bool :=
  (65 <=? Z.of_nat (nat_of_ascii c)) && (Z.of_nat (nat_of_ascii c) <=? 90).
Definition is_lower (c : ascii) : bool :=
  (97 <=? Z.of_nat (nat_of_ascii c)) && (Z.of_nat (nat_of_ascii c) <=? 122).
Definition lower (c : ascii) : ascii :=
  if is_upper c then ascii_of_nat (nat_of_ascii c + 32) else c.
Definition upper (c : ascii) : ascii :=
  if is_lower c then ascii_of_nat (nat_of_ascii c - 32) else c.

End gostrings.

(** ** Go regexp/syntax, the fragment the program's pattern lives in

    [main] builds the pattern [(?i)\.(e1|...|en)$] from the configured
    extensions.  The fragment modelled: literal ASCII characters, escaped
    punctuation, groups, alternation, the end-of-text anchor [$] and the
    flag group [(?i)].  Repetition, classes, [.], [^], the other escapes
    and characters outside ASCII are outside it. *)

Module regexp.

(** [Literal c foldCase]: the ASCII character [c]. *)
Inductive Regexp : Type :=
| EmptyMatch
| Literal (c : ascii) (foldCase : bool)
| EndText
| Concat (a b : Regexp)
| Alternate (a b : Regexp).

(** The codes of [syntax.Error] the fragment can meet. *)
Inductive ErrorCode : Type :=
| ErrMissingParen            (* missing closing ) *)
| ErrUnexpectedParen         (* unexpected ) *)
| ErrTrailingBackslash.      (* trailing backslash at end of expression *)

Inductive parsed : Type :=
| Parsed (re : Regexp)
| ParseError (code : ErrorCode)    (* regexp.Compile returns an error *)
| OutsideFragment.                 (* valid or not, the model does not cover it *)

(** The parser keeps, as Go's does, a stack of open groups; a frame holds
    the alternatives already closed by [|] and the concatenation being
    read. *)
Record frame : Type := { alts : list Regexp; cur : Regexp }.

Definition empty_frame : frame := {| alts := []; cur := EmptyMatch |}.
Definition push_atom (f : frame) (a : Regexp) : frame :=
  {| alts := alts f; cur := Concat (cur f) a |}.
Definition next_alt (f : frame) : frame :=
  {| alts := alts f ++ [cur f]; cur := EmptyMatch |}.
Definition close_frame (f : frame) : Regexp :=
  fold_right Alternate (cur f) (alts f).

(** The characters [regexp.QuoteMeta] escapes. *)
Definition is_meta (c : ascii) : bool := gostrings.in_cutset c "\.+*?()|[]{}^$".

Definition is_alnum (c : ascii) : bool :=
  let n := Z.of_nat (nat_of_ascii c) in
  ((48 <=? n) && (n <=? 57)) || gostrings.is_upper c || gostrings.is_lower c.

Definition is_ascii (c : ascii) : bool := Z.of_nat (nat_of_ascii c) <? 128.

(** [fold] is the case-folding flag in force; [stack] holds the enclosing
    groups, each with the flag to restore when it closes. *)
Fixpoint parse_loop (fold : bool) (stack : list (frame * bool)) (top : frame)
    (s : string) : parsed :=
  match s with
  | EmptyString =>
      match stack with
      | [] => Parsed (close_frame top)
      | _ :: _ => ParseError ErrMissingParen
      end
  | String c s' =>
      if Ascii.eqb c "(" then
        match s' with
        | String q s1 =>
            if Ascii.eqb q "?" then
              match s1 with
              | String i (String p s3) =>
                  if Ascii.eqb i "i" && Ascii.eqb p ")"
                  then parse_loop true stack top s3      (* the flag group (?i) *)
                  else OutsideFragment
              | _ => OutsideFragment
              end
            else parse_loop fold ((top, fold) :: stack) empty_frame s'
        | EmptyString => parse_loop fold ((top, fold) :: stack) empty_frame s'
        end
      else if Ascii.eqb c ")" then
        match stack with
        | [] => ParseError ErrUnexpectedParen
        | (parent, fold') :: stack' =>
            parse_loop fold' stack' (push_atom parent (close_frame top)) s'
        end
      else if Ascii.eqb c "|" then parse_loop fold stack (next_alt top) s'
      else if Ascii.eqb c "$" then parse_loop fold stack (push_atom top EndText) s'
      else if Ascii.eqb c "\" then
        match s' with
        | EmptyString => ParseError ErrTrailingBackslash
        | String d s'' =>
            if is_ascii d && negb (is_alnum d)
            then parse_loop fold stack (push_atom top (Literal d fold)) s''
            else OutsideFragment
        end
      else if is_meta c then OutsideFragment
      else if is_ascii c then parse_loop fold stack (push_atom top (Literal c fold)) s'
      else OutsideFragment
  end.

Definition Compile (expr : string) : parsed := parse_loop false [] empty_frame expr.

(** Matching.  The library reads the text as UTF-8, rune by rune, and a
    literal under [(?i)] matches every rune of its orbit under Unicode
    simple case folding.  For an ASCII literal that is the character
    itself, its other case if it is a letter, and two runes outside ASCII:
    U+017F (long s) for [s] and U+212A (the Kelvin sign) for [k]. *)
Definition long_s : string :=
  String (ascii_of_nat 197) (String (ascii_of_nat 191) EmptyString).
Definition kelvin : string :=
  String (ascii_of_nat 226) (String (ascii_of_nat 132) (String (ascii_of_nat 170) EmptyString)).

(** The text after one rune that folds to the ASCII character [c]. *)
Definition fold_step (c : ascii) (s : string) : option string :=
  match s with
  | EmptyString => None
  | String x s' =>
      if Ascii.eqb (gostrings.lower x) (gostrings.lower c) then Some s'
      else if Ascii.eqb (gostrings.lower c) "s" then gostrings.CutPrefix s long_s
      else if Ascii.eqb (gostrings.lower c) "k" then gostrings.CutPrefix s kelvin
      else None
  end.

(** The text after the ASCII character [c], case mattering. *)
Definition exact_step (c : ascii) (s : string) : option string :=
  match s with
  | EmptyString => None
  | String x s' => if Ascii.eqb x c then Some s' else None
  end.

(** [matchAt re s k]: [re] matches a prefix of [s] and [k] accepts the
    rest.  [$] (no multi-line flag) matches at the end of the text only.
    An ASCII byte of the text is always a rune of its own, and so is the
    first byte of [long_s] and of [kelvin] the start of one: trying every
    byte offset, as [MatchString] below does, finds the matches the
    library finds at rune boundaries. *)
Fixpoint matchAt (re : Regexp) (s : string) (k : string -> bool) : bool :=
  match re with
  | EmptyMatch => k s
  | Literal c foldCase =>
      match (if foldCase then fold_step c s else exact_step c s) with
      | Some s' => k s'
      | None => false
      end
  | EndText => match s with EmptyString => k s | String _ _ => false end
  | Concat a b => matchAt a s (fun s' => matchAt b s' k)
  | Alternate a b => matchAt a s k || matchAt b s k
  end.

(** The methods [MatchString] and [Match] of a compiled expression: is
    there a match starting at some offset of the text. *)
Fixpoint MatchString (re : Regexp) (s : string) : bool :=
  matchAt re s (fun _ => true)
  || match s with
     | EmptyString => false
     | String _ s' => MatchString re s'
     end.

Definition Match (re : Regexp) (b : bytes) : bool := MatchString re b.

End regexp.

(** ** Go net/textproto and net/url *)

Abbreviation MIMEHeader := (gmap string (list string)).

Module textproto.

(** The token characters of RFC 7230. *)
Definition validHeaderFieldByte (c : ascii) : bool :=
  regexp.is_alnum c || gostrings.in_cutset c "!#$%&'*+-.^_`|~".

Fixpoint canonical (up : bool) (s : string) : string :=
  match s with
  | EmptyString => EmptyString
  | String c s' =>
      let c' := if up then gostrings.upper c else gostrings.lower c in
      String c' (canonical (Ascii.eqb c' "-") s')
  end.

(** [textproto.CanonicalMIMEHeaderKey]: first letter and every letter
    after a hyphen in upper case, the rest in lower case; a key holding a
    byte that is not a token character is returned as it is. *)
Definition CanonicalMIMEHeaderKey (s : string) : string :=
  if gostrings.all_bytes validHeaderFieldByte s then canonical true s else s.

Definition values (h : MIMEHeader) (key : string) : list string :=
  match h !! key with
  | Some vs => vs
  | None => []
  end.

Definition Set_ (h : MIMEHeader) (key value : string) : MIMEHeader :=
  <[CanonicalMIMEHeaderKey key := [value]]> h.

Definition Add (h : MIMEHeader) (key value : string) : MIMEHeader :=
  let k := CanonicalMIMEHeaderKey key in <[k := (values h k ++ [value])%list]> h.

Definition Del (h : MIMEHeader) (key : string) : MIMEHeader :=
  delete (CanonicalMIMEHeaderKey key) h.

Definition Get (h : MIMEHeader) (key : string) : string :=
  match values h (CanonicalMIMEHeaderKey key) with
  | v :: _ => v
  | [] => EmptyString
  end.

End textproto.

Module url.

(** [url.Userinfo] *)
Record Userinfo : Type := { username : string; password : string; passwordSet : bool }.

(** [url.URL], field for field; a nil [User] is [None].  For an
    origin-form request target the server fills in [Path], [RawPath],
    [ForceQuery] and [RawQuery] only. *)
Record URL : Type := {
  Scheme : string;
  Opaque : string;
  User : option Userinfo;
  Host : string;
  Path : string;
  RawPath : string;
  OmitHost : bool;
  ForceQuery : bool;
  RawQuery : string;
  Fragment : string;
  RawFragment : string
}.

(** Percent-encoding is the library's own; the program never looks inside. *)
Class Escaper : Type := {
  EscapedPath : URL -> string;
  EscapedFragment : URL -> string;
  escapeHost : string -> string;
  userinfoString : Userinfo -> string
}.

Definition nonempty (s : string) : bool :=
  match s with EmptyString => false | String _ _ => true end.

Definition first_is_slash (s : string) : bool :=
  match s with String "/" _ => true | _ => false end.

Definition first_segment_has_colon (s : string) : bool :=
  let i := gostrings.Index s ":" in
  let j := gostrings.Index s "/" in
  (0 <=? i) && ((j <? 0) || (i <? j)).

Definition isSome {A} (o : option A) : bool :=
  match o with Some _ => true | None => false end.

(** The method [String] of a URL: scheme:opaque?query#fragment or
    scheme://userinfo@host/path?query#fragment. *)
Definition String_ {UE : Escaper} (u : URL) : string :=
  let scheme := if nonempty (Scheme u) then Scheme u ++ ":" else EmptyString in
  let body :=
    if nonempty (Opaque u) then Opaque u
    else
      let authority :=
        if nonempty (Scheme u) || nonempty (Host u) || isSome (User u)
        then
          if OmitHost u && negb (nonempty (Host u)) && negb (isSome (User u))
          then EmptyString
          else
            (if nonempty (Host u) || nonempty (Path u) || isSome (User u)
             then "//" else EmptyString)
            ++ (match User u with
                | Some ui => userinfoString ui ++ "@"
                | None => EmptyString
                end)
            ++ (if nonempty (Host u) then escapeHost (Host u) else EmptyString)
        else EmptyString in
      let path := EscapedPath u in
      let sep :=
        if nonempty path && negb (first_is_slash path) && nonempty (Host u) then "/"
        else EmptyString in
      let dot :=
        if negb (nonempty (scheme ++ authority ++ sep)) && first_segment_has_colon path
        then "./" else EmptyString in
      authority ++ sep ++ dot ++ path in
  let query :=
    if ForceQuery u || nonempty (RawQuery u) then "?" ++ RawQuery u else EmptyString in
  let fragment :=
    if nonempty (Fragment u) then "#" ++ EscapedFragment u else EmptyString in
  scheme ++ body ++ query ++ fragment.

Definition with_Scheme (u : URL) (s : string) : URL :=
  {| Scheme := s; Opaque := Opaque u; User := User u; Host := Host u; Path := Path u;
     RawPath := RawPath u; OmitHost := OmitHost u; ForceQuery := ForceQuery u;
     RawQuery := RawQuery u; Fragment := Fragment u; RawFragment := RawFragment u |}.

(** What the server makes of the request target [path?query]. *)
Definition origin_form (path : string) (forceQuery : bool) (query : string) : URL :=
  {| Scheme := EmptyString; Opaque := EmptyString; User := None; Host := EmptyString;
     Path := path; RawPath := EmptyString; OmitHost := false; ForceQuery := forceQuery;
     RawQuery := query; Fragment := EmptyString; RawFragment := EmptyString |}.

End url.

(** ** Go net

    [net.JoinHostPort], by which the server writes the [RemoteAddr] of a
    connection from its IP address and port: a host that holds a colon (an
    IPv6 literal) goes between square brackets. *)
Module net.

Definition JoinHostPort (host port : string) : string :=
  if 0 <=? gostrings.Index host ":"
  then "[" ++ host ++ "]:" ++ port
  else host ++ ":" ++ port.

End net.

(** ** Package-level state

    [Config] carries the fields of both variants: [Listen] is read by
    [main.go] only, [Http], [Https] and [Ssl] by the TLS variant only.  The
    two inner structs are anonymous in the source. *)

Record SslSection : Type := { Key : string; Cert : string; Enabled : bool }.

Record HttpdSection : Type := {
  Listen : string;
  Http : string;
  Https : string;
  Ssl : SslSection;
  Hostname : string;
  Root : string;
  AccessLog : string;
  Gzip : list string
}.

Record Config : Type := { Httpd : HttpdSection }.

(** The flags of [os.OpenFile], with their values on Linux.  The two low
    bits are the access mode. *)
Definition O_RDONLY : Z := 0.
Definition O_WRONLY : Z := 1.
Definition O_RDWR : Z := 2.
Definition O_CREATE : Z := 64.
Definition O_APPEND : Z := 1024.

(** A descriptor takes writes when its access mode is O_WRONLY or O_RDWR. *)
Definition open_for_writing (flag : Z) : bool :=
  let mode := Z.land flag 3 in (mode =? O_WRONLY) || (mode =? O_RDWR).

(** The flag [main] passes when it opens the access log. *)
Definition log_flag : Z := Z.lor O_CREATE O_APPEND.

(** The files the process writes to: [NamedFile name] is the descriptor
    [main] gets from [os.OpenFile(name, os.O_CREATE|os.O_APPEND, 0)]. *)
Inductive File : Type :=
| NamedFile (name : string)
| Stdout.

Definition writable (f : File) : bool :=
  match f with
  | NamedFile _ => open_for_writing log_flag
  | Stdout => true
  end.

(** [PanicMustCompile expr code]: the value [regexp.MustCompile] panics
    with, a string made of the expression and of the parse error. *)
Inductive panic : Type :=
| NilDereference                 (* invalid memory address or nil pointer dereference *)
| PanicValue (v : string)
| PanicMustCompile (expr : string) (code : regexp.ErrorCode).

Inductive outcome : Type :=
| Returned
| Panicked (p : panic).

(** Values of the interface [error] that a [Write] can return. *)
Inductive error : Type :=
| ErrBodyNotAllowed              (* http.ErrBodyNotAllowed *)
| ErrContentLength               (* http.ErrContentLength *)
| EBADF                          (* write on a descriptor not open for writing *)
| ErrOther (msg : string).

(** What a request can read or change outside its own arguments: the
    package variable [config] (a nil pointer is [None]), the wall clock,
    the [Write] calls made so far on the process's output files, and what
    those calls have added to the files. *)
Record Env : Type := {
  config : option Config;
  now : Z;
  written : list (File * string);
  appended : list (File * string)
}.

Definition with_now (e : Env) (t : Z) : Env :=
  {| config := config e; now := t; written := written e; appended := appended e |}.

(** The method [Write] of [*os.File]: on a descriptor that is not open for
    writing the call fails and the file stays as it is. *)
Definition file_Write (f : File) (p : bytes) (e : Env) : Env * (Z * option error) :=
  if writable f
  then ({| config := config e; now := now e; written := (written e ++ [(f, p)])%list;
           appended := (appended e ++ [(f, p)])%list |}, (len p, None))
  else ({| config := config e; now := now e; written := (written e ++ [(f, p)])%list;
           appended := appended e |}, (0, Some EBADF)).

Module time.
(** [time.Now().Format(layout)]: rendering an instant in the local zone is
    the library's. *)
Class Formatter : Type := { Format : Z -> string -> string }.
End time.

Module json.
(** [json.NewDecoder(f).Decode(config)] on the content of the file. *)
Class Decoder : Type := { Decode : string -> Config + string }.
End json.

(** ** Go strconv *)

Module strconv.

Definition digit (c : ascii) : option Z :=
  let n := Z.of_nat (nat_of_ascii c) in
  if (48 <=? n) && (n <=? 57) then Some (n - 48) else None.

Fixpoint digits (acc : Z) (s : string) : option Z :=
  match s with
  | EmptyString => Some acc
  | String c s' =>
      match digit c with
      | Some d => digits (10 * acc + d) s'
      | None => None
      end
  end.

(** [strconv.ParseUint(s, 10, 64)]; an error is [None]. *)
Definition ParseUint (s : string) : option Z :=
  match s with
  | EmptyString => None
  | String _ _ =>
      match digits 0 s with
      | Some v => if v <? 2 ^ 64 then Some v else None
      | None => None
      end
  end.

(** [strconv.ParseInt(s, 10, 64)]; an error is [None]. *)
Definition ParseInt (s : string) : option Z :=
  match s with
  | EmptyString => None
  | String c s' =>
      let neg := Ascii.eqb c "-" in
      let rest := if Ascii.eqb c "+" || Ascii.eqb c "-" then s' else s in
      match ParseUint rest with
      | Some un =>
          if negb neg && (2 ^ 63 <=? un) then None
          else if neg && (2 ^ 63 <? un) then None
          else Some (if neg then - un else un)
      | None => None
      end
  end.

End strconv.

(** ** Go net/http *)

Module http.

(** A request as a handler gets it: one the server has read and parsed.
    What does not parse is answered by the server itself (400) and reaches
    no handler.  [RequestHeader] is the field [Header] of [http.Request]. *)
Record Request : Type := {
  Method : string;
  URL : url.URL;
  RequestHeader : MIMEHeader;
  Host : string;
  RemoteAddr : string;
  RequestURI : string
}.

Definition UserAgent (r : Request) : string :=
  textproto.Get (RequestHeader r) "User-Agent".

Definition with_URL (r : Request) (u : url.URL) : Request :=
  {| Method := Method r; URL := u; RequestHeader := RequestHeader r;
     Host := Host r; RemoteAddr := RemoteAddr r; RequestURI := RequestURI r |}.

(** The interface [http.ResponseWriter].  [Header()] returns the live map;
    a change made through it is [setHeader]. *)
Class ResponseWriter (W : Type) : Type := {
  Header : W -> MIMEHeader;
  setHeader : W -> MIMEHeader -> W;
  Write : W -> bytes -> W * (Z * option error);
  WriteHeader : W -> Z -> W
}.

Record result (W : Type) : Type := {
  sink : W;              (* the ResponseWriter after the call *)
  req : Request;         (* the request behind the pointer after the call *)
  world : Env;
  exit : outcome
}.
Arguments sink {W} _.
Arguments req {W} _.
Arguments world {W} _.
Arguments exit {W} _.

(** The interface [http.Handler]. *)
Class Handler (H : Type) : Type :=
  ServeHTTP : H -> forall W : Type, ResponseWriter W -> W -> Request -> Env -> result W.

(** [fmt.Fprintln(w, s)] *)
Definition Fprintln {W} `{ResponseWriter W} (w : W) (s : string) : W :=
  fst (Write w (s ++ newline)).

(** [http.Error] and [http.NotFound] (recent versions of the library also
    delete a Content-Length header first; that is left out). *)
Definition Error {W} `{ResponseWriter W} (w : W) (error : string) (code : Z) : W :=
  let w := setHeader w (textproto.Set_ (Header w) "Content-Type" "text/plain; charset=utf-8") in
  let w := setHeader w (textproto.Set_ (Header w) "X-Content-Type-Options" "nosniff") in
  let w := WriteHeader w code in
  Fprintln w error.

Definition NotFound {W} `{ResponseWriter W} (w : W) (r : Request) : W :=
  Error w "404 page not found" 404.

Definition StatusText (code : Z) : string :=
  if code =? 301 then "Moved Permanently"
  else if code =? 302 then "Found"
  else if code =? 404 then "Not Found"
  else EmptyString.

Definition hex_digit (n : nat) : ascii :=
  match String.get n "0123456789abcdef" with
  | Some c => c
  | None => "0"%char
  end.

Fixpoint hexEscapeNonASCII (s : string) : string :=
  match s with
  | EmptyString => EmptyString
  | String c s' =>
      (if regexp.is_ascii c then String c EmptyString
       else String "%" (String (hex_digit (nat_of_ascii c / 16))
                          (String (hex_digit (nat_of_ascii c mod 16)) EmptyString)))
      ++ hexEscapeNonASCII s'
  end.

Fixpoint htmlEscape (s : string) : string :=
  match s with
  | EmptyString => EmptyString
  | String c s' =>
      (if Ascii.eqb c "&" then "&amp;"
       else if Ascii.eqb c "<" then "&lt;"
       else if Ascii.eqb c ">" then "&gt;"
       else if Ascii.eqb c (ascii_of_nat 34) then "&#34;"
       else if Ascii.eqb c "'" then "&#39;"
       else String c EmptyString)
      ++ htmlEscape s'
  end.

(** [http.Redirect w r url code] for a [url] that has a scheme, so that
    the rewriting of relative targets does not apply. *)
Definition Redirect {W} `{ResponseWriter W} (w : W) (r : Request) (url : string)
    (code : Z) : W :=
  let hadCT := bool_decide (is_Some (Header w !! "Content-Type")) in
  let w := setHeader w (textproto.Set_ (Header w) "Location" (hexEscapeNonASCII url)) in
  let w :=
    if negb hadCT && (String.eqb (Method r) "GET" || String.eqb (Method r) "HEAD")
    then setHeader w (textproto.Set_ (Header w) "Content-Type" "text/html; charset=utf-8")
    else w in
  let w := WriteHeader w code in
  if negb hadCT && String.eqb (Method r) "GET"
  then Fprintln w ("<a href=" ++ quote ++ htmlEscape url ++ quote ++ ">"
                   ++ StatusText code ++ "</a>." ++ newline)
  else w.

(** *** The server's own ResponseWriter

    The type [response] of net/http, as far as a handler's calls shape
    it.  The status and the header block are fixed by the first
    [WriteHeader] with a final code (an implicit [WriteHeader(200)] on the
    first [Write]); later [WriteHeader] calls are ignored; a code from 100
    to 199 other than 101 sends an informational response and fixes
    nothing.  Body bytes are refused for a status that allows none and
    beyond a declared Content-Length, and swallowed for a HEAD request.
    [sentHeader] is the block fixed by [WriteHeader] and [sentBody] the
    body taken in for the client: the server sends them when the handler
    returns, and drops what it still holds in its buffers when the handler
    panics.  What the server adds to the block on the wire (Date, a
    Content-Length or chunking of its own, a sniffed Content-Type) is not
    part of it. *)
Record response : Type := {
  reqMethod : string;
  handlerHeader : MIMEHeader;
  wroteHeader : bool;
  status : Z;
  sentHeader : MIMEHeader;
  contentLength : option Z;              (* the declared length; None is Go's -1 *)
  bodyWritten : Z;                       (* the field written: bytes of body counted *)
  informational : list (Z * MIMEHeader); (* 1xx responses sent *)
  sentBody : string
}.

Definition newResponse (r : Request) : response :=
  {| reqMethod := Method r; handlerHeader := ∅; wroteHeader := false;
     status := 0; sentHeader := ∅; contentLength := None; bodyWritten := 0;
     informational := []; sentBody := EmptyString |}.

Definition bodyAllowedForStatus (status : Z) : bool :=
  negb ((100 <=? status) && (status <=? 199))
  && negb (status =? 204) && negb (status =? 304).

(** [checkWriteHeaderCode] panics on such a code. *)
Definition invalidCode (code : Z) : bool := (code <? 100) || (999 <? code).

Definition informationalCode (code : Z) : bool :=
  (100 <=? code) && (code <=? 199) && negb (code =? 101).

(** A code that fixes the status: 101, or 200 to 999. *)
Definition finalCode (code : Z) : bool :=
  negb (invalidCode code) && negb (informationalCode code).

(** The method [WriteHeader].  On an invalid code the call panics before
    it changes anything: here the response stays as it is, and the panic is
    the [ending] of the behaviour that made the call. *)
Definition response_WriteHeader (w : response) (code : Z) : response :=
  if wroteHeader w then w
  else if invalidCode code then w
  else if informationalCode code
  then {| reqMethod := reqMethod w; handlerHeader := handlerHeader w;
          wroteHeader := false; status := status w; sentHeader := sentHeader w;
          contentLength := contentLength w; bodyWritten := bodyWritten w;
          informational := (informational w ++ [(code, handlerHeader w)])%list;
          sentBody := sentBody w |}
  else
    let cl := textproto.Get (handlerHeader w) "Content-Length" in
    let declared := if url.nonempty cl then strconv.ParseInt cl else None in
    let valid := match declared with Some v => 0 <=? v | None => false end in
    {| reqMethod := reqMethod w;
       handlerHeader := if url.nonempty cl && negb valid
                        then textproto.Del (handlerHeader w) "Content-Length"
                        else handlerHeader w;
       wroteHeader := true; status := code;
       sentHeader := handlerHeader w;
       contentLength := if valid then declared else None;
       bodyWritten := bodyWritten w;
       informational := informational w;
       sentBody := sentBody w |}.

Definition counted (w : response) (n : Z) : response :=
  {| reqMethod := reqMethod w; handlerHeader := handlerHeader w;
     wroteHeader := wroteHeader w; status := status w; sentHeader := sentHeader w;
     contentLength := contentLength w; bodyWritten := bodyWritten w + n;
     informational := informational w; sentBody := sentBody w |}.

(** The method [Write]. *)
Definition response_Write (w : response) (p : bytes) : response * (Z * option error) :=
  let w := if wroteHeader w then w else response_WriteHeader w 200 in
  if len p =? 0 then (w, (0, None))
  else if negb (bodyAllowedForStatus (status w)) then (w, (0, Some ErrBodyNotAllowed))
  else
    let w := counted w (len p) in
    if match contentLength w with Some cl => cl <? bodyWritten w | None => false end
    then (w, (0, Some ErrContentLength))
    else if String.eqb (reqMethod w) "HEAD" then (w, (len p, None))
    else ({| reqMethod := reqMethod w; handlerHeader := handlerHeader w;
             wroteHeader := wroteHeader w; status := status w;
             sentHeader := sentHeader w; contentLength := contentLength w;
             bodyWritten := bodyWritten w; informational := informational w;
             sentBody := sentBody w ++ p |},
          (len p, None)).

#[global] Instance response_ResponseWriter : ResponseWriter response := {
  Header w := handlerHeader w;
  setHeader w h :=
    {| reqMethod := reqMethod w; handlerHeader := h; wroteHeader := wroteHeader w;
       status := status w; sentHeader := sentHeader w; contentLength := contentLength w;
       bodyWritten := bodyWritten w; informational := informational w;
       sentBody := sentBody w |};
  Write := response_Write;
  WriteHeader := response_WriteHeader
}.

(** *** Handlers whose code is not the program's

    A handler outside the program ([http.FileServer]) is known by what it
    does to the ResponseWriter it is given: the calls it makes, in order,
    the time it takes, and whether it returns or panics.  A handler that
    reacts to what its calls return makes, on a given writer, one such
    sequence of calls; the lemmas hold for every sequence. *)
Inductive action : Type :=
| SetHeader (key value : string)       (* w.Header().Set(key, value) *)
| AddHeader (key value : string)       (* w.Header().Add(key, value) *)
| DelHeader (key : string)             (* w.Header().Del(key) *)
| CallWriteHeader (code : Z)           (* w.WriteHeader(code) *)
| CallWrite (p : bytes)                (* w.Write(p) *)
| Elapse (d : Z).                      (* d units of time pass *)

Record behaviour : Type := { actions : list action; ending : outcome }.

Definition perform {W} `{ResponseWriter W} (a : action) (st : W * Env) : W * Env :=
  let (w, e) := st in
  match a with
  | SetHeader k v => (setHeader w (textproto.Set_ (Header w) k v), e)
  | AddHeader k v => (setHeader w (textproto.Add (Header w) k v), e)
  | DelHeader k => (setHeader w (textproto.Del (Header w) k), e)
  | CallWriteHeader code => (WriteHeader w code, e)
  | CallWrite p => (fst (Write w p), e)
  | Elapse d => (w, with_now e (now e + Z.max 0 d))
  end.

Definition perform_all {W} `{ResponseWriter W} (l : list action) (st : W * Env) : W * Env :=
  fold_left (fun st a => perform a st) l st.

Definition play {W} `{ResponseWriter W} (b : behaviour) (w : W) (r : Request)
    (e : Env) : result W :=
  let (w', e') := perform_all (actions b) (w, e) in
  {| sink := w'; req := r; world := e'; exit := ending b |}.

(** [http.FileServer(http.Dir(root))]: which behaviour a request gets
    depends on the files under [root]. *)
Record fileHandler : Type := { root : string; serve : Request -> behaviour }.

#[global] Instance fileHandler_Handler : Handler fileHandler :=
  fun h W _ w r e => play (serve h r) w r e.

(** *** A probe

    A ResponseWriter that notes every call it receives and passes it on,
    in the manner of [httptest.ResponseRecorder]; it is how the lemmas
    speak of the order of calls on a sink. *)
Inductive event : Type :=
| EvHeader (h : MIMEHeader)            (* the header map was changed to h *)
| EvWriteHeader (code : Z)
| EvWrite (p : bytes).

Record Probe (W : Type) : Type := { probed : W; seen : list event }.
Arguments probed {W} _.
Arguments seen {W} _.

#[global] Instance Probe_ResponseWriter {W} `{ResponseWriter W} : ResponseWriter (Probe W) := {
  Header w := Header (probed w);
  setHeader w h := {| probed := setHeader (probed w) h; seen := (seen w ++ [EvHeader h])%list |};
  Write w p :=
    let (w', n) := Write (probed w) p in
    ({| probed := w'; seen := (seen w ++ [EvWrite p])%list |}, n);
  WriteHeader w code :=
    {| probed := WriteHeader (probed w) code; seen := (seen w ++ [EvWriteHeader code])%list |}
}.

Definition probe {W} (w : W) : Probe W := {| probed := w; seen := [] |}.

End http.

(** ** Go compress/gzip

    The compressor is known by the chunks it hands to the underlying writer:
    [feed] on each [Write] (the gzip header comes with the first), [finish]
    on [Close] (the rest of the stream and the trailer).  A failed write
    downstream is remembered and ends all further output.

    [gzip.NewWriter(w)] keeps the pointer [w]; in the program the
    [GzipWriter] built around it holds the same [w].  The model keeps one
    copy of that sink and passes it to [Write_] and [Close]. *)

Module gzip.

Class Compressor : Type := {
  state : Type;
  start : state;
  feed : state -> bytes -> state * list bytes;
  finish : state -> list bytes
}.

(** [closeCalls] counts the calls of [Close]; the code does not read it. *)
Record Writer {GZ : Compressor} : Type := {
  compressor : state;
  closed : bool;
  err : option error;
  closeCalls : nat
}.

Definition NewWriter {GZ : Compressor} : Writer :=
  {| compressor := start; closed := false; err := None; closeCalls := 0 |}.

Fixpoint emit {W} `{http.ResponseWriter W} (w : W) (chunks : list bytes) : W * option error :=
  match chunks with
  | [] => (w, None)
  | p :: chunks' =>
      let (w', n) := http.Write w p in
      match snd n with
      | Some e => (w', Some e)
      | None => emit w' chunks'
      end
  end.

Definition Write_ {GZ : Compressor} {W} `{http.ResponseWriter W} (z : Writer) (w : W)
    (p : bytes) : Writer * W * (Z * option error) :=
  match err z with
  | Some e => (z, w, (0, Some e))
  | None =>
      let (c, chunks) := feed (compressor z) p in
      let (w', e) := emit w chunks in
      ({| compressor := c; closed := closed z; err := e; closeCalls := closeCalls z |},
       w', (match e with Some _ => 0 | None => len p end, e))
  end.

Definition Close {GZ : Compressor} {W} `{http.ResponseWriter W} (z : Writer) (w : W) : Writer * W :=
  match err z with
  | Some e =>
      ({| compressor := compressor z; closed := closed z; err := err z;
          closeCalls := S (closeCalls z) |}, w)
  | None =>
      if closed z
      then ({| compressor := compressor z; closed := true; err := None;
               closeCalls := S (closeCalls z) |}, w)
      else
        let (w', e) := emit w (finish (compressor z)) in
        ({| compressor := compressor z; closed := true; err := e;
            closeCalls := S (closeCalls z) |}, w')
  end.

End gzip.

(** ** The program *)

(** Go's [int] (64 bits): the value of an addition. *)
Definition int (z : Z) : Z := (z + 2 ^ 63) mod 2 ^ 64 - 2 ^ 63.

(** The verb [%d] of [fmt]. *)
Definition itoa (z : Z) : string := NilZero.string_of_int (Z.to_int z).

(** An embedded field is named after its type in Go ([Log.Writer],
    [GZip.Handler], ...); here it carries the struct's name as a prefix. *)

Record Handler (F : Type) : Type := { files : F }.
Arguments files {F} _.

Record Log (H : Type) : Type := {
  Log_Writer : File;
  Path : string;
  Log_Handler : H
}.
Arguments Log_Writer {H} _.
Arguments Path {H} _.
Arguments Log_Handler {H} _.

Record GZip (H : Type) : Type := {
  GZip_Regexp : regexp.Regexp;
  GZip_Handler : H
}.
Arguments GZip_Regexp {H} _.
Arguments GZip_Handler {H} _.

Record Writer (W : Type) : Type := {
  Writer_ResponseWriter : W;
  Status : Z;
  Bytes : Z
}.
Arguments Writer_ResponseWriter {W} _.
Arguments Status {W} _.
Arguments Bytes {W} _.

Record GzipWriter {GZ : gzip.Compressor} (W : Type) : Type := {
  gz : gzip.Writer;
  GzipWriter_ResponseWriter : W
}.
Arguments gz {_ W} _.
Arguments GzipWriter_ResponseWriter {_ W} _.

Inductive SslHandler : Type := SslHandler_value.

(** What [os] and the file system answer at start-up. *)
Record OS : Type := {
  config_json : option string;           (* content of config.json, if it opens *)
  opens : string -> bool;                (* does OpenFile(name, O_CREATE|O_APPEND, 0) succeed *)
  files_under : string -> http.Request -> http.behaviour
}.

Section Program.

Context {GZ : gzip.Compressor} {TF : time.Formatter} {UE : url.Escaper} {JD : json.Decoder}.

(** func init() *)
Definition init (os : OS) (e : Env) : Env * outcome :=
  match config_json os with
  | Some content =>
      match json.Decode content with
      | inl c => ({| config := Some c; now := now e; written := written e;
                     appended := appended e |}, Returned)
      | inr msg => (e, Panicked (PanicValue msg))
      end
  | None => (e, Returned)
  end.

(** func (w *Writer) Write(b []byte) (int, error) *)
Definition Writer_Write {W} `{http.ResponseWriter W} (w : Writer W) (b : bytes)
    : Writer W * (Z * option error) :=
  let Bytes' := int (Bytes w + len b) in
  let (inner, n) := http.Write (Writer_ResponseWriter w) b in
  ({| Writer_ResponseWriter := inner; Status := Status w; Bytes := Bytes' |}, n).

(** func (w *Writer) WriteHeader(s int) *)
Definition Writer_WriteHeader {W} `{http.ResponseWriter W} (w : Writer W) (s : Z) : Writer W :=
  {| Writer_ResponseWriter := http.WriteHeader (Writer_ResponseWriter w) s;
     Status := s; Bytes := Bytes w |}.

(** [Header] is promoted from the embedded ResponseWriter. *)
#[global] Instance Writer_ResponseWriter_impl {W} `{http.ResponseWriter W}
    : http.ResponseWriter (Writer W) := {
  http.Header w := http.Header (Writer_ResponseWriter w);
  http.setHeader w h :=
    {| Writer_ResponseWriter := http.setHeader (Writer_ResponseWriter w) h;
       Status := Status w; Bytes := Bytes w |};
  http.Write := Writer_Write;
  http.WriteHeader := Writer_WriteHeader
}.

(** func (w GzipWriter) Write(b []byte) (int, error) *)
Definition GzipWriter_Write {W} `{http.ResponseWriter W} (w : GzipWriter W) (b : bytes)
    : GzipWriter W * (Z * option error) :=
  let '(z, inner, n) := gzip.Write_ (gz w) (GzipWriter_ResponseWriter w) b in
  ({| gz := z; GzipWriter_ResponseWriter := inner |}, n).

(** [Header] and [WriteHeader] are promoted from the embedded
    ResponseWriter. *)
#[global] Instance GzipWriter_ResponseWriter_impl {W} `{http.ResponseWriter W}
    : http.ResponseWriter (GzipWriter W) := {
  http.Header w := http.Header (GzipWriter_ResponseWriter w);
  http.setHeader w h :=
    {| gz := gz w; GzipWriter_ResponseWriter := http.setHeader (GzipWriter_ResponseWriter w) h |};
  http.Write := GzipWriter_Write;
  http.WriteHeader w s :=
    {| gz := gz w; GzipWriter_ResponseWriter := http.WriteHeader (GzipWriter_ResponseWriter w) s |}
}.

(** func (h Handler) ServeHTTP(w http.ResponseWriter, r *http.Request) *)
Definition Handler_ServeHTTP {F} `{http.Handler F} (h : Handler F)
    (W : Type) (RW : http.ResponseWriter W) (w : W) (r : http.Request) (e : Env)
    : http.result W :=
  match config e with
  | None => {| http.sink := w; http.req := r; http.world := e;
               http.exit := Panicked NilDereference |}
  | Some c =>
      if negb (gostrings.Index (http.Host r) (Hostname (Httpd c)) =? -1)
      then http.ServeHTTP (files h) W RW w r e
      else {| http.sink := http.NotFound w r; http.req := r; http.world := e;
              http.exit := Returned |}
  end.

#[global] Instance Handler_Handler {F} `{http.Handler F} : http.Handler (Handler F) :=
  Handler_ServeHTTP.

(** The two tests at the head of [GZip.ServeHTTP]. *)
Definition matching_uri (r : http.Request) : string :=
  let uri := http.RequestURI r in
  if String.eqb uri "/" then uri ++ "index.html" else uri.

Definition compresses {H} (h : GZip H) (r : http.Request) : bool :=
  gostrings.Contains (textproto.Get (http.RequestHeader r) "Accept-Encoding") "gzip"
  && regexp.Match (GZip_Regexp h) (matching_uri r).

(** The compressing branch of [GZip.ServeHTTP], with the compressor as
    the deferred [gz.Close()] leaves it. *)
Definition GZip_compressed {H} `{http.Handler H} (h : GZip H)
    (W : Type) (RW : http.ResponseWriter W) (w : W) (r : http.Request) (e : Env)
    : http.result W * gzip.Writer :=
  let w := http.setHeader w (textproto.Set_ (http.Header w) "Content-Encoding" "gzip") in
  let gz0 := gzip.NewWriter in
  let res := http.ServeHTTP (GZip_Handler h) (GzipWriter W) _
               {| gz := gz0; GzipWriter_ResponseWriter := w |} r e in
  (* defer gz.Close(): runs when the call above returns or panics *)
  let (z, w') := gzip.Close (gz (http.sink res)) (GzipWriter_ResponseWriter (http.sink res)) in
  ({| http.sink := w'; http.req := http.req res; http.world := http.world res;
      http.exit := http.exit res |}, z).

(** func (h GZip) ServeHTTP(w http.ResponseWriter, r *http.Request) *)
Definition GZip_ServeHTTP {H} `{http.Handler H} (h : GZip H)
    (W : Type) (RW : http.ResponseWriter W) (w : W) (r : http.Request) (e : Env)
    : http.result W :=
  if gostrings.Contains (textproto.Get (http.RequestHeader r) "Accept-Encoding") "gzip"
  then
    if regexp.Match (GZip_Regexp h) (matching_uri r)
    then fst (GZip_compressed h W RW w r e)
    else http.ServeHTTP (GZip_Handler h) W RW w r e
  else http.ServeHTTP (GZip_Handler h) W RW w r e.

#[global] Instance GZip_Handler_impl {H} `{http.Handler H} : http.Handler (GZip H) :=
  GZip_ServeHTTP.

(** func (s SslHandler) ServeHTTP(w http.ResponseWriter, r *http.Request) *)
Definition SslHandler_ServeHTTP (s : SslHandler)
    (W : Type) (RW : http.ResponseWriter W) (w : W) (r : http.Request) (e : Env)
    : http.result W :=
  let r := http.with_URL r (url.with_Scheme (http.URL r) "https") in
  let w := http.setHeader w
             (textproto.Add (http.Header w) "Strict-Transport-Security" "max-age=604800") in
  {| http.sink := http.Redirect w r (url.String_ (http.URL r)) 301;
     http.req := r; http.world := e; http.exit := Returned |}.

#[global] Instance SslHandler_Handler : http.Handler SslHandler := SslHandler_ServeHTTP.

(** The address part of the deferred closure in [Log.ServeHTTP]. *)
Definition addr (RemoteAddr : string) : string :=
  let idx := gostrings.LastIndex RemoteAddr ":" in
  let addr := if 0 <? idx then gostrings.slice_to RemoteAddr idx else RemoteAddr in
  gostrings.Trim addr "[]".

(** The text [fmt.Fprintf] produces in that closure. *)
Definition access_line (r : http.Request) (t : Z) (status bytes_ : Z) : string :=
  addr (http.RemoteAddr r) ++ " [" ++ time.Format t "02/Jan/2006 15:04:05 -0700" ++ "] "
  ++ http.Method r ++ " " ++ quote ++ http.RequestURI r ++ quote ++ " "
  ++ itoa status ++ " " ++ itoa bytes_ ++ " "
  ++ quote ++ textproto.Get (http.RequestHeader r) "referer" ++ quote ++ " "
  ++ quote ++ http.UserAgent r ++ quote ++ newline.

(** func (l Log) ServeHTTP(w http.ResponseWriter, r *http.Request) *)
Definition Log_ServeHTTP {H} `{http.Handler H} (l : Log H)
    (W : Type) (RW : http.ResponseWriter W) (w : W) (r : http.Request) (e : Env)
    : http.result W :=
  let lw := {| Writer_ResponseWriter := w; Status := 0; Bytes := 0 |} in
  let res := http.ServeHTTP (Log_Handler l) (Writer W) _ lw r e in
  (* the deferred closure: runs when the call above returns or panics;
     it reads lw and r through their pointers and the clock as it is then *)
  let lw := http.sink res in
  let r := http.req res in
  let e := http.world res in
  (* what Fprintf returns is dropped *)
  let e := fst (file_Write (Log_Writer l) (access_line r (now e) (Status lw) (Bytes lw)) e) in
  {| http.sink := Writer_ResponseWriter lw; http.req := r; http.world := e;
     http.exit := http.exit res |}.

#[global] Instance Log_Handler_impl {H} `{http.Handler H} : http.Handler (Log H) :=
  Log_ServeHTTP.

(** *** Start-up *)

Inductive installed : Type :=
| Site (h : Log (GZip (Handler http.fileHandler)))
| Redirector (h : Log SslHandler).

Record listener : Type := {
  address : string;
  certificate : option (string * string);    (* ListenAndServeTLS: cert and key *)
  handler : installed
}.

Inductive startup : Type :=
| Aborted (p : panic)
| NotModelled              (* the pattern is outside the regexp fragment *)
| Serving (ls : list listener).

Definition pattern (c : Config) : string :=
  "(?i)\.(" ++ gostrings.Join (Gzip (Httpd c)) "|" ++ ")$".

Definition writer (os : OS) (c : Config) : File :=
  if opens os (AccessLog (Httpd c)) then NamedFile (AccessLog (Httpd c)) else Stdout.

Definition site (os : OS) (c : Config) (re : regexp.Regexp)
    : Log (GZip (Handler http.fileHandler)) :=
  {| Log_Writer := writer os c;
     Path := AccessLog (Httpd c);
     Log_Handler :=
       {| GZip_Regexp := re;
          GZip_Handler :=
            {| files := {| http.root := Root (Httpd c);
                           http.serve := files_under os (Root (Httpd c)) |} |} |} |}.

(** func main() of main.go *)
Definition main (os : OS) (e : Env) : startup :=
  match config e with
  | None => Aborted NilDereference
  | Some c =>
      match regexp.Compile (pattern c) with
      | regexp.Parsed re =>
          Serving [ {| address := Listen (Httpd c); certificate := None;
                       handler := Site (site os c re) |} ]
      | regexp.ParseError code => Aborted (PanicMustCompile (pattern c) code)
      | regexp.OutsideFragment => NotModelled
      end
  end.

(** func main() of the TLS variant.  With [Ssl.Enabled] the two
    [ListenAndServe] loops run side by side. *)
Definition main_tls (os : OS) (e : Env) : startup :=
  match config e with
  | None => Aborted NilDereference
  | Some c =>
      match regexp.Compile (pattern c) with
      | regexp.Parsed re =>
          if Enabled (Ssl (Httpd c))
          then Serving
                 [ {| address := Https (Httpd c);
                      certificate := Some (Cert (Ssl (Httpd c)), Key (Ssl (Httpd c)));
                      handler := Site (site os c re) |};
                   {| address := Http (Httpd c); certificate := None;
                      handler := Redirector {| Log_Writer := writer os c;
                                               Path := AccessLog (Httpd c);
                                               Log_Handler := SslHandler_value |} |} ]
          else Serving [ {| address := Http (Httpd c); certificate := None;
                            handler := Site (site os c re) |} ]
      | regexp.ParseError code => Aborted (PanicMustCompile (pattern c) code)
      | regexp.OutsideFragment => NotModelled
      end
  end.

(** The process: package initialisation, then [main]. *)
Definition boot : Env := {| config := None; now := 0; written := []; appended := [] |}.

Definition run (main : OS -> Env -> startup) (os : OS) : startup :=
  let (e, out) := init os boot in
  match out with
  | Panicked p => Aborted p
  | Returned => main os e
  end.

(** The handler a listener was started with, called on one request:
    [handler.ServeHTTP(rw, req)], the call the server makes for a request
    it hands to the handler. *)
Definition serve_on (l : listener) (W : Type) (RW : http.ResponseWriter W) (w : W)
    (r : http.Request) (e : Env) : http.result W :=
  match handler l with
  | Site h => http.ServeHTTP h W RW w r e
  | Redirector h => http.ServeHTTP h W RW w r e
  end.

(** [globalOptionsHandler.ServeHTTP] of net/http (it also reads and drops
    the body of the request). *)
Definition globalOptionsHandler_ServeHTTP (W : Type) (RW : http.ResponseWriter W) (w : W)
    (r : http.Request) (e : Env) : http.result W :=
  {| http.sink := http.setHeader w (textproto.Set_ (http.Header w) "Content-Length" "0");
     http.req := r; http.world := e; http.exit := Returned |}.

(** [serverHandler.ServeHTTP] of net/http, for the servers the program
    starts ([Handler] set, [DisableGeneralOptionsHandler] not): a request
    [OPTIONS *] is answered by the library, every other goes to the
    handler. *)
Definition serverHandler_ServeHTTP (l : listener) (W : Type) (RW : http.ResponseWriter W)
    (w : W) (r : http.Request) (e : Env) : http.result W :=
  if String.eqb (http.RequestURI r) "*" && String.eqb (http.Method r) "OPTIONS"
  then globalOptionsHandler_ServeHTTP W RW w r e
  else serve_on l W RW w r e.

End Program.

(** ** Vocabulary of the specification *)

(** [c] occurs in [s]. *)
Fixpoint occurs (c : ascii) (s : string) : bool :=
  match s with
  | EmptyString => false
  | String x s' => Ascii.eqb x c || occurs c s'
  end.

(** [sub] is a substring of [s]. *)
Definition substring_of (sub s : string) : Prop :=
  exists pre post, s = pre ++ sub ++ post.

Definition first_byte (s : string) : option ascii :=
  match s with
  | EmptyString => None
  | String c _ => Some c
  end.

Fixpoint last_byte (s : string) : option ascii :=
  match s with
  | EmptyString => None
  | String c EmptyString => Some c
  | String _ s' => last_byte s'
  end.

Definition is_bracket (c : ascii) : bool := gostrings.in_cutset c "[]".

Definition bracket_at (o : option ascii) : bool :=
  match o with
  | Some c => is_bracket c
  | None => false
  end.

(** [m] is [s] without its leading and trailing square brackets. *)
Definition stripped (s m : string) : Prop :=
  exists l r, s = l ++ m ++ r
    /\ gostrings.all_bytes is_bracket l = true
    /\ gostrings.all_bytes is_bracket r = true
    /\ bracket_at (first_byte m) = false
    /\ bracket_at (last_byte m) = false.

(** The codes passed to [WriteHeader] and the slices passed to [Write], in
    the order of the calls. *)
Definition status_calls (l : list http.action) : list Z :=
  flat_map (fun a => match a with http.CallWriteHeader code => [code] | _ => [] end) l.

Definition write_calls (l : list http.action) : list string :=
  flat_map (fun a => match a with http.CallWrite p => [p] | _ => [] end) l.

(** The same, for the calls a probe has seen. *)
Definition statuses (evs : list http.event) : list Z :=
  flat_map (fun ev => match ev with http.EvWriteHeader code => [code] | _ => [] end) evs.

Definition writes (evs : list http.event) : list string :=
  flat_map (fun ev => match ev with http.EvWrite p => [p] | _ => [] end) evs.


(** The time a behaviour takes. *)
Definition duration (l : list http.action) : Z :=
  fold_right (fun a n => match a with http.Elapse d => Z.max 0 d + n | _ => n end) 0 l.

(** What the compressor hands on, from state [c], for the slices [ps]
    written in turn. *)
Fixpoint compressed {GZ : gzip.Compressor} (c : gzip.state) (ps : list string) : list string :=
  match ps with
  | [] => []
  | p :: ps' => (snd (gzip.feed c p) ++ compressed (fst (gzip.feed c p)) ps')%list
  end.

(** A property of a writer that every call made on it keeps. *)
Record kept_by_calls {V : Type} `{http.ResponseWriter V} (P : V -> Prop) : Prop := {
  kept_by_setHeader : forall v h, P v -> P (http.setHeader v h);
  kept_by_WriteHeader : forall v code, P v -> P (http.WriteHeader v code);
  kept_by_Write : forall v p, P v -> P (fst (http.Write v p))
}.

(** The compressor's state after the slices [ps], and the whole stream a
    compressor started afresh produces for them once closed. *)
Definition compressor_after {GZ : gzip.Compressor} (c : gzip.state) (ps : list string) : gzip.state :=
  fold_left (fun c p => fst (gzip.feed c p)) ps c.

Definition gzip_stream {GZ : gzip.Compressor} (ps : list string) : list string :=
  (compressed gzip.start ps ++ gzip.finish (compressor_after gzip.start ps))%list.

(** What [http.NotFound] does, as a behaviour. *)
Definition not_found : http.behaviour := {|
  http.actions :=
    [ http.SetHeader "Content-Type" "text/plain; charset=utf-8";
      http.SetHeader "X-Content-Type-Options" "nosniff";
      http.CallWriteHeader 404;
      http.CallWrite ("404 page not found" ++ newline) ];
  http.ending := Returned
|}.

(** What [Handler.ServeHTTP] does for a request, as a behaviour: that of
    the file server when the host passes the filter, [not_found] otherwise. *)
Definition filtered (c : Config) (h : Handler http.fileHandler) (r : http.Request)
    : http.behaviour :=
  if negb (gostrings.Index (http.Host r) (Hostname (Httpd c)) =? -1)
  then http.serve (files h) r
  else not_found.

(** What [Log.ServeHTTP] promises for one request: one more write on the
    log, made of the recorder and the request as the inner handler left
    them and of the clock as it stands when that handler is done; the
    inner handler's return or panic is passed on. *)
Definition logs_once {TF : time.Formatter} {H : Type} {HH : http.Handler H} (l : Log H)
    (W : Type) (RW : http.ResponseWriter W) (w : W) (r : http.Request) (e : Env) : Prop :=
  let inner := http.ServeHTTP (Log_Handler l) (Writer W) _
                 {| Writer_ResponseWriter := w; Status := 0; Bytes := 0 |} r e in
  let res := Log_ServeHTTP l W RW w r e in
  written (http.world res)
  = (written e ++ [(Log_Writer l,
                    access_line (http.req inner) (now (http.world inner))
                      (Status (http.sink inner)) (Bytes (http.sink inner)))])%list
  /\ now (http.world res) = now (http.world inner)
  /\ now e <= now (http.world inner)
  /\ http.exit res = http.exit inner.

(** [obs] reads off a writer the calls it has received, each call adding
    its event at the end: true of a probe, and of any writer that passes
    its calls on to one. *)
Record observes {V : Type} `{http.ResponseWriter V} (obs : V -> list http.event) : Prop := {
  obs_setHeader : forall v h, obs (http.setHeader v h) = (obs v ++ [http.EvHeader h])%list;
  obs_WriteHeader :
    forall v code, obs (http.WriteHeader v code) = (obs v ++ [http.EvWriteHeader code])%list;
  obs_Write : forall v p, obs (fst (http.Write v p)) = (obs v ++ [http.EvWrite p])%list
}.

(** The file a listener's [Log] writes to. *)
Definition log_of (l : listener) : File :=
  match handler l with
  | Site h => Log_Writer h
  | Redirector h => Log_Writer h
  end.

(** What the handler behind a listener's [Log] does, on the recorder
    [Log.ServeHTTP] builds around the writer it is given. *)
Definition behind_log {GZ : gzip.Compressor} {UE : url.Escaper} (l : listener)
    (W : Type) (RW : http.ResponseWriter W) (w : W) (r : http.Request) (e : Env)
    : http.result (Writer W) :=
  let lw := {| Writer_ResponseWriter := w; Status := 0; Bytes := 0 |} in
  match handler l with
  | Site h => http.ServeHTTP (Log_Handler h) (Writer W) _ lw r e
  | Redirector h => http.ServeHTTP (Log_Handler h) (Writer W) _ lw r e
  end.

(** An extension written with ASCII characters none of which has a meaning
    of its own in a regular expression. *)
Definition plain (ext : string) : bool :=
  gostrings.all_bytes (fun c => regexp.is_ascii c && negb (regexp.is_meta c)) ext.

(** [s] without a leading copy of the ASCII text [e], case apart in the
    sense of [(?i)]. *)
Fixpoint strip_fold (e s : string) : option string :=
  match e with
  | EmptyString => Some s
  | String c e' =>
      match regexp.fold_step c s with
      | Some s' => strip_fold e' s'
      | None => None
      end
  end.

(** The text [a] is the ASCII text [b], case apart in the sense of
    [(?i)]: letters in either case, and long s for s, the Kelvin sign for
    k. *)
Definition fold_eq (a b : string) : bool :=
  match strip_fold b a with
  | Some EmptyString => true
  | _ => false
  end.

(** [s] ends with [suffix], case apart. *)
Definition ends_with_fold (s suffix : string) : Prop :=
  exists pre tail, s = pre ++ tail /\ fold_eq tail suffix = true.

(** The effective path of the specification. *)
Definition effective_path (path : string) : string :=
  if String.eqb path "/" then "index.html" else path.

(** The condition the specification puts on compression, for the
    Accept-Encoding value [accept] and the path [path]. *)
Definition eligible (extensions : list string) (accept path : string) : Prop :=
  substring_of "gzip" accept
  /\ exists ext, In ext extensions /\ ends_with_fold (effective_path path) ("." ++ ext).

(** The frame the parser reaches after a run of literal characters, and
    after literal alternatives separated by [|]. *)
Fixpoint push_literals (fold : bool) (f : regexp.frame) (s : string) : regexp.frame :=
  match s with
  | EmptyString => f
  | String c s' => push_literals fold (regexp.push_atom f (regexp.Literal c fold)) s'
  end.

Fixpoint push_alternatives (fold : bool) (f : regexp.frame) (exts : list string) : regexp.frame :=
  match exts with
  | [] => f
  | [e] => push_literals fold f e
  | e :: exts' => push_alternatives fold (regexp.next_alt (push_literals fold f e)) exts'
  end.


(** A behaviour's calls other than [Write]. *)
Definition without_writes (l : list http.action) : list http.action :=
  List.filter (fun a => match a with http.CallWrite _ => false | _ => true end) l.

(** The header map after the header calls among [l], made in turn on [h]. *)
Definition headers_after (l : list http.action) (h : MIMEHeader) : MIMEHeader :=
  fold_left (fun h a =>
               match a with
               | http.SetHeader k v => textproto.Set_ h k v
               | http.AddHeader k v => textproto.Add h k v
               | http.DelHeader k => textproto.Del h k
               | _ => h
               end) l h.

(** The calls a writer under a [GzipWriter] receives for the calls [l]
    made on the wrapper, the compressor being in state [c], as long as no
    write fails: each [Write] gives way to one [Write] per chunk the
    compressor hands on, every other call stays where it is. *)
Fixpoint diverted {GZ : gzip.Compressor} (c : gzip.state) (l : list http.action)
    : list http.action :=
  match l with
  | [] => []
  | http.CallWrite p :: l' =>
      (map http.CallWrite (snd (gzip.feed c p)) ++ diverted (fst (gzip.feed c p)) l')%list
  | a :: l' => a :: diverted c l'
  end.

(** ** Stand-ins for the libraries, used by the worked examples *)

Module sample.

(** A compressor that only frames: a 10-byte header before the first
    slice, every slice as it is, an 8-byte trailer on [Close]. *)
Definition framing : gzip.Compressor := {|
  gzip.state := bool;
  gzip.start := false;
  gzip.feed := fun started p => (true, if started then [p] else ["GZIPHEADER"; p]);
  gzip.finish := fun started => if started then ["CRC+SIZE"] else ["GZIPHEADER"; "CRC+SIZE"]
|}.

(** The instant as a number, whatever the layout. *)
Definition counter : time.Formatter := {| time.Format := fun t _ => itoa t |}.

(** No escaping: right for paths and hosts that need none. *)
Definition verbatim : url.Escaper := {|
  url.EscapedPath := url.Path;
  url.EscapedFragment := url.Fragment;
  url.escapeHost := fun h => h;
  url.userinfoString := fun ui => if url.passwordSet ui
                                  then url.username ui ++ ":" ++ url.password ui
                                  else url.username ui
|}.

Definition config_value : Config := {|
  Httpd := {|
    Listen := ":8080"; Http := ":80"; Https := ":443";
    Ssl := {| Key := "server.key"; Cert := "server.crt"; Enabled := true |};
    Hostname := "example.com"; Root := "/var/www"; AccessLog := "access.log";
    Gzip := ["html"; "css"; "js"]
  |}
|}.

(** A decoder that knows one document. *)
Definition decoder : json.Decoder := {|
  json.Decode := fun s => if String.eqb s "{}" then inl config_value else inr "unexpected EOF"
|}.

Definition request (method uri host accept : string) : http.Request := {|
  http.Method := method;
  http.URL := url.origin_form uri false EmptyString;
  http.RequestHeader := {[ "Accept-Encoding" := [accept] ]};
  http.Host := host;
  http.RemoteAddr := "203.0.113.5:51000";
  http.RequestURI := uri
|}.

Definition env : Env :=
  {| config := Some config_value; now := 1000; written := []; appended := [] |}.

(** A file server that answers every request with one page. *)
Definition page : http.behaviour := {|
  http.actions := [http.CallWriteHeader 200; http.Elapse 5; http.CallWrite "<html>hello</html>"];
  http.ending := Returned
|}.

Definition os : OS := {|
  config_json := Some "{}";
  opens := fun _ => true;
  files_under := fun _ _ => page
|}.

(** The expression [main] compiles for [config_value], and the handlers it
    installs. *)
Definition re : regexp.Regexp :=
  match regexp.Compile (pattern config_value) with
  | regexp.Parsed re => re
  | _ => regexp.EmptyMatch
  end.

Definition site_handler : Log (GZip (Handler http.fileHandler)) := site os config_value re.

Definition site_listener : listener :=
  {| address := ":443"; certificate := Some ("server.crt", "server.key");
     handler := Site site_handler |}.

Definition redirect_listener : listener :=
  {| address := ":80"; certificate := None;
     handler := Redirector {| Log_Writer := NamedFile "access.log"; Path := "access.log";
                              Log_Handler := SslHandler_value |} |}.

(** A request for a script, with a query string. *)
Definition versioned_script : http.Request := {|
  http.Method := "GET";
  http.URL := url.origin_form "/app.js" false "v=2";
  http.RequestHeader := {[ "Accept-Encoding" := ["gzip, deflate"] ]};
  http.Host := "www.example.com";
  http.RemoteAddr := "203.0.113.5:51000";
  http.RequestURI := "/app.js?v=2"
|}.

(** A configuration that names no extension, and a request for a name
    that ends in a dot. *)
Definition bare_config : Config := {|
  Httpd := {|
    Listen := ":8080"; Http := ":80"; Https := ":443";
    Ssl := {| Key := EmptyString; Cert := EmptyString; Enabled := false |};
    Hostname := "example.com"; Root := "/var/www"; AccessLog := "access.log";
    Gzip := []
  |}
|}.

Definition dotted : http.Request := request "GET" "/archive." "www.example.com" "gzip".

(** A site whose file server writes, takes its time and panics. *)
Definition crash : http.behaviour := {|
  http.actions := [http.CallWrite "half a page"; http.Elapse 7];
  http.ending := Panicked (PanicValue "boom")
|}.

Definition crashing_site : Log (GZip (Handler http.fileHandler)) :=
  {| Log_Writer := NamedFile "access.log"; Path := "access.log";
     Log_Handler :=
       {| GZip_Regexp := re;
          GZip_Handler := {| files := {| http.root := "/var/www"; http.serve := fun _ => crash |} |} |} |}.

Definition crashing_listener : listener :=
  {| address := ":8080"; certificate := None; handler := Site crashing_site |}.

End sample.

(** * Properties *)

(** ** Strings *)

#[local] Arguments String.append !_ _ / : simpl nomatch.

Lemma append_empty_r (s : string) : s ++ EmptyString = s.
Proof. induction s as [|c s IH]; simpl; [reflexivity | now rewrite IH]. Qed.

Lemma append_assoc (a b c : string) : (a ++ b) ++ c = a ++ (b ++ c).
Proof. induction a as [|x a IH]; simpl; [reflexivity | now rewrite IH]. Qed.

Lemma len_nonneg (s : string) : 0 <= len s.
Proof. unfold len. lia. Qed.

Lemma HasPrefix_spec (s p : string) :
  gostrings.HasPrefix s p = true <-> exists rest, s = p ++ rest.
Proof.
  revert s. induction p as [|c p IH]; intros s; simpl.
  - split; [intros _; now exists s | reflexivity].
  - destruct s as [|x s]; simpl.
    + split; [discriminate | intros [rest Hr]; discriminate].
    + rewrite andb_true_iff, Ascii.eqb_eq, IH. split.
      * intros [-> [rest ->]]. now exists rest.
      * intros [rest [= -> ->]]. split; [reflexivity | now exists rest].
Qed.

Lemma substring_of_cons (c : ascii) (s sub : string) :
  gostrings.HasPrefix (String c s) sub = false ->
  (substring_of sub (String c s) <-> substring_of sub s).
Proof.
  intros Hp. split.
  - intros ([|x pre] & post & E).
    + exfalso. apply not_true_iff_false in Hp. apply Hp.
      apply HasPrefix_spec. exists post. exact E.
    + injection E as -> ->. now exists pre, post.
  - intros (pre & post & ->). now exists (String c pre), post.
Qed.

(** [strings.Index] answers -1 when the needle does not occur and an
    offset otherwise. *)
Lemma index_from_spec (s sub : string) (i : Z) :
  0 <= i ->
  (gostrings.index_from i s sub = -1 /\ ~ substring_of sub s)
  \/ (i <= gostrings.index_from i s sub /\ substring_of sub s).
Proof.
  revert i. induction s as [|c s IH]; intros i Hi; simpl.
  - destruct (gostrings.HasPrefix EmptyString sub) eqn:E.
    + right. split; [lia |].
      apply HasPrefix_spec in E as [rest E]. exists EmptyString, rest. exact E.
    + left. split; [reflexivity |]. intros ([|x pre] & post & Hs); [| discriminate].
      apply not_true_iff_false in E. apply E. apply HasPrefix_spec. now exists post.
  - destruct (gostrings.HasPrefix (String c s) sub) eqn:E.
    + right. split; [lia |].
      apply HasPrefix_spec in E as [rest E]. exists EmptyString, rest. exact E.
    + rewrite (substring_of_cons _ _ _ E).
      destruct (IH (i + 1)) as [[H1 H2] | [H1 H2]]; [lia | now left | right].
      split; [lia | exact H2].
Qed.

Lemma Index_missing_iff (s sub : string) :
  gostrings.Index s sub = -1 <-> ~ substring_of sub s.
Proof.
  unfold gostrings.Index.
  destruct (index_from_spec s sub 0) as [[H1 H2] | [H1 H2]]; [lia | | ].
  - split; auto.
  - split; [lia | contradiction].
Qed.

Lemma Contains_iff (s sub : string) :
  gostrings.Contains s sub = true <-> substring_of sub s.
Proof.
  unfold gostrings.Contains, gostrings.Index. rewrite Z.leb_le.
  destruct (index_from_spec s sub 0) as [[H1 H2] | [H1 H2]]; [lia | | ].
  - split; [lia | contradiction].
  - split; auto.
Qed.

(** ** A write on a file *)

Lemma file_Write_world (f : File) (p : string) (e : Env) :
  config (fst (file_Write f p e)) = config e
  /\ now (fst (file_Write f p e)) = now e
  /\ written (fst (file_Write f p e)) = (written e ++ [(f, p)])%list
  /\ appended (fst (file_Write f p e))
     = (if writable f then appended e ++ [(f, p)] else appended e)%list.
Proof. unfold file_Write. destruct (writable f); repeat split. Qed.

Lemma file_Write_config (f : File) (p : string) (e : Env) :
  config (fst (file_Write f p e)) = config e.
Proof. apply file_Write_world. Qed.

Lemma file_Write_now (f : File) (p : string) (e : Env) :
  now (fst (file_Write f p e)) = now e.
Proof. apply file_Write_world. Qed.

Lemma file_Write_written (f : File) (p : string) (e : Env) :
  written (fst (file_Write f p e)) = (written e ++ [(f, p)])%list.
Proof. apply file_Write_world. Qed.

Lemma file_Write_appended (f : File) (p : string) (e : Env) :
  appended (fst (file_Write f p e))
  = if writable f then (appended e ++ [(f, p)])%list else appended e.
Proof. unfold file_Write. destruct (writable f); reflexivity. Qed.

(** ** The logged address *)

Lemma HasPrefix_colon (s : string) :
  gostrings.HasPrefix s ":" = match s with String c _ => Ascii.eqb c ":" | EmptyString => false end.
Proof. destruct s as [|c s]; simpl; [reflexivity | apply andb_true_r]. Qed.

Lemma last_index_no_colon (s : string) (i found : Z) :
  occurs ":" s = false -> gostrings.last_index_from i found s ":" = found.
Proof.
  revert i found. induction s as [|c s IH]; intros i found H.
  - reflexivity.
  - simpl in H. apply orb_false_iff in H as [Hc Hs].
    cbn [gostrings.last_index_from]. rewrite HasPrefix_colon, Hc. now apply IH.
Qed.

Lemma last_index_split (host port : string) (i found : Z) :
  occurs ":" port = false ->
  gostrings.last_index_from i found (host ++ ":" ++ port) ":" = i + len host.
Proof.
  intros Hp. revert i found. induction host as [|c host IH]; intros i found.
  - simpl. rewrite last_index_no_colon by exact Hp. unfold len. simpl. lia.
  - simpl. rewrite IH. unfold len. simpl String.length. lia.
Qed.

Lemma slice_to_append (host rest : string) :
  gostrings.slice_to (host ++ rest) (len host) = host.
Proof.
  unfold gostrings.slice_to, len. rewrite Nat2Z.id.
  induction host as [|c host IH]; simpl.
  - now destruct rest.
  - now rewrite IH.
Qed.

Lemma TrimLeft_spec (s cutset : string) :
  exists l, s = l ++ gostrings.TrimLeft s cutset
    /\ gostrings.all_bytes (fun c => gostrings.in_cutset c cutset) l = true
    /\ match first_byte (gostrings.TrimLeft s cutset) with
       | Some c => gostrings.in_cutset c cutset = false
       | None => True
       end.
Proof.
  induction s as [|c s (l & E & Hl & Hf)]; simpl.
  - exists EmptyString. repeat split.
  - destruct (gostrings.in_cutset c cutset) eqn:Hc.
    + exists (String c l). simpl. rewrite Hc, Hl. repeat split; [now f_equal | exact Hf].
    + exists EmptyString. simpl. repeat split. exact Hc.
Qed.

Lemma TrimRight_spec (s cutset : string) :
  exists r, s = gostrings.TrimRight s cutset ++ r
    /\ gostrings.all_bytes (fun c => gostrings.in_cutset c cutset) r = true
    /\ match last_byte (gostrings.TrimRight s cutset) with
       | Some c => gostrings.in_cutset c cutset = false
       | None => True
       end
    /\ (gostrings.TrimRight s cutset = EmptyString
        \/ first_byte (gostrings.TrimRight s cutset) = first_byte s).
Proof.
  induction s as [|c s (r & E & Hr & Hlast & Hfirst)]; simpl.
  - exists EmptyString. repeat split. now left.
  - destruct (gostrings.TrimRight s cutset) as [|d t] eqn:Ht.
    + destruct (gostrings.in_cutset c cutset) eqn:Hc.
      * exists (String c r). simpl. rewrite Hc, Hr. simpl in E. subst s.
        repeat split. now left.
      * exists r. simpl in *. subst s. repeat split; [exact Hr | exact Hc | now right].
    + exists r. simpl. rewrite E at 1. repeat split; [exact Hr | exact Hlast | now right].
Qed.

(** [strings.Trim s "[]"] is [s] without its leading and trailing brackets. *)
Lemma Trim_stripped (s : string) : stripped s (gostrings.Trim s "[]").
Proof.
  unfold gostrings.Trim.
  destruct (TrimLeft_spec s "[]") as (l & El & Hl & Hfirst).
  destruct (TrimRight_spec (gostrings.TrimLeft s "[]") "[]") as (r & Er & Hr & Hlast & Hkeep).
  exists l, r. split; [| split; [exact Hl | split; [exact Hr | split]]].
  - rewrite <- Er. exact El.
  - destruct Hkeep as [-> | ->]; [reflexivity |].
    unfold bracket_at. destruct (first_byte (gostrings.TrimLeft s "[]")); [exact Hfirst | reflexivity].
  - unfold bracket_at.
    destruct (last_byte (gostrings.TrimRight (gostrings.TrimLeft s "[]") "[]")); [exact Hlast | reflexivity].
Qed.

Lemma TrimLeft_unchanged (s cutset : string) :
  match first_byte s with Some c => gostrings.in_cutset c cutset = false | None => True end ->
  gostrings.TrimLeft s cutset = s.
Proof. destruct s as [|c s]; simpl; [reflexivity | now intros ->]. Qed.

Lemma TrimRight_unchanged (s cutset : string) :
  match last_byte s with Some c => gostrings.in_cutset c cutset = false | None => True end ->
  gostrings.TrimRight s cutset = s.
Proof.
  induction s as [|c s IH]; [reflexivity |].
  cbn [last_byte gostrings.TrimRight]. destruct s as [|d s].
  - simpl. now intros ->.
  - intros H. rewrite (IH H). reflexivity.
Qed.

Lemma Trim_unchanged (s : string) :
  bracket_at (first_byte s) = false -> bracket_at (last_byte s) = false ->
  gostrings.Trim s "[]" = s.
Proof.
  intros Hf Hl. unfold gostrings.Trim.
  rewrite (TrimLeft_unchanged s).
  - apply TrimRight_unchanged. destruct (last_byte s); [exact Hl | exact I].
  - destruct (first_byte s); [exact Hf | exact I].
Qed.

Lemma LastIndex_no_colon (s : string) :
  occurs ":" s = false -> gostrings.LastIndex s ":" = -1.
Proof. apply last_index_no_colon. Qed.

Section LoggedAddress.

Context {GZ : gzip.Compressor} {TF : time.Formatter} {UE : url.Escaper} {JD : json.Decoder}.

Lemma addr_truncated (host port : string) :
  occurs ":" port = false -> host <> EmptyString ->
  addr (host ++ ":" ++ port) = gostrings.Trim host "[]".
Proof.
  intros Hp Hh. unfold addr, gostrings.LastIndex.
  rewrite last_index_split by exact Hp.
  replace (0 <? 0 + len host) with true.
  - replace (0 + len host) with (len host) by lia. now rewrite slice_to_append.
  - symmetry. apply Z.ltb_lt. destruct host; [contradiction | unfold len; simpl; lia].
Qed.

Lemma addr_whole (s : string) :
  occurs ":" s = false \/ (exists port, s = ":" ++ port /\ occurs ":" port = false) ->
  addr s = gostrings.Trim s "[]".
Proof.
  intros [H | (port & -> & H)]; unfold addr.
  - now rewrite LastIndex_no_colon.
  - unfold gostrings.LastIndex.
    change (":" ++ port) with (EmptyString ++ ":" ++ port).
    rewrite (last_index_split EmptyString port 0 (-1) H). reflexivity.
Qed.

End LoggedAddress.

(** C7, amended: the logged address is the remote address cut at its last
    colon when that colon is not the first byte, and the whole remote address
    otherwise; every leading and trailing square bracket is then removed.
    The two addresses of the specification are logged as it says, and an
    address with no colon and no bracket at either end is logged as it is. *)
Theorem addr_logged (RemoteAddr : string) :
  (forall host port,
      RemoteAddr = host ++ ":" ++ port -> occurs ":" port = false -> host <> EmptyString ->
      stripped host (addr RemoteAddr))
  /\ (occurs ":" RemoteAddr = false
      \/ (exists port, RemoteAddr = ":" ++ port /\ occurs ":" port = false) ->
      stripped RemoteAddr (addr RemoteAddr))
  /\ (occurs ":" RemoteAddr = false ->
      bracket_at (first_byte RemoteAddr) = false ->
      bracket_at (last_byte RemoteAddr) = false ->
      addr RemoteAddr = RemoteAddr)
  /\ addr "203.0.113.5:51000" = "203.0.113.5"
  /\ addr "[::1]:9999" = "::1".
Proof.
  repeat split.
  - intros host port -> Hport Hhost. rewrite addr_truncated by assumption.
    apply Trim_stripped.
  - intros Hs. rewrite addr_whole by exact Hs. apply Trim_stripped.
  - intros Hc Hf Hl. rewrite addr_whole by (now left). now apply Trim_unchanged.
Qed.

Lemma addr_logged_witness :
  stripped "[2001:db8::1]" (addr "[2001:db8::1]:443")
  /\ addr "localhost" = "localhost".
Proof.
  split.
  - apply (proj1 (addr_logged "[2001:db8::1]:443") "[2001:db8::1]" "443");
      [reflexivity | reflexivity | discriminate].
  - apply (proj1 (proj2 (proj2 (addr_logged "localhost")))); reflexivity.
Defined.

(** C7 as stated fails: an address with no colon is not always logged
    unchanged (its brackets go), and a colon in first place is not cut at. *)
Lemma addr_no_colon_changed :
  occurs ":" "[fe80]" = false
  /\ addr "[fe80]" = "fe80"
  /\ addr "[fe80]" <> "[fe80]"
  /\ addr ":8080" = ":8080".
Proof. repeat split. discriminate. Qed.

(** ** The recorder *)

Section Recorder.

Context {W : Type} {RW : http.ResponseWriter W}.

Lemma perform_all_cons (V : Type) (RV : http.ResponseWriter V) (a : http.action)
    (l : list http.action) (st : V * Env) :
  http.perform_all (a :: l) st = http.perform_all l (http.perform a st).
Proof. reflexivity. Qed.

Lemma Writer_Write_Status (lw : Writer W) (b : string) :
  Status (fst (Writer_Write lw b)) = Status lw.
Proof. unfold Writer_Write. now destruct (http.Write (Writer_ResponseWriter lw) b). Qed.

Lemma Writer_Write_Bytes (lw : Writer W) (b : string) :
  Bytes (fst (Writer_Write lw b)) = int (Bytes lw + len b).
Proof. unfold Writer_Write. now destruct (http.Write (Writer_ResponseWriter lw) b). Qed.

Lemma Writer_Write_inner (lw : Writer W) (b : string) :
  Writer_ResponseWriter (fst (Writer_Write lw b))
  = fst (http.Write (Writer_ResponseWriter lw) b).
Proof. unfold Writer_Write. now destruct (http.Write (Writer_ResponseWriter lw) b). Qed.

Lemma Writer_Write_result (lw : Writer W) (b : string) :
  snd (Writer_Write lw b) = snd (http.Write (Writer_ResponseWriter lw) b).
Proof. unfold Writer_Write. now destruct (http.Write (Writer_ResponseWriter lw) b). Qed.

Lemma perform_Status (a : http.action) (lw : Writer W) (e : Env) :
  Status (fst (http.perform a (lw, e)))
  = match a with http.CallWriteHeader code => code | _ => Status lw end.
Proof. destruct a; simpl; try reflexivity. apply Writer_Write_Status. Qed.

Lemma last_cons_default (cs : list Z) (code d : Z) :
  List.last (code :: cs) d = List.last cs code.
Proof.
  revert code d. induction cs as [|c cs IH]; intros code d; [reflexivity |].
  change (List.last (code :: c :: cs) d) with (List.last (c :: cs) d).
  now rewrite (IH c d), (IH c code).
Qed.

Lemma last_status_calls_cons (a : http.action) (l : list http.action) (d : Z) :
  List.last (status_calls (a :: l)) d
  = List.last (status_calls l) (match a with http.CallWriteHeader code => code | _ => d end).
Proof. destruct a; try reflexivity. apply last_cons_default. Qed.

Lemma perform_all_Status (l : list http.action) (lw : Writer W) (e : Env) :
  Status (fst (http.perform_all l (lw, e))) = List.last (status_calls l) (Status lw).
Proof.
  revert lw e. induction l as [|a l IH]; intros lw e; [reflexivity |].
  rewrite perform_all_cons, last_status_calls_cons.
  destruct (http.perform a (lw, e)) as [lw' e'] eqn:E.
  rewrite IH. f_equal.
  change lw' with (fst (lw', e')). rewrite <- E. apply perform_Status.
Qed.

End Recorder.

(** C1 as stated fails: a handler that writes without calling
    [WriteHeader] leaves the recorded status at 0, while the status sent to
    the client is the default 200. *)
Lemma Writer_status_not_defaulted :
  let lw := fst (http.perform_all [http.CallWrite "<p>hi</p>"]
                   ({| Writer_ResponseWriter := http.newResponse (sample.request "GET" "/" "example.com" "gzip");
                       Status := 0; Bytes := 0 |}, sample.env)) in
  Status lw = 0 /\ Status lw <> 200 /\ http.status (Writer_ResponseWriter lw) = 200.
Proof. vm_compute. repeat split. discriminate. Qed.

(** ** Start-up *)

Section Startup.

Context {JD : json.Decoder}.

(** C10: when config.json cannot be opened, [init] returns with [config]
    still nil, and [main] (either variant) then stops on a nil-pointer
    dereference, not on an error about the configuration. *)
Theorem missing_config_nil_dereference (os : OS) :
  config_json os = None ->
  init os boot = (boot, Returned)
  /\ config (fst (init os boot)) = None
  /\ run main os = Aborted NilDereference
  /\ run main_tls os = Aborted NilDereference
  /\ (forall msg, run main os <> Aborted (PanicValue msg)).
Proof.
  intros Hopen. unfold run, init. rewrite Hopen. simpl. repeat split.
  intros msg. discriminate.
Qed.

End Startup.

Lemma missing_config_nil_dereference_witness :
  run (JD := sample.decoder)
    main {| config_json := None; opens := fun _ => true; files_under := fun _ _ => sample.page |}
  = Aborted NilDereference.
Proof.
  apply (missing_config_nil_dereference
           (JD := sample.decoder)
           {| config_json := None; opens := fun _ => true; files_under := fun _ _ => sample.page |}).
  reflexivity.
Defined.

(** ** The host filter *)

Lemma statuses_app (a b : list http.event) :
  statuses (a ++ b)%list = (statuses a ++ statuses b)%list.
Proof. unfold statuses. apply flat_map_app. Qed.

Lemma writes_app (a b : list http.event) :
  writes (a ++ b)%list = (writes a ++ writes b)%list.
Proof. unfold writes. apply flat_map_app. Qed.

Lemma NotFound_on_probe {W} `{http.ResponseWriter W} (w : http.Probe W) (r : http.Request) :
  statuses (http.seen (http.NotFound w r)) = (statuses (http.seen w) ++ [404])%list
  /\ writes (http.seen (http.NotFound w r))
     = (writes (http.seen w) ++ [("404 page not found" ++ newline)%string])%list.
Proof.
  unfold http.NotFound, http.Error, http.Fprintln. cbn [http.setHeader http.WriteHeader
    http.Header http.Write http.Probe_ResponseWriter http.seen http.probed].
  match goal with |- context [http.Write ?x ?p] => destruct (http.Write x p) as [w' n] end.
  cbn [fst http.seen]. rewrite !statuses_app, !writes_app. cbn. rewrite !app_nil_r. split; reflexivity.
Qed.

Lemma response_Write_sent (w : http.response) (p : string) :
  http.wroteHeader w = true ->
  http.wroteHeader (fst (http.response_Write w p)) = true
  /\ http.status (fst (http.response_Write w p)) = http.status w
  /\ http.sentHeader (fst (http.response_Write w p)) = http.sentHeader w.
Proof.
  intros Hw. unfold http.response_Write. rewrite Hw.
  destruct (len p =? 0); [now repeat split |].
  destruct (negb (http.bodyAllowedForStatus (http.status w))); [now repeat split |].
  cbv zeta.
  destruct (match http.contentLength (http.counted w (len p)) with
            | Some cl => cl <? http.bodyWritten (http.counted w (len p))
            | None => false
            end); [now repeat split |].
  destruct (String.eqb (http.reqMethod (http.counted w (len p))) "HEAD"); now repeat split.
Qed.

Lemma response_WriteHeader_first (w : http.response) (code : Z) :
  http.wroteHeader w = false -> http.finalCode code = true ->
  http.wroteHeader (http.response_WriteHeader w code) = true
  /\ http.status (http.response_WriteHeader w code) = code
  /\ http.sentHeader (http.response_WriteHeader w code) = http.handlerHeader w.
Proof.
  intros Hw Hf. unfold http.finalCode in Hf. apply andb_true_iff in Hf as [Hv Hi].
  apply negb_true_iff in Hv, Hi.
  unfold http.response_WriteHeader. rewrite Hw, Hv, Hi. now repeat split.
Qed.

(** A final code on a response whose handler has declared no length,
    and a slice written after it. *)
Lemma response_WriteHeader_undeclared (w : http.response) (code : Z) :
  http.wroteHeader w = false -> http.finalCode code = true ->
  textproto.Get (http.handlerHeader w) "Content-Length" = EmptyString ->
  http.response_WriteHeader w code
  = {| http.reqMethod := http.reqMethod w; http.handlerHeader := http.handlerHeader w;
       http.wroteHeader := true; http.status := code; http.sentHeader := http.handlerHeader w;
       http.contentLength := None; http.bodyWritten := http.bodyWritten w;
       http.informational := http.informational w; http.sentBody := http.sentBody w |}.
Proof.
  intros Hw Hf Hcl. unfold http.finalCode in Hf. apply andb_true_iff in Hf as [Hv Hi].
  apply negb_true_iff in Hv, Hi.
  unfold http.response_WriteHeader. rewrite Hw, Hv, Hi, Hcl. reflexivity.
Qed.

Lemma response_Write_undeclared (w : http.response) (p : string) :
  http.wroteHeader w = true -> http.bodyAllowedForStatus (http.status w) = true ->
  http.contentLength w = None -> (len p =? 0) = false ->
  fst (http.response_Write w p)
  = {| http.reqMethod := http.reqMethod w; http.handlerHeader := http.handlerHeader w;
       http.wroteHeader := true; http.status := http.status w;
       http.sentHeader := http.sentHeader w; http.contentLength := None;
       http.bodyWritten := http.bodyWritten w + len p;
       http.informational := http.informational w;
       http.sentBody := if String.eqb (http.reqMethod w) "HEAD"
                        then http.sentBody w else http.sentBody w ++ p |}.
Proof.
  intros Hw Ha Hcl Hp. unfold http.response_Write. rewrite Hw, Hp, Ha. cbn [negb].
  cbv zeta. unfold http.counted.
  cbn [http.contentLength http.reqMethod http.bodyWritten http.wroteHeader http.status
       http.sentHeader http.handlerHeader http.informational http.sentBody].
  rewrite Hcl, Hw.
  destruct (String.eqb (http.reqMethod w) "HEAD"); reflexivity.
Qed.

Lemma Get_Set_other (h : MIMEHeader) (k v key : string) :
  textproto.CanonicalMIMEHeaderKey k <> textproto.CanonicalMIMEHeaderKey key ->
  textproto.Get (textproto.Set_ h k v) key = textproto.Get h key.
Proof.
  intros Hk. unfold textproto.Get, textproto.Set_, textproto.values.
  now rewrite lookup_insert_ne.
Qed.

Lemma Get_Add_other (h : MIMEHeader) (k v key : string) :
  textproto.CanonicalMIMEHeaderKey k <> textproto.CanonicalMIMEHeaderKey key ->
  textproto.Get (textproto.Add h k v) key = textproto.Get h key.
Proof.
  intros Hk. unfold textproto.Get, textproto.Add, textproto.values.
  now rewrite lookup_insert_ne.
Qed.

Lemma Get_Set_same (h : MIMEHeader) (k v : string) :
  textproto.Get (textproto.Set_ h k v) k = v.
Proof.
  unfold textproto.Get, textproto.Set_, textproto.values. now rewrite lookup_insert_eq.
Qed.

Lemma Get_empty (key : string) : textproto.Get (∅ : MIMEHeader) key = EmptyString.
Proof. unfold textproto.Get, textproto.values. now rewrite lookup_empty. Qed.

Lemma NotFound_on_response (w : http.response) (r : http.Request) :
  http.wroteHeader w = false ->
  http.status (http.NotFound w r) = 404 /\ http.wroteHeader (http.NotFound w r) = true.
Proof.
  intros Hw. unfold http.NotFound, http.Error, http.Fprintln.
  cbn [http.setHeader http.WriteHeader http.Header http.Write http.response_ResponseWriter].
  match goal with
  | |- context [http.response_WriteHeader ?x 404] =>
      destruct (response_WriteHeader_first x 404 Hw eq_refl) as (H1 & H2 & _);
      destruct (response_Write_sent (http.response_WriteHeader x 404)
                  ("404 page not found" ++ newline) H1) as (H3 & H4 & _)
  end.
  split; [now rewrite H4 | exact H3].
Qed.

Lemma NotFound_on_Writer {W} `{http.ResponseWriter W} (lw : Writer W) (r : http.Request) :
  Status (http.NotFound lw r) = 404.
Proof.
  unfold http.NotFound, http.Error, http.Fprintln.
  cbn [http.setHeader http.WriteHeader http.Header http.Write Writer_ResponseWriter_impl].
  rewrite Writer_Write_Status. reflexivity.
Qed.

(** C5: a request whose Host does not contain the configured hostname (as
    a substring, case mattering) is answered 404 by [http.NotFound] and the
    file handler plays no part; any other request is handed to the file
    handler with the same writer and request. *)
Theorem Handler_filters_host {F} `{http.Handler F} (h : Handler F) (r : http.Request)
    (e : Env) (c : Config) :
  config e = Some c ->
  (~ substring_of (Hostname (Httpd c)) (http.Host r) ->
     (forall W (RW : http.ResponseWriter W) (w : W),
         Handler_ServeHTTP h W RW w r e
         = {| http.sink := http.NotFound w r; http.req := r; http.world := e;
              http.exit := Returned |})
     /\ (forall W (RW : http.ResponseWriter W) (w : W),
            statuses (http.seen (http.sink (Handler_ServeHTTP h (http.Probe W) _ (http.probe w) r e)))
            = [404])
     /\ (forall w : http.response, http.wroteHeader w = false ->
            http.status (http.sink (Handler_ServeHTTP h http.response _ w r e)) = 404)
     /\ (forall W (RW : http.ResponseWriter W) (lw : Writer W),
            Status (http.sink (Handler_ServeHTTP h (Writer W) _ lw r e)) = 404))
  /\ (substring_of (Hostname (Httpd c)) (http.Host r) ->
      forall W (RW : http.ResponseWriter W) (w : W),
        Handler_ServeHTTP h W RW w r e = http.ServeHTTP (files h) W RW w r e).
Proof.
  intros Hc. split.
  - intros Hno. apply Index_missing_iff in Hno.
    assert (Hserve : forall W (RW : http.ResponseWriter W) (w : W),
               Handler_ServeHTTP h W RW w r e
               = {| http.sink := http.NotFound w r; http.req := r; http.world := e;
                    http.exit := Returned |}).
    { intros W RW w. unfold Handler_ServeHTTP. rewrite Hc, Hno. reflexivity. }
    split; [exact Hserve | split; [| split]].
    + intros W RW w. rewrite Hserve. cbn [http.sink].
      now rewrite (proj1 (NotFound_on_probe (http.probe w) r)).
    + intros w Hw. rewrite Hserve. cbn [http.sink]. now apply NotFound_on_response.
    + intros W RW lw. rewrite Hserve. cbn [http.sink]. apply NotFound_on_Writer.
  - intros Hyes W RW w. unfold Handler_ServeHTTP. rewrite Hc.
    destruct (gostrings.Index (http.Host r) (Hostname (Httpd c)) =? -1) eqn:E; [| reflexivity].
    apply Z.eqb_eq, Index_missing_iff in E. contradiction.
Qed.

Lemma Handler_filters_host_witness :
  http.status
    (http.sink
       (Handler_ServeHTTP
          {| files := {| http.root := "/var/www"; http.serve := fun _ => sample.page |} |}
          http.response _
          (http.newResponse (sample.request "GET" "/" "Example.COM" "gzip"))
          (sample.request "GET" "/" "Example.COM" "gzip") sample.env)) = 404.
Proof.
  destruct (Handler_filters_host
              {| files := {| http.root := "/var/www"; http.serve := fun _ => sample.page |} |}
              (sample.request "GET" "/" "Example.COM" "gzip") sample.env sample.config_value
              eq_refl) as [Hno _].
  destruct Hno as (_ & _ & Hstatus & _).
  - apply Index_missing_iff. reflexivity.
  - apply Hstatus. reflexivity.
Defined.

(** ** The redirect *)

Lemma hexEscapeNonASCII_append (a b : string) :
  http.hexEscapeNonASCII (a ++ b) = http.hexEscapeNonASCII a ++ http.hexEscapeNonASCII b.
Proof.
  induction a as [|c a IH]; [reflexivity |].
  simpl. rewrite IH. now rewrite append_assoc.
Qed.

Lemma String_https_prefix {UE : url.Escaper} (u : url.URL) :
  exists rest, url.String_ (url.with_Scheme u "https") = "https:" ++ rest.
Proof.
  unfold url.String_. cbn [url.Scheme url.with_Scheme url.nonempty].
  rewrite append_assoc. eexists. reflexivity.
Qed.

Lemma Location_is_https {UE : url.Escaper} (u : url.URL) :
  gostrings.HasPrefix (http.hexEscapeNonASCII (url.String_ (url.with_Scheme u "https"))) "https:"
  = true.
Proof.
  destruct (String_https_prefix u) as [rest ->].
  rewrite hexEscapeNonASCII_append. apply HasPrefix_spec. eexists. reflexivity.
Qed.

(** Through the recorder, [http.Redirect] does to the inner writer what it
    does without the recorder, and the recorder notes its code. *)
Lemma Redirect_on_Writer {W} `{http.ResponseWriter W} (lw : Writer W) (r : http.Request)
    (target : string) (code : Z) :
  Writer_ResponseWriter (http.Redirect lw r target code)
  = http.Redirect (Writer_ResponseWriter lw) r target code
  /\ Status (http.Redirect lw r target code) = code.
Proof.
  unfold http.Redirect, http.Fprintln.
  cbn [http.setHeader http.WriteHeader http.Header http.Write Writer_ResponseWriter_impl
       Writer_ResponseWriter Writer_WriteHeader Status].
  destruct (negb (bool_decide (is_Some (http.Header (Writer_ResponseWriter lw) !! "Content-Type")))).
  - cbn [andb]. destruct (String.eqb (http.Method r) "GET").
    + cbn [orb Writer_ResponseWriter]. rewrite Writer_Write_inner, Writer_Write_Status.
      split; reflexivity.
    + cbn [orb]. destruct (String.eqb (http.Method r) "HEAD"); split; reflexivity.
  - split; reflexivity.
Qed.

Lemma Redirect_on_fresh_response (w : http.response) (r : http.Request) (target : string)
    (code : Z) :
  http.wroteHeader w = false -> http.finalCode code = true ->
  let w' := http.Redirect w r target code in
  http.wroteHeader w' = true
  /\ http.status w' = code
  /\ textproto.Get (http.sentHeader w') "Location" = http.hexEscapeNonASCII target
  /\ forall key, textproto.CanonicalMIMEHeaderKey key <> "Location" ->
                 textproto.CanonicalMIMEHeaderKey key <> "Content-Type" ->
                 textproto.Get (http.sentHeader w') key = textproto.Get (http.handlerHeader w) key.
Proof.
  intros Hw Hfinal. unfold http.Redirect, http.Fprintln.
  cbn [http.setHeader http.WriteHeader http.Header http.Write http.response_ResponseWriter
       http.handlerHeader].
  set (hadCT := bool_decide _).
  set (h1 := textproto.Set_ (http.handlerHeader w) "Location" (http.hexEscapeNonASCII target)).
  assert (Hloc1 : textproto.Get h1 "Location" = http.hexEscapeNonASCII target).
  { unfold h1, textproto.Get, textproto.Set_, textproto.values.
    now rewrite lookup_insert_eq. }
  assert (Hother1 : forall key, textproto.CanonicalMIMEHeaderKey key <> "Location" ->
             textproto.Get h1 key = textproto.Get (http.handlerHeader w) key).
  { intros key Hk. unfold h1, textproto.Get, textproto.Set_, textproto.values.
    rewrite lookup_insert_ne; [reflexivity |].
    change (textproto.CanonicalMIMEHeaderKey "Location") with "Location". congruence. }
  set (h2 := textproto.Set_ h1 "Content-Type" "text/html; charset=utf-8").
  assert (Hloc2 : textproto.Get h2 "Location" = http.hexEscapeNonASCII target).
  { unfold h2, textproto.Get, textproto.Set_, textproto.values.
    rewrite lookup_insert_ne by discriminate. exact Hloc1. }
  assert (Hother2 : forall key, textproto.CanonicalMIMEHeaderKey key <> "Location" ->
             textproto.CanonicalMIMEHeaderKey key <> "Content-Type" ->
             textproto.Get h2 key = textproto.Get (http.handlerHeader w) key).
  { intros key Hk Hk'. rewrite <- (Hother1 key Hk).
    unfold h2, textproto.Get, textproto.Set_, textproto.values.
    rewrite lookup_insert_ne; [reflexivity |].
    change (textproto.CanonicalMIMEHeaderKey "Content-Type") with "Content-Type". congruence. }
  destruct (negb hadCT && (String.eqb (http.Method r) "GET" || String.eqb (http.Method r) "HEAD")).
  - match goal with
    | |- context [http.response_WriteHeader ?x code] =>
        destruct (response_WriteHeader_first x code Hw Hfinal) as (H1 & H2 & H3)
    end.
    destruct (negb hadCT && String.eqb (http.Method r) "GET").
    + match goal with
      | |- context [http.response_Write ?x ?p] =>
          destruct (response_Write_sent x p H1) as (H4 & H5 & H6)
      end.
      cbv zeta. rewrite H4, H5, H6, H2, H3. cbn [http.handlerHeader].
      repeat split; [exact Hloc2 | exact Hother2].
    + cbv zeta. rewrite H1, H2, H3. cbn [http.handlerHeader].
      repeat split; [exact Hloc2 | exact Hother2].
  - match goal with
    | |- context [http.response_WriteHeader ?x code] =>
        destruct (response_WriteHeader_first x code Hw Hfinal) as (H1 & H2 & H3)
    end.
    destruct (negb hadCT && String.eqb (http.Method r) "GET").
    + match goal with
      | |- context [http.response_Write ?x ?p] =>
          destruct (response_Write_sent x p H1) as (H4 & H5 & H6)
      end.
      cbv zeta. rewrite H4, H5, H6, H2, H3. cbn [http.handlerHeader].
      repeat split; [exact Hloc1 | intros key Hk _; now apply Hother1].
    + cbv zeta. rewrite H1, H2, H3. cbn [http.handlerHeader].
      repeat split; [exact Hloc1 | intros key Hk _; now apply Hother1].
Qed.

Section Redirect.

Context {GZ : gzip.Compressor} {TF : time.Formatter} {UE : url.Escaper}.

Lemma redirector_on_fresh_response (h : Log SslHandler) (r : http.Request) (e : Env) :
  let res := Log_ServeHTTP h http.response _ (http.newResponse r) r e in
  let location := http.hexEscapeNonASCII (url.String_ (url.with_Scheme (http.URL r) "https")) in
  http.status (http.sink res) = 301
  /\ textproto.Get (http.sentHeader (http.sink res)) "Location" = location
  /\ textproto.Get (http.sentHeader (http.sink res)) "Strict-Transport-Security" = "max-age=604800"
  /\ http.exit res = Returned
  /\ exists n, written (http.world res)
               = (written e ++ [(Log_Writer h,
                                 access_line (http.req res) (now (http.world res)) 301 n)])%list.
Proof.
  cbv zeta. unfold Log_ServeHTTP.
  change (http.ServeHTTP (Log_Handler h)) with (SslHandler_ServeHTTP (Log_Handler h)).
  unfold SslHandler_ServeHTTP.
  cbn [http.sink http.req http.world http.exit].
  rewrite file_Write_written, file_Write_now.
  match goal with
  | |- context [http.Redirect ?lw ?r' ?t 301] =>
      destruct (Redirect_on_Writer lw r' t 301) as [Hinner Hstatus];
      rewrite Hinner, Hstatus
  end.
  cbn [http.setHeader http.Header Writer_ResponseWriter_impl Writer_ResponseWriter
       http.response_ResponseWriter http.newResponse http.handlerHeader http.URL http.with_URL].
  match goal with
  | |- context [http.Redirect ?w ?r' ?t 301] =>
      destruct (Redirect_on_fresh_response w r' t 301 eq_refl eq_refl) as (_ & H2 & H3 & H4)
  end.
  split; [exact H2 | split; [exact H3 | split; [| split; [reflexivity |]]]].
  - rewrite H4 by discriminate. reflexivity.
  - eexists. reflexivity.
Qed.

End Redirect.

(** ** Calls on a writer, and what they keep *)

Section Calls.

Context {V : Type} {RV : http.ResponseWriter V} (P : V -> Prop) (HP : kept_by_calls P).

Lemma kept_perform (a : http.action) (st : V * Env) :
  P (fst st) -> P (fst (http.perform a st)).
Proof.
  destruct st as [v e]. destruct HP as [Hs Hh Hw].
  destruct a; simpl; auto.
Qed.

Lemma kept_perform_all (l : list http.action) (st : V * Env) :
  P (fst st) -> P (fst (http.perform_all l st)).
Proof.
  revert st. induction l as [|a l IH]; intros st Hst; [exact Hst |].
  rewrite perform_all_cons. apply IH. now apply kept_perform.
Qed.


Lemma kept_emit (chunks : list string) (v : V) :
  P v -> P (fst (gzip.emit v chunks)).
Proof.
  revert v. induction chunks as [|p chunks IH]; intros v Hv; [exact Hv |].
  cbn [gzip.emit]. pose proof (kept_by_Write P HP v p Hv) as Hw.
  destruct (http.Write v p) as [v' n]. cbn [fst snd] in *.
  destruct (snd n); [exact Hw | now apply IH].
Qed.


End Calls.

Section GzipCalls.

Context {GZ : gzip.Compressor} {V : Type} {RV : http.ResponseWriter V}.
Context (P : V -> Prop) (HP : kept_by_calls P).

Lemma kept_gzip_Write (z : gzip.Writer) (v : V) (p : string) :
  P v -> P (snd (fst (gzip.Write_ z v p))).
Proof.
  intros Hv. unfold gzip.Write_. destruct (gzip.err z); [exact Hv |].
  destruct (gzip.feed (gzip.compressor z) p) as [c chunks].
  pose proof (kept_emit P HP chunks v Hv) as He.
  destruct (gzip.emit v chunks). exact He.
Qed.

Lemma kept_gzip_Close (z : gzip.Writer) (v : V) :
  P v -> P (snd (gzip.Close z v)).
Proof.
  intros Hv. unfold gzip.Close. destruct (gzip.err z); [exact Hv |].
  destruct (gzip.closed z); [exact Hv |].
  pose proof (kept_emit P HP (gzip.finish (gzip.compressor z)) v Hv) as He.
  destruct (gzip.emit v _). exact He.
Qed.

(** What the wrapped writer keeps, the [GzipWriter] around it keeps. *)
Lemma kept_through_GzipWriter :
  kept_by_calls (fun gw : GzipWriter V => P (GzipWriter_ResponseWriter gw)).
Proof.
  destruct HP as [Hs Hh Hw]. split.
  - intros gw h Hgw. now apply Hs.
  - intros gw code Hgw. now apply Hh.
  - intros gw p Hgw. cbn [http.Write GzipWriter_ResponseWriter_impl]. unfold GzipWriter_Write.
    pose proof (kept_gzip_Write (gz gw) (GzipWriter_ResponseWriter gw) p Hgw) as Hk.
    destruct (gzip.Write_ (gz gw) (GzipWriter_ResponseWriter gw) p) as [[z v] n]. exact Hk.
Qed.

End GzipCalls.

(** ** Time and the log while a behaviour plays *)

Lemma perform_env {V : Type} {RV : http.ResponseWriter V} (a : http.action) (v : V) (e : Env) :
  config (snd (http.perform a (v, e))) = config e
  /\ written (snd (http.perform a (v, e))) = written e
  /\ now (snd (http.perform a (v, e))) = now e + duration [a].
Proof. destruct a; simpl; repeat split; lia. Qed.

Lemma duration_cons (a : http.action) (l : list http.action) :
  duration (a :: l) = duration [a] + duration l.
Proof. destruct a; simpl; lia. Qed.

Lemma duration_nonneg (l : list http.action) : 0 <= duration l.
Proof. induction l as [|a l IH]; [simpl; lia |]. rewrite duration_cons. destruct a; simpl; lia. Qed.

Lemma perform_all_env {V : Type} {RV : http.ResponseWriter V} (l : list http.action)
    (v : V) (e : Env) :
  config (snd (http.perform_all l (v, e))) = config e
  /\ written (snd (http.perform_all l (v, e))) = written e
  /\ now (snd (http.perform_all l (v, e))) = now e + duration l.
Proof.
  revert v e. induction l as [|a l IH]; intros v e.
  - simpl. repeat split. lia.
  - rewrite perform_all_cons. destruct (http.perform a (v, e)) as [v' e'] eqn:E.
    destruct (IH v' e') as (H1 & H2 & H3).
    destruct (perform_env a v e) as (G1 & G2 & G3). rewrite E in G1, G2, G3. cbn [snd] in *.
    rewrite H1, H2, H3, G1, G2, G3, (duration_cons a l). repeat split. lia.
Qed.

Lemma play_world {V : Type} {RV : http.ResponseWriter V} (b : http.behaviour) (v : V)
    (r : http.Request) (e : Env) :
  config (http.world (http.play b v r e)) = config e
  /\ written (http.world (http.play b v r e)) = written e
  /\ now (http.world (http.play b v r e)) = now e + duration (http.actions b)
  /\ http.req (http.play b v r e) = r
  /\ http.exit (http.play b v r e) = http.ending b.
Proof.
  unfold http.play. pose proof (perform_all_env (http.actions b) v e) as H.
  destruct (http.perform_all (http.actions b) (v, e)). cbn [snd] in H.
  cbn [http.world http.req http.exit]. intuition.
Qed.

Lemma perform_all_appended {V : Type} {RV : http.ResponseWriter V} (l : list http.action)
    (v : V) (e : Env) :
  appended (snd (http.perform_all l (v, e))) = appended e.
Proof.
  revert v e. induction l as [|a l IH]; intros v e; [reflexivity |].
  rewrite perform_all_cons. destruct a; cbn [http.perform]; rewrite IH; reflexivity.
Qed.

Lemma play_appended {V : Type} {RV : http.ResponseWriter V} (b : http.behaviour) (v : V)
    (r : http.Request) (e : Env) :
  appended (http.world (http.play b v r e)) = appended e.
Proof.
  unfold http.play. pose proof (perform_all_appended (http.actions b) v e) as H.
  destruct (http.perform_all (http.actions b) (v, e)). exact H.
Qed.

(** ** The host filter as a behaviour *)

Lemma Handler_plays_filtered {V : Type} {RV : http.ResponseWriter V}
    (h : Handler http.fileHandler) (v : V) (r : http.Request) (e : Env) (c : Config) :
  config e = Some c ->
  Handler_ServeHTTP h V RV v r e = http.play (filtered c h r) v r e.
Proof.
  intros Hc. unfold Handler_ServeHTTP, filtered. rewrite Hc.
  destruct (negb (gostrings.Index (http.Host r) (Hostname (Httpd c)) =? -1)); reflexivity.
Qed.

(** ** What the handlers behind the log do to a writer and to the world *)

Section Chains.

Context {GZ : gzip.Compressor} {TF : time.Formatter} {UE : url.Escaper}.


Lemma Handler_world {V : Type} {RV : http.ResponseWriter V}
    (h : Handler http.fileHandler) (v : V) (r : http.Request) (e : Env) :
  let res := Handler_ServeHTTP h V RV v r e in
  config (http.world res) = config e
  /\ written (http.world res) = written e
  /\ now e <= now (http.world res)
  /\ http.req res = r.
Proof.
  cbv zeta. destruct (config e) as [c|] eqn:Hc.
  - rewrite (Handler_plays_filtered h v r e c Hc).
    destruct (play_world (filtered c h r) v r e) as (H1 & H2 & H3 & H4 & _).
    pose proof (duration_nonneg (http.actions (filtered c h r))).
    rewrite H1, H2, H3, H4, Hc. repeat split. lia.
  - unfold Handler_ServeHTTP. rewrite Hc. cbn. rewrite Hc. repeat split. lia.
Qed.

Lemma GZip_compressed_parts {V : Type} {RV : http.ResponseWriter V}
    (h : GZip (Handler http.fileHandler)) (v : V) (r : http.Request) (e : Env) :
  let inner := Handler_ServeHTTP (GZip_Handler h) (GzipWriter V) _
                 {| gz := gzip.NewWriter;
                    GzipWriter_ResponseWriter :=
                      http.setHeader v (textproto.Set_ (http.Header v) "Content-Encoding" "gzip") |}
                 r e in
  let done := gzip.Close (gz (http.sink inner)) (GzipWriter_ResponseWriter (http.sink inner)) in
  GZip_compressed h V RV v r e
  = ({| http.sink := snd done; http.req := http.req inner; http.world := http.world inner;
        http.exit := http.exit inner |}, fst done).
Proof.
  cbv zeta. unfold GZip_compressed.
  change (http.ServeHTTP (GZip_Handler h)) with (Handler_ServeHTTP (GZip_Handler h)).
  destruct (gzip.Close _ _). reflexivity.
Qed.


Lemma GZip_world {V : Type} {RV : http.ResponseWriter V}
    (h : GZip (Handler http.fileHandler)) (v : V) (r : http.Request) (e : Env) :
  let res := GZip_ServeHTTP h V RV v r e in
  config (http.world res) = config e
  /\ written (http.world res) = written e
  /\ now e <= now (http.world res)
  /\ http.req res = r.
Proof.
  cbv zeta. unfold GZip_ServeHTTP.
  change (http.ServeHTTP (GZip_Handler h)) with (Handler_ServeHTTP (GZip_Handler h)).
  destruct (gostrings.Contains _ _); [| apply Handler_world].
  destruct (regexp.Match _ _); [| apply Handler_world].
  rewrite GZip_compressed_parts. cbn [fst http.world http.req]. apply Handler_world.
Qed.


(** *** One line per request *)

Lemma Log_logs_once {H : Type} {HH : http.Handler H} (l : Log H)
    (W : Type) (RW : http.ResponseWriter W) (w : W) (r : http.Request) (e : Env) :
  (let inner := http.ServeHTTP (Log_Handler l) (Writer W) _
                  {| Writer_ResponseWriter := w; Status := 0; Bytes := 0 |} r e in
   written (http.world inner) = written e /\ now e <= now (http.world inner)) ->
  logs_once l W RW w r e.
Proof.
  cbv zeta. intros [Hquiet Hclock]. unfold logs_once, Log_ServeHTTP.
  cbn [http.world http.exit]. rewrite file_Write_written, file_Write_now, Hquiet.
  repeat split. exact Hclock.
Qed.

(** Either kind of listener logs once. *)
Lemma listener_logs_once (l : listener) (W : Type) (RW : http.ResponseWriter W) (w : W)
    (r : http.Request) (e : Env) :
  match handler l with
  | Site h => logs_once h W RW w r e
  | Redirector h => logs_once h W RW w r e
  end.
Proof.
  destruct (handler l) as [h | h]; apply Log_logs_once; cbv zeta.
  - change (http.ServeHTTP (Log_Handler h)) with (GZip_ServeHTTP (Log_Handler h)).
    destruct (GZip_world (Log_Handler h) {| Writer_ResponseWriter := w; Status := 0; Bytes := 0 |} r e)
      as (_ & H2 & H3 & _). now split.
  - split; [reflexivity | cbn; lia].
Qed.

Lemma GZip_appended {V : Type} {RV : http.ResponseWriter V}
    (h : GZip (Handler http.fileHandler)) (v : V) (r : http.Request) (e : Env) :
  appended (http.world (GZip_ServeHTTP h V RV v r e)) = appended e.
Proof.
  assert (Hinner : forall U (RU : http.ResponseWriter U) (u : U),
             appended (http.world (Handler_ServeHTTP (GZip_Handler h) U RU u r e)) = appended e).
  { intros U RU u. destruct (config e) as [c|] eqn:Hc.
    - rewrite (Handler_plays_filtered (GZip_Handler h) u r e c Hc). apply play_appended.
    - unfold Handler_ServeHTTP. now rewrite Hc. }
  unfold GZip_ServeHTTP.
  change (http.ServeHTTP (GZip_Handler h)) with (Handler_ServeHTTP (GZip_Handler h)).
  destruct (gostrings.Contains _ _); [| apply Hinner].
  destruct (regexp.Match _ _); [| apply Hinner].
  rewrite GZip_compressed_parts. cbn [fst http.world]. apply Hinner.
Qed.

(** The handler behind the log leaves the files alone, and the panic of
    the file server is its own. *)
Lemma behind_log_world (l : listener) (W : Type) (RW : http.ResponseWriter W) (w : W)
    (r : http.Request) (e : Env) :
  appended (http.world (behind_log l W RW w r e)) = appended e
  /\ forall h c p,
       handler l = Site h -> config e = Some c ->
       http.ending (filtered c (GZip_Handler (Log_Handler h)) r) = Panicked p ->
       http.exit (behind_log l W RW w r e) = Panicked p.
Proof.
  unfold behind_log. split.
  - destruct (handler l) as [h | h]; [apply GZip_appended | reflexivity].
  - intros h c p -> Hc Hp.
    change (http.ServeHTTP (Log_Handler h)) with (GZip_ServeHTTP (Log_Handler h)).
    unfold GZip_ServeHTTP.
    change (http.ServeHTTP (GZip_Handler (Log_Handler h)))
      with (Handler_ServeHTTP (GZip_Handler (Log_Handler h))).
    assert (Hplay : forall V (RV : http.ResponseWriter V) (v : V),
               http.exit (Handler_ServeHTTP (GZip_Handler (Log_Handler h)) V RV v r e) = Panicked p).
    { intros V RV v. rewrite (Handler_plays_filtered _ v r e c Hc).
      destruct (play_world (filtered c (GZip_Handler (Log_Handler h)) r) v r e)
        as (_ & _ & _ & _ & ->). exact Hp. }
    destruct (gostrings.Contains _ _); [| apply Hplay].
    destruct (regexp.Match _ _); [| apply Hplay].
    rewrite GZip_compressed_parts. cbn [fst http.exit]. apply Hplay.
Qed.

(** Every listener of either variant logs to the file [main] opened, or
    to standard output when it could not. *)
Lemma log_of_started (os : OS) (e0 : Env) (c : Config) (ls : list listener) (l : listener) :
  config e0 = Some c ->
  main os e0 = Serving ls \/ main_tls os e0 = Serving ls ->
  In l ls ->
  log_of l = if opens os (AccessLog (Httpd c)) then NamedFile (AccessLog (Httpd c)) else Stdout.
Proof.
  intros Hc Hmain Hin. unfold main, main_tls in Hmain. rewrite Hc in Hmain.
  destruct (regexp.Compile (pattern c)) as [re | |];
    [| destruct Hmain; discriminate | destruct Hmain; discriminate].
  destruct Hmain as [Hmain | Hmain].
  - injection Hmain as <-. destruct Hin as [<- | []]. reflexivity.
  - destruct (Enabled (Ssl (Httpd c))); injection Hmain as <-.
    + destruct Hin as [<- | [<- | []]]; reflexivity.
    + destruct Hin as [<- | []]. reflexivity.
Qed.

(** C3: at every listener either variant starts, [Log.ServeHTTP] makes
    for every request exactly one write on its log writer, of one line that
    bears the clock as it stands once the inner handler is done, and it
    does so as well when the inner handler panics, the panic then going on
    to the caller.  The line is appended when the log writer is standard
    output.  When the access-log file could be opened, the descriptor
    [main] got for it ([O_CREATE|O_APPEND], so read-only) refuses the write
    and nothing is appended. *)
Theorem access_log_one_line_per_request (os : OS) (e0 : Env) (c : Config)
    (ls : list listener) (l : listener) (W : Type) (RW : http.ResponseWriter W) (w : W)
    (r : http.Request) (e : Env) :
  config e0 = Some c ->
  main os e0 = Serving ls \/ main_tls os e0 = Serving ls ->
  In l ls ->
  let inner := behind_log l W RW w r e in
  let res := serve_on l W RW w r e in
  let r' := http.req inner in
  let line :=
    (addr (http.RemoteAddr r') ++ " ["
     ++ time.Format (now (http.world inner)) "02/Jan/2006 15:04:05 -0700" ++ "] "
     ++ http.Method r' ++ " " ++ quote ++ http.RequestURI r' ++ quote ++ " "
     ++ itoa (Status (http.sink inner)) ++ " " ++ itoa (Bytes (http.sink inner)) ++ " "
     ++ quote ++ textproto.Get (http.RequestHeader r') "referer" ++ quote ++ " "
     ++ quote ++ http.UserAgent r' ++ quote ++ newline)%string in
  log_of l = (if opens os (AccessLog (Httpd c)) then NamedFile (AccessLog (Httpd c)) else Stdout)
  /\ written (http.world res) = (written e ++ [(log_of l, line)])%list
  /\ now e <= now (http.world inner)
  /\ http.exit res = http.exit inner
  /\ (forall h c' p,
         handler l = Site h -> config e = Some c' ->
         http.ending (filtered c' (GZip_Handler (Log_Handler h)) r) = Panicked p ->
         http.exit res = Panicked p)
  /\ (opens os (AccessLog (Httpd c)) = true -> appended (http.world res) = appended e)
  /\ (opens os (AccessLog (Httpd c)) = false ->
      appended (http.world res) = (appended e ++ [(Stdout, line)])%list).
Proof.
  intros Hc Hmain Hin. cbv zeta.
  pose proof (log_of_started os e0 c ls l Hc Hmain Hin) as Hlog.
  pose proof (listener_logs_once l W RW w r e) as Honce.
  destruct (behind_log_world l W RW w r e) as [Hquiet Hpanic].
  assert (Happ : appended (http.world (serve_on l W RW w r e))
                 = appended (fst (file_Write (log_of l)
                                    (access_line (http.req (behind_log l W RW w r e))
                                       (now (http.world (behind_log l W RW w r e)))
                                       (Status (http.sink (behind_log l W RW w r e)))
                                       (Bytes (http.sink (behind_log l W RW w r e))))
                                    (http.world (behind_log l W RW w r e))))).
  { unfold serve_on, behind_log, log_of. destruct (handler l); reflexivity. }
  assert (Hexit : http.exit (serve_on l W RW w r e) = http.exit (behind_log l W RW w r e)).
  { unfold serve_on, behind_log. destruct (handler l); reflexivity. }
  split; [exact Hlog |]. split; [| split; [| split; [exact Hexit | split; [| split]]]].
  - unfold serve_on, behind_log, log_of in *. destruct (handler l) as [h | h].
    + destruct Honce as (Hw & _). exact Hw.
    + destruct Honce as (Hw & _). exact Hw.
  - unfold behind_log. destruct (handler l) as [h | h].
    + destruct Honce as (_ & _ & Hclock & _). exact Hclock.
    + destruct Honce as (_ & _ & Hclock & _). exact Hclock.
  - intros h c' p Hl Hc' Hp. rewrite Hexit. now apply (Hpanic h c' p).
  - intros Hopen. rewrite Happ, file_Write_appended, Hlog, Hopen. exact Hquiet.
  - intros Hopen. rewrite Happ, file_Write_appended, Hlog, Hopen, Hquiet. reflexivity.
Qed.

End Chains.

(** ** What a writer under the compressor receives *)

Lemma status_calls_cons (a : http.action) (l : list http.action) :
  status_calls (a :: l) = (status_calls [a] ++ status_calls l)%list.
Proof. unfold status_calls. cbn [flat_map]. now rewrite app_nil_r. Qed.

Lemma write_calls_cons (a : http.action) (l : list http.action) :
  write_calls (a :: l) = (write_calls [a] ++ write_calls l)%list.
Proof. unfold write_calls. cbn [flat_map]. now rewrite app_nil_r. Qed.

Lemma observes_Probe {W : Type} {RW : http.ResponseWriter W} :
  observes (fun pw : http.Probe W => http.seen pw).
Proof.
  split; try reflexivity.
  intros pw p. cbn [http.Write http.Probe_ResponseWriter].
  now destruct (http.Write (http.probed pw) p).
Qed.


Section Observed.

Context {GZ : gzip.Compressor} {V : Type} {RV : http.ResponseWriter V}.
Context (obs : V -> list http.event) (Hobs : observes obs).


Lemma emit_observed (chunks : list string) (v : V) :
  statuses (obs (fst (gzip.emit v chunks))) = statuses (obs v)
  /\ exists got rest,
       chunks = (got ++ rest)%list
       /\ writes (obs (fst (gzip.emit v chunks))) = (writes (obs v) ++ got)%list
       /\ (snd (gzip.emit v chunks) = None -> rest = []).
Proof.
  revert v. induction chunks as [|p chunks IH]; intros v.
  - split; [reflexivity |]. exists [], []. repeat split. cbn. now rewrite app_nil_r.
  - cbn [gzip.emit]. pose proof (obs_Write obs Hobs v p) as Hp.
    destruct (http.Write v p) as [v' n]. cbn [fst snd] in *.
    destruct (snd n) as [err|].
    + cbn [fst snd]. rewrite Hp, statuses_app, writes_app. cbn. rewrite app_nil_r.
      split; [reflexivity |]. exists [p], chunks. repeat split. discriminate.
    + destruct (IH v') as (Hs & got & rest & -> & Hw & Hnone).
      rewrite Hp, statuses_app in Hs. rewrite Hp, writes_app in Hw.
      cbn in Hs, Hw. rewrite app_nil_r in Hs. split; [exact Hs |].
      exists (p :: got), rest. split; [reflexivity |].
      split; [| exact Hnone]. rewrite Hw, <- app_assoc. reflexivity.
Qed.

Lemma perform_observed (l : list http.action) (v : V) (e : Env) :
  statuses (obs (fst (http.perform_all l (v, e)))) = (statuses (obs v) ++ status_calls l)%list
  /\ writes (obs (fst (http.perform_all l (v, e)))) = (writes (obs v) ++ write_calls l)%list.
Proof.
  revert v e. induction l as [|a l IH]; intros v e.
  - simpl. now rewrite !app_nil_r.
  - rewrite perform_all_cons, (status_calls_cons a l), (write_calls_cons a l).
    destruct Hobs as [Hs Hh Hw].
    destruct a; cbn [http.perform];
      match goal with
      | |- context [http.perform_all l (?v', ?e')] => destruct (IH v' e') as [Is Iw]
      end;
      rewrite Is, Iw, ?Hs, ?Hh, ?Hw, ?statuses_app, ?writes_app; cbn;
      rewrite ?app_nil_r, <- ?app_assoc; split; reflexivity.
Qed.

(** Status calls go through a [GzipWriter] untouched; what is written
    comes out of the compressor, as far as the writes below succeed. *)
Lemma perform_through_GzipWriter (l : list http.action) (z : gzip.Writer) (v : V) (e : Env) :
  let st := fst (http.perform_all l ({| gz := z; GzipWriter_ResponseWriter := v |}, e)) in
  statuses (obs (GzipWriter_ResponseWriter st)) = (statuses (obs v) ++ status_calls l)%list
  /\ gzip.closeCalls (gz st) = gzip.closeCalls z
  /\ gzip.closed (gz st) = gzip.closed z
  /\ (gzip.err z <> None ->
      writes (obs (GzipWriter_ResponseWriter st)) = writes (obs v)
      /\ gzip.err (gz st) <> None)
  /\ (gzip.err z = None ->
      exists got rest,
        compressed (gzip.compressor z) (write_calls l) = (got ++ rest)%list
        /\ writes (obs (GzipWriter_ResponseWriter st)) = (writes (obs v) ++ got)%list
        /\ (gzip.err (gz st) = None ->
            rest = []
            /\ gzip.compressor (gz st) = compressor_after (gzip.compressor z) (write_calls l))).
Proof.
  cbv zeta. revert z v e. induction l as [|a l IH]; intros z v e.
  - simpl. rewrite app_nil_r. repeat split; try tauto.
    intros Hz. exists [], []. repeat split. now rewrite app_nil_r.
  - rewrite perform_all_cons.
    assert (Hplain : forall v' e',
               statuses (obs v') = (statuses (obs v) ++ status_calls [a])%list ->
               writes (obs v') = writes (obs v) ->
               write_calls [a] = [] ->
               http.perform a ({| gz := z; GzipWriter_ResponseWriter := v |}, e)
               = ({| gz := z; GzipWriter_ResponseWriter := v' |}, e') ->
               let st := fst (http.perform_all l ({| gz := z; GzipWriter_ResponseWriter := v' |}, e')) in
               statuses (obs (GzipWriter_ResponseWriter st))
               = (statuses (obs v) ++ status_calls (a :: l))%list
               /\ gzip.closeCalls (gz st) = gzip.closeCalls z
               /\ gzip.closed (gz st) = gzip.closed z
               /\ (gzip.err z <> None ->
                   writes (obs (GzipWriter_ResponseWriter st)) = writes (obs v)
                   /\ gzip.err (gz st) <> None)
               /\ (gzip.err z = None ->
                   exists got rest,
                     compressed (gzip.compressor z) (write_calls (a :: l)) = (got ++ rest)%list
                     /\ writes (obs (GzipWriter_ResponseWriter st)) = (writes (obs v) ++ got)%list
                     /\ (gzip.err (gz st) = None ->
                         rest = []
                         /\ gzip.compressor (gz st)
                            = compressor_after (gzip.compressor z) (write_calls (a :: l))))).
    { intros v' e' Hs Hw Hnil _. cbv zeta.
      destruct (IH z v' e') as (H1 & H2 & H3 & H4 & H5).
      rewrite (status_calls_cons a l), (write_calls_cons a l).
      rewrite Hnil. cbn [app]. rewrite H1, Hs, <- app_assoc. rewrite Hw in H4, H5.
      split; [reflexivity | split; [exact H2 | split; [exact H3 | split; [exact H4 | exact H5]]]]. }
    destruct Hobs as [Os Oh Ow].
    destruct a.
    + refine (Hplain _ _ _ _ eq_refl eq_refl).
      * rewrite Os, statuses_app. reflexivity.
      * rewrite Os, writes_app. cbn. now rewrite app_nil_r.
    + refine (Hplain _ _ _ _ eq_refl eq_refl).
      * rewrite Os, statuses_app. reflexivity.
      * rewrite Os, writes_app. cbn. now rewrite app_nil_r.
    + refine (Hplain _ _ _ _ eq_refl eq_refl).
      * rewrite Os, statuses_app. reflexivity.
      * rewrite Os, writes_app. cbn. now rewrite app_nil_r.
    + refine (Hplain _ _ _ _ eq_refl eq_refl).
      * rewrite Oh, statuses_app. reflexivity.
      * rewrite Oh, writes_app. cbn. now rewrite app_nil_r.
    + (* CallWrite *)
      clear Hplain.
      cbn [http.perform http.Write GzipWriter_ResponseWriter_impl]. unfold GzipWriter_Write.
      cbn [gz GzipWriter_ResponseWriter]. unfold gzip.Write_.
      change (status_calls (http.CallWrite p :: l)) with (status_calls l).
      change (write_calls (http.CallWrite p :: l)) with (p :: write_calls l).
      destruct (gzip.err z) as [err|] eqn:Hz.
      * cbn [fst]. destruct (IH z v e) as (H1 & H2 & H3 & H4 & _).
        rewrite H1, H2, H3. rewrite Hz in H4.
        split; [reflexivity | split; [reflexivity | split; [reflexivity | split]]].
        -- intros _. apply H4. discriminate.
        -- intros Hn. discriminate.
      * cbn [compressed compressor_after fold_left].
        destruct (gzip.feed (gzip.compressor z) p) as [c chunks]. cbn [fst snd].
        destruct (emit_observed chunks v) as (Hs & got & rest & -> & Hw & Hnone).
        destruct (gzip.emit v (got ++ rest)%list) as [v' err']. cbn [fst snd] in *.
        match goal with
        | |- context [http.perform_all l (?g, e)] =>
            destruct (IH (gz g) (GzipWriter_ResponseWriter g) e) as (H1 & H2 & H3 & H4 & H5)
        end.
        cbn [gz GzipWriter_ResponseWriter gzip.err gzip.compressor gzip.closed gzip.closeCalls]
          in H1, H2, H3, H4, H5.
        rewrite H1, H2, H3, Hs.
        split; [reflexivity | split; [reflexivity | split; [reflexivity | split]]].
        -- intros Hn. now contradiction Hn.
        -- intros _. destruct err' as [err'|].
           ++ destruct H4 as [H4 H4']; [discriminate |].
              exists got, (rest ++ compressed c (write_calls l))%list.
              rewrite H4, Hw, <- app_assoc.
              split; [reflexivity | split; [reflexivity |]]. intros Hn. contradiction.
           ++ destruct (H5 eq_refl) as (got' & rest' & Hc & Hw' & Hn').
              rewrite (Hnone eq_refl), app_nil_r in *.
              exists (got ++ got')%list, rest'.
              rewrite Hc, Hw', Hw, <- !app_assoc.
              split; [reflexivity | split; [reflexivity | exact Hn']].
    + refine (Hplain _ _ _ _ eq_refl eq_refl).
      * cbn. now rewrite app_nil_r.
      * reflexivity.
Qed.



End Observed.

(** ** A [GzipWriter], call by call *)

Lemma perform_all_app {V : Type} {RV : http.ResponseWriter V} (l1 l2 : list http.action)
    (st : V * Env) :
  http.perform_all (l1 ++ l2)%list st = http.perform_all l2 (http.perform_all l1 st).
Proof. unfold http.perform_all. apply fold_left_app. Qed.

Lemma without_writes_app (a b : list http.action) :
  without_writes (a ++ b)%list = (without_writes a ++ without_writes b)%list.
Proof. unfold without_writes. apply List.filter_app. Qed.

Lemma without_writes_of_writes (ps : list string) :
  without_writes (map http.CallWrite ps) = [].
Proof. induction ps as [|p ps IH]; [reflexivity | exact IH]. Qed.

Lemma write_calls_app (a b : list http.action) :
  write_calls (a ++ b)%list = (write_calls a ++ write_calls b)%list.
Proof. unfold write_calls. apply flat_map_app. Qed.

Lemma write_calls_of_writes (ps : list string) :
  write_calls (map http.CallWrite ps) = ps.
Proof. induction ps as [|p ps IH]; [reflexivity | cbn; now f_equal]. Qed.

Lemma status_calls_without_writes (l : list http.action) :
  status_calls (without_writes l) = status_calls l.
Proof.
  induction l as [|a l IH]; [reflexivity |].
  destruct a; cbn; try exact IH. f_equal. exact IH.
Qed.

Lemma write_calls_without_writes (l : list http.action) :
  write_calls (without_writes l) = [].
Proof. induction l as [|a l IH]; [reflexivity |]. destruct a; cbn; auto. Qed.

Section AsCalls.

Context {GZ : gzip.Compressor} {V : Type} {RV : http.ResponseWriter V}.

(** What the compressor's output does to the writer below is what so many
    [Write] calls do, up to and including the first that fails. *)
Lemma emit_as_calls (chunks : list string) (v : V) (e : Env) :
  exists got rest,
    chunks = (got ++ rest)%list
    /\ http.perform_all (map http.CallWrite got) (v, e) = (fst (gzip.emit v chunks), e)
    /\ (snd (gzip.emit v chunks) = None -> rest = []).
Proof.
  revert v. induction chunks as [|p chunks IH]; intros v.
  - exists [], []. repeat split.
  - cbn [gzip.emit]. destruct (http.Write v p) as [v' n] eqn:Hw.
    destruct (snd n) as [err|] eqn:Hn.
    + exists [p], chunks. cbn. rewrite Hw. repeat split. discriminate.
    + destruct (IH v') as (got & rest & -> & Hp & Hnone). exists (p :: got), rest.
      split; [reflexivity |]. split; [| exact Hnone].
      cbn [map]. rewrite perform_all_cons. cbn [http.perform]. rewrite Hw. exact Hp.
Qed.

(** The writer under a [GzipWriter] is the writer after a sequence of
    calls of its own: the calls other than [Write] as they were made, and
    between them writes of the compressor's output. *)
Lemma GzipWriter_as_calls (l : list http.action) (z : gzip.Writer) (v : V) (e : Env) :
  let st := http.perform_all l ({| gz := z; GzipWriter_ResponseWriter := v |}, e) in
  exists received,
    http.perform_all received (v, e) = (GzipWriter_ResponseWriter (fst st), snd st)
    /\ without_writes received = without_writes l
    /\ gzip.closed (gz (fst st)) = gzip.closed z
    /\ (gzip.err z <> None -> received = without_writes l /\ gzip.err (gz (fst st)) <> None)
    /\ (gzip.err z = None ->
        exists rest,
          compressed (gzip.compressor z) (write_calls l) = (write_calls received ++ rest)%list
          /\ (gzip.err (gz (fst st)) = None ->
              rest = [] /\ received = diverted (gzip.compressor z) l
              /\ gzip.compressor (gz (fst st))
                 = compressor_after (gzip.compressor z) (write_calls l))).
Proof.
  cbv zeta. revert z v e. induction l as [|a l IH]; intros z v e.
  - exists []. cbn. repeat split; try tauto. intros _. exists []. repeat split.
  - rewrite perform_all_cons.
    assert (Hplain : forall v' e',
               http.perform a ({| gz := z; GzipWriter_ResponseWriter := v |}, e)
               = ({| gz := z; GzipWriter_ResponseWriter := v' |}, e') ->
               http.perform a (v, e) = (v', e') ->
               without_writes [a] = [a] ->
               write_calls [a] = [] ->
               (forall c, diverted c (a :: l) = a :: diverted c l) ->
               let st := http.perform_all l ({| gz := z; GzipWriter_ResponseWriter := v' |}, e') in
               exists received,
                 http.perform_all received (v, e) = (GzipWriter_ResponseWriter (fst st), snd st)
                 /\ without_writes received = without_writes (a :: l)
                 /\ gzip.closed (gz (fst st)) = gzip.closed z
                 /\ (gzip.err z <> None ->
                     received = without_writes (a :: l) /\ gzip.err (gz (fst st)) <> None)
                 /\ (gzip.err z = None ->
                     exists rest,
                       compressed (gzip.compressor z) (write_calls (a :: l))
                       = (write_calls received ++ rest)%list
                       /\ (gzip.err (gz (fst st)) = None ->
                           rest = [] /\ received = diverted (gzip.compressor z) (a :: l)
                           /\ gzip.compressor (gz (fst st))
                              = compressor_after (gzip.compressor z) (write_calls (a :: l))))).
    { intros v' e' _ Hdirect Hww Hwc Hdiv. cbv zeta.
      destruct (IH z v' e') as (received & Hrun & Hkeep & Hclosed & Hbad & Hgood).
      exists (a :: received). rewrite perform_all_cons, Hdirect.
      change (a :: received) with ([a] ++ received)%list.
      change (a :: l) with ([a] ++ l)%list.
      rewrite !without_writes_app, !write_calls_app, Hww, Hwc, Hkeep. cbn [app].
      split; [exact Hrun | split; [reflexivity | split; [exact Hclosed | split]]].
      { intros Hz. destruct (Hbad Hz) as [-> Herr]. split; [reflexivity | exact Herr]. }
      intros Hz. destruct (Hgood Hz) as (rest & Hc & Hnone). exists rest.
      split; [exact Hc |].
      intros Hn. destruct (Hnone Hn) as (-> & -> & Hstate).
      split; [reflexivity | split; [now rewrite Hdiv | exact Hstate]]. }
    destruct a.
    + now eapply Hplain.
    + now eapply Hplain.
    + now eapply Hplain.
    + now eapply Hplain.
    + (* CallWrite *)
      clear Hplain.
      cbn [http.perform http.Write GzipWriter_ResponseWriter_impl]. unfold GzipWriter_Write.
      cbn [gz GzipWriter_ResponseWriter]. unfold gzip.Write_.
      change (without_writes (http.CallWrite p :: l)) with (without_writes l).
      change (write_calls (http.CallWrite p :: l)) with (p :: write_calls l).
      cbn [diverted compressed compressor_after fold_left].
      destruct (gzip.err z) as [err|] eqn:Hz.
      * cbn [fst]. destruct (IH z v e) as (received & Hrun & Hkeep & Hclosed & Hbad & _).
        rewrite Hz in Hbad. exists received.
        split; [exact Hrun | split; [exact Hkeep | split; [exact Hclosed | split]]].
        -- intros _. apply Hbad. discriminate.
        -- intros Hn. discriminate.
      * destruct (gzip.feed (gzip.compressor z) p) as [c chunks]. cbn [fst snd].
        destruct (emit_as_calls chunks v e) as (got & rest0 & -> & Hgot & Hnone0).
        destruct (gzip.emit v (got ++ rest0)%list) as [v' err'] eqn:Hemit. cbn [fst snd] in *.
        match goal with
        | |- context [http.perform_all l (?g, e)] =>
            destruct (IH (gz g) (GzipWriter_ResponseWriter g) e)
              as (received & Hrun & Hkeep & Hclosed & Hbad & Hgood)
        end.
        cbn [gz GzipWriter_ResponseWriter gzip.err gzip.compressor gzip.closed]
          in Hrun, Hkeep, Hclosed, Hbad, Hgood.
        exists (map http.CallWrite got ++ received)%list.
        rewrite perform_all_app, Hgot, without_writes_app, without_writes_of_writes,
          write_calls_app, write_calls_of_writes.
        split; [exact Hrun | split; [exact Hkeep | split; [exact Hclosed | split]]].
        -- intros Hn. now contradiction Hn.
        -- intros _. destruct err' as [err'|].
           ++ destruct Hbad as [Hr Herr]; [discriminate |].
              exists (rest0 ++ compressed c (write_calls l))%list.
              split.
              ** rewrite Hr, write_calls_without_writes.
                 now rewrite app_nil_r, <- app_assoc.
              ** intros Hn. contradiction.
           ++ destruct (Hgood eq_refl) as (rest & Hc & Hnone).
              rewrite (Hnone0 eq_refl), app_nil_r in *.
              exists rest. split; [now rewrite Hc, <- app_assoc |].
              intros Hn. destruct (Hnone Hn) as (-> & -> & Hstate).
              split; [reflexivity | split; [reflexivity | exact Hstate]].
    + now eapply Hplain.
Qed.

(** The compressing branch of the middleware over the host filter, as
    calls on the writer it was given: the header first, then the calls of
    the inner handler with the compressor's output in place of its writes,
    then what [Close] writes. *)
Lemma GZip_compressed_as_calls (h : GZip (Handler http.fileHandler)) (v : V)
    (r : http.Request) (e : Env) (c : Config) :
  config e = Some c ->
  let b := filtered c (GZip_Handler h) r in
  let out := GZip_compressed h V RV v r e in
  exists received tail rest,
    http.sink (fst out)
    = fst (http.perform_all
             (http.SetHeader "Content-Encoding" "gzip"
              :: received ++ map http.CallWrite tail)%list (v, e))
    /\ without_writes received = without_writes (http.actions b)
    /\ gzip_stream (write_calls (http.actions b)) = (write_calls received ++ tail ++ rest)%list
    /\ (gzip.err (snd out) = None ->
        rest = []
        /\ received = diverted gzip.start (http.actions b)
        /\ tail = gzip.finish (compressor_after gzip.start (write_calls (http.actions b)))).
Proof.
  intros Hc. cbv zeta.
  rewrite GZip_compressed_parts. cbn [fst snd http.sink].
  rewrite (Handler_plays_filtered (GZip_Handler h) _ r e c Hc).
  set (b := filtered c (GZip_Handler h) r).
  set (v0 := http.setHeader v (textproto.Set_ (http.Header v) "Content-Encoding" "gzip")).
  unfold http.play.
  destruct (GzipWriter_as_calls (http.actions b) gzip.NewWriter v0 e)
    as (received & Hrun & Hkeep & Hclosed & _ & Hgood).
  destruct (Hgood eq_refl) as (rest1 & Hc1 & Hnone1). clear Hgood.
  cbn [gzip.NewWriter gzip.compressor gzip.closed] in Hc1, Hnone1, Hclosed.
  destruct (http.perform_all (http.actions b)
              ({| gz := gzip.NewWriter; GzipWriter_ResponseWriter := v0 |}, e)) as [gw e1].
  cbn [fst snd http.sink] in *.
  assert (Hhead : forall calls,
             http.perform_all (http.SetHeader "Content-Encoding" "gzip" :: received ++ calls)%list
               (v, e)
             = http.perform_all calls (GzipWriter_ResponseWriter gw, e1)).
  { intros calls. rewrite perform_all_cons. cbn [http.perform]. fold v0.
    now rewrite perform_all_app, Hrun. }
  unfold gzip_stream. rewrite Hc1.
  unfold gzip.Close. destruct (gzip.err (gz gw)) as [err|] eqn:Herr.
  - cbn [fst snd gzip.err].
    exists received, [], (rest1 ++ gzip.finish (compressor_after gzip.start (write_calls (http.actions b))))%list.
    rewrite Hhead. cbn [map http.perform_all fold_left fst app].
    split; [reflexivity | split; [exact Hkeep | split; [now rewrite <- app_assoc |]]].
    intros Hn. discriminate Hn.
  - destruct (Hnone1 eq_refl) as (-> & Hdiv & Hstate). rewrite Hclosed.
    destruct (emit_as_calls (gzip.finish (gzip.compressor (gz gw)))
                (GzipWriter_ResponseWriter gw) e1) as (got & rest0 & Hfin & Hgot & Hnone0).
    destruct (gzip.emit (GzipWriter_ResponseWriter gw) (gzip.finish (gzip.compressor (gz gw))))
      as [v' err'].
    cbn [fst snd gzip.err] in *.
    exists received, got, rest0.
    rewrite Hhead, Hgot. cbn [fst].
    rewrite app_nil_r, <- Hstate, Hfin.
    split; [reflexivity | split; [exact Hkeep | split; [reflexivity |]]].
    intros Hn. rewrite (Hnone0 Hn), app_nil_r. repeat split. exact Hdiv.
Qed.

End AsCalls.

Section ThroughGzipWriter.

Context {GZ : gzip.Compressor} {W : Type} {RW : http.ResponseWriter W}.

Lemma emit_Writer_Status (chunks : list string) (lw : Writer W) :
  Status (fst (gzip.emit lw chunks)) = Status lw.
Proof.
  revert lw. induction chunks as [|p chunks IH]; intros lw; [reflexivity |].
  cbn [gzip.emit http.Write Writer_ResponseWriter_impl].
  pose proof (Writer_Write_Status lw p) as Hs.
  destruct (Writer_Write lw p) as [lw' n]. cbn [fst snd] in *.
  destruct (snd n); [exact Hs |]. now rewrite IH.
Qed.

Lemma Status_through_GzipWriter (l : list http.action) (z : gzip.Writer) (lw : Writer W)
    (e : Env) :
  Status (GzipWriter_ResponseWriter
            (fst (http.perform_all l ({| gz := z; GzipWriter_ResponseWriter := lw |}, e))))
  = List.last (status_calls l) (Status lw).
Proof.
  revert z lw e. induction l as [|a l IH]; intros z lw e; [reflexivity |].
  rewrite perform_all_cons, last_status_calls_cons.
  destruct a; cbn [http.perform http.setHeader http.WriteHeader http.Write
                   GzipWriter_ResponseWriter_impl gz GzipWriter_ResponseWriter];
    try (rewrite IH; reflexivity).
  unfold GzipWriter_Write, gzip.Write_. cbn [gz GzipWriter_ResponseWriter].
  destruct (gzip.err z).
  - cbn [fst]. now rewrite IH.
  - destruct (gzip.feed (gzip.compressor z) p) as [c chunks].
    pose proof (emit_Writer_Status chunks lw) as Hs.
    destruct (gzip.emit lw chunks) as [lw' err']. cbn [fst] in *.
    rewrite IH. cbn [GzipWriter_ResponseWriter]. now rewrite Hs.
Qed.

(** C8: whatever calls are made on a [GzipWriter], and whatever state its
    compressor is in, the wrapped writer is left as by a sequence of calls
    made on it directly: every call other than [Write] (the header changes
    and every [WriteHeader] with its code) as it was made and in the same
    order, and in place of the slices written, output of the compressor,
    all of it and chunk for chunk where each [Write] stood when no write
    failed, none at all once the compressor has failed.  So a probe below
    sees the same status codes as without the wrapper, and a recorder
    below records the same status. *)
Theorem GzipWriter_passes_status_calls (l : list http.action) (z : gzip.Writer) (w : W)
    (e : Env) :
  let st := fst (http.perform_all l ({| gz := z; GzipWriter_ResponseWriter := w |}, e)) in
  let direct := http.seen (fst (http.perform_all l (http.probe w, e))) in
  let wrapped :=
    http.seen (GzipWriter_ResponseWriter
                 (fst (http.perform_all l
                         ({| gz := z; GzipWriter_ResponseWriter := http.probe w |}, e)))) in
  (exists received,
      GzipWriter_ResponseWriter st = fst (http.perform_all received (w, e))
      /\ without_writes received = without_writes l
      /\ status_calls received = status_calls l
      /\ (gzip.err z <> None -> write_calls received = [])
      /\ (gzip.err z = None ->
          exists rest,
            compressed (gzip.compressor z) (write_calls l) = (write_calls received ++ rest)%list
            /\ (gzip.err (gz st) = None ->
                rest = [] /\ received = diverted (gzip.compressor z) l)))
  /\ statuses wrapped = status_calls l
  /\ statuses direct = status_calls l
  /\ writes direct = write_calls l
  /\ (forall lw : Writer W,
         Status (GzipWriter_ResponseWriter
                   (fst (http.perform_all l ({| gz := z; GzipWriter_ResponseWriter := lw |}, e))))
         = Status (fst (http.perform_all l (lw, e)))).
Proof.
  cbv zeta. split.
  - destruct (GzipWriter_as_calls l z w e) as (received & Hrun & Hkeep & _ & Hbad & Hgood).
    exists received. rewrite Hrun. cbn [fst].
    split; [reflexivity | split; [exact Hkeep | split; [| split]]].
    + rewrite <- (status_calls_without_writes received), Hkeep.
      apply status_calls_without_writes.
    + intros Hz. destruct (Hbad Hz) as [-> _]. apply write_calls_without_writes.
    + intros Hz. destruct (Hgood Hz) as (rest & Hc & Hnone). exists rest.
      split; [exact Hc |]. intros Hn. destruct (Hnone Hn) as (Hr & Hd & _). now split.
  - destruct (perform_through_GzipWriter _ observes_Probe l z (http.probe w) e)
      as (Hs & _).
    destruct (perform_observed _ observes_Probe l (http.probe w) e) as (Hds & Hdw).
    split; [exact Hs | split; [exact Hds | split; [exact Hdw |]]].
    intros lw. now rewrite Status_through_GzipWriter, perform_all_Status.
Qed.

End ThroughGzipWriter.

(** A partial answer through a compressor that frames: the wrapped writer
    is the one left by [WriteHeader(206)] and the writes of the header and
    of the slice. *)
Lemma GzipWriter_passes_status_calls_witness :
  let l := [http.Elapse 2; http.CallWriteHeader 206; http.CallWrite "partial"] in
  let w := http.newResponse (sample.request "GET" "/a.css" "example.com" "gzip") in
  exists received,
    GzipWriter_ResponseWriter (GZ := sample.framing)
      (fst (http.perform_all l ({| gz := gzip.NewWriter; GzipWriter_ResponseWriter := w |},
                                sample.env)))
    = fst (http.perform_all received (w, sample.env))
    /\ received = [http.Elapse 2; http.CallWriteHeader 206;
                   http.CallWrite "GZIPHEADER"; http.CallWrite "partial"].
Proof.
  intros l w.
  destruct (GzipWriter_passes_status_calls (GZ := sample.framing) l gzip.NewWriter w sample.env)
    as ((received & Hrun & _ & _ & _ & Hgood) & _).
  exists received. split; [exact Hrun |].
  destruct (Hgood eq_refl) as (rest & _ & Hnone).
  exact (proj2 (Hnone eq_refl)).
Defined.

(** ** Compression, from the header to the trailer *)

Section Compressing.

Context {GZ : gzip.Compressor} {W : Type} {RW : http.ResponseWriter W}.


End Compressing.


(** The access log opens; the file server writes half a page, takes seven
    time units and panics.  The line is handed to the log writer, with the
    time at which the handler stopped, and the panic goes on; the file gets
    nothing. *)
Lemma access_log_one_line_per_request_witness :
  let os := {| config_json := Some "{}"; opens := fun _ => true;
               files_under := fun _ _ => sample.crash |} in
  let l := {| address := ":8080"; certificate := None;
              handler := Site (site os sample.config_value sample.re) |} in
  let r := sample.request "GET" "/notes.txt" "www.example.com" "gzip" in
  let res := serve_on (GZ := sample.framing) (TF := sample.counter) (UE := sample.verbatim)
               l http.response _ (http.newResponse r) r sample.env in
  http.exit res = Panicked (PanicValue "boom")
  /\ written (http.world res)
     = [(NamedFile "access.log",
         ("203.0.113.5 [1007] GET " ++ quote ++ "/notes.txt" ++ quote ++ " 0 11 "
          ++ quote ++ quote ++ " " ++ quote ++ quote ++ newline)%string)]
  /\ appended (http.world res) = [].
Proof.
  intros os l r res.
  destruct (access_log_one_line_per_request (GZ := sample.framing) (TF := sample.counter)
              (UE := sample.verbatim) os sample.env sample.config_value [l] l
              http.response _ (http.newResponse r) r sample.env
              eq_refl (or_introl eq_refl) (or_introl eq_refl))
    as (_ & Hw & _ & _ & Hpanic & Hbad & _).
  split; [| split].
  - exact (Hpanic (site os sample.config_value sample.re) sample.config_value
             (PanicValue "boom") eq_refl eq_refl eq_refl).
  - etransitivity; [exact Hw | reflexivity].
  - exact (Hbad eq_refl).
Defined.

(** ** The byte count *)





Section Counting.

Context {V : Type} {RV : http.ResponseWriter V}.
Context (obs : V -> list http.event) (Hobs : observes obs).


End Counting.

Lemma len_append (a b : string) : len (a ++ b) = len a + len b.
Proof.
  unfold len. induction a as [|x a IH]; simpl String.length; [simpl; lia |].
  rewrite !Nat2Z.inj_succ. cbn [String.append] in *. lia.
Qed.

Section LoggedBytes.

Context {GZ : gzip.Compressor} {TF : time.Formatter} {UE : url.Escaper}.
Context {W : Type} {RW : http.ResponseWriter W}.


End LoggedBytes.



(** ** The compiled pattern *)

Lemma plain_char (c : ascii) :
  regexp.is_ascii c && negb (regexp.is_meta c) = true ->
  Ascii.eqb c "(" = false /\ Ascii.eqb c ")" = false /\ Ascii.eqb c "|" = false
  /\ Ascii.eqb c "$" = false /\ Ascii.eqb c "\" = false /\ Ascii.eqb c "?" = false
  /\ regexp.is_meta c = false.
Proof.
  intros H. apply andb_true_iff in H as [_ H]. apply negb_true_iff in H.
  pose proof H as Hm. unfold regexp.is_meta in H. cbn [gostrings.in_cutset] in H.
  repeat match type of H with
         | (_ || _)%bool = false => apply orb_false_iff in H as [? H]
         end.
  repeat split; assumption.
Qed.

Lemma parse_literals (ext rest : string) (fold : bool) (stack : list (regexp.frame * bool))
    (top : regexp.frame) :
  plain ext = true ->
  regexp.parse_loop fold stack top (ext ++ rest)
  = regexp.parse_loop fold stack (push_literals fold top ext) rest.
Proof.
  revert top. induction ext as [|c ext IH]; intros top Hp; [reflexivity |].
  cbn [plain gostrings.all_bytes] in Hp. apply andb_true_iff in Hp as [Hc Hp].
  destruct (plain_char c Hc) as (H1 & H2 & H3 & H4 & H5 & _ & H7).
  apply andb_true_iff in Hc as [Ha _].
  simpl. rewrite H1, H2, H3, H4, H5, H7, Ha. now apply IH.
Qed.

Lemma parse_alternatives (exts : list string) (rest : string) (fold : bool)
    (stack : list (regexp.frame * bool)) (top : regexp.frame) :
  Forall (fun ext => plain ext = true) exts ->
  regexp.parse_loop fold stack top (gostrings.Join exts "|" ++ rest)
  = regexp.parse_loop fold stack (push_alternatives fold top exts) rest.
Proof.
  revert top. induction exts as [|e exts IH]; intros top Hp; [reflexivity |].
  inversion Hp as [|? ? He Hexts]; subst.
  destruct exts as [|e' exts].
  - cbn [gostrings.Join push_alternatives]. now apply parse_literals.
  - change (gostrings.Join (e :: e' :: exts) "|")
      with (e ++ "|" ++ gostrings.Join (e' :: exts) "|").
    change (push_alternatives fold top (e :: e' :: exts))
      with (push_alternatives fold (regexp.next_alt (push_literals fold top e)) (e' :: exts)).
    rewrite append_assoc, (parse_literals e _ fold stack top He).
    rewrite <- (IH _ Hexts). rewrite append_assoc. reflexivity.
Qed.

(** The first character after the opening parenthesis is not a question
    mark, so the group is an ordinary one. *)
Lemma Join_not_flag_group (exts : list string) (rest : string) :
  Forall (fun ext => plain ext = true) exts ->
  match gostrings.Join exts "|" ++ ")" ++ rest with
  | String q _ => Ascii.eqb q "?" = false
  | EmptyString => True
  end.
Proof.
  intros Hp. destruct exts as [|e exts]; [reflexivity |].
  inversion Hp as [|? ? He _]; subst.
  assert (Hhead : forall tail, match e ++ tail with
                               | String q _ => Ascii.eqb q "?" = false
                               | EmptyString => True
                               end
                               \/ e = EmptyString).
  { intros tail. destruct e as [|c e]; [now right | left].
    cbn [plain gostrings.all_bytes] in He. apply andb_true_iff in He as [Hc _].
    now destruct (plain_char c Hc) as (_ & _ & _ & _ & _ & H6 & _). }
  destruct exts as [|e' exts].
  - cbn [gostrings.Join]. destruct (Hhead (")" ++ rest)) as [H | ->]; [exact H | reflexivity].
  - change (gostrings.Join (e :: e' :: exts) "|")
      with (e ++ "|" ++ gostrings.Join (e' :: exts) "|").
    rewrite append_assoc.
    destruct (Hhead (("|" ++ gostrings.Join (e' :: exts) "|") ++ ")" ++ rest)) as [H | ->];
      [exact H | reflexivity].
Qed.

(** The expression [main] compiles, for plain extensions. *)
Lemma Compile_pattern (c : Config) :
  Forall (fun ext => plain ext = true) (Gzip (Httpd c)) ->
  regexp.Compile (pattern c)
  = regexp.Parsed
      (regexp.Concat
         (regexp.Concat
            (regexp.Concat regexp.EmptyMatch (regexp.Literal "." true))
            (regexp.close_frame (push_alternatives true regexp.empty_frame (Gzip (Httpd c)))))
         regexp.EndText).
Proof.
  intros Hp. unfold regexp.Compile, pattern.
  set (exts := Gzip (Httpd c)) in *.
  change ("(?i)\.(" ++ gostrings.Join exts "|" ++ ")$")
    with (String "(" (String "?" (String "i" (String ")" (String "\" (String "." (String "("
            (gostrings.Join exts "|" ++ ")" ++ "$")))))))).
  cbn [regexp.parse_loop Ascii.eqb Bool.eqb andb].
  change (regexp.is_ascii "." && negb (regexp.is_alnum ".")) with true. cbv iota.
  pose proof (Join_not_flag_group exts "$" Hp) as Hq.
  destruct (gostrings.Join exts "|" ++ ")" ++ "$") as [|q tail] eqn:E.
  - exfalso. destruct exts as [|e [|e' exts']]; cbn [gostrings.Join] in E.
    + discriminate.
    + destruct e; discriminate.
    + destruct e; discriminate.
  - rewrite Hq, <- E.
    rewrite (parse_alternatives exts (")" ++ "$") true _ regexp.empty_frame Hp).
    reflexivity.
Qed.

(** ** What the compiled pattern matches *)

Lemma matchAt_ext (k k' : string -> bool) (re : regexp.Regexp) (s : string) :
  (forall t, k t = k' t) -> regexp.matchAt re s k = regexp.matchAt re s k'.
Proof.
  revert s k k'. induction re as [| c f | | a IHa b IHb | a IHa b IHb]; intros s k k' Hk; simpl.
  - apply Hk.
  - destruct (if f then regexp.fold_step c s else regexp.exact_step c s); [apply Hk | reflexivity].
  - destruct s; [apply Hk | reflexivity].
  - apply IHa. intros t. now apply IHb.
  - now rewrite (IHa s k k' Hk), (IHb s k k' Hk).
Qed.

Lemma push_literals_alts (e : string) (f : regexp.frame) :
  regexp.alts (push_literals true f e) = regexp.alts f.
Proof. revert f. induction e as [|c e IH]; intros f; [reflexivity | simpl; now rewrite IH]. Qed.

Lemma push_literals_match (e : string) (f : regexp.frame) (s : string) (k : string -> bool) :
  regexp.matchAt (regexp.cur (push_literals true f e)) s k
  = regexp.matchAt (regexp.cur f) s
      (fun t => match strip_fold e t with Some t' => k t' | None => false end).
Proof.
  revert f k. induction e as [|c e IH]; intros f k.
  - reflexivity.
  - cbn [push_literals]. rewrite IH. cbn [regexp.push_atom regexp.cur regexp.matchAt].
    apply matchAt_ext. intros t. cbn [strip_fold].
    destruct (regexp.fold_step c t); reflexivity.
Qed.

Lemma close_frame_match (f : regexp.frame) (s : string) (k : string -> bool) :
  regexp.matchAt (regexp.close_frame f) s k
  = existsb (fun a => regexp.matchAt a s k) (regexp.alts f) || regexp.matchAt (regexp.cur f) s k.
Proof.
  unfold regexp.close_frame. induction (regexp.alts f) as [|a l IH]; [reflexivity |].
  cbn [fold_right regexp.matchAt existsb]. now rewrite IH, orb_assoc.
Qed.

Lemma push_alternatives_match (exts : list string) (f : regexp.frame) (s : string)
    (k : string -> bool) :
  exts <> [] -> regexp.cur f = regexp.EmptyMatch ->
  regexp.matchAt (regexp.close_frame (push_alternatives true f exts)) s k
  = existsb (fun a => regexp.matchAt a s k) (regexp.alts f)
    || existsb (fun e => match strip_fold e s with Some t => k t | None => false end) exts.
Proof.
  revert f. induction exts as [|e exts IH]; intros f Hne Hcur; [contradiction |].
  destruct exts as [|e' exts].
  - cbn [push_alternatives existsb]. rewrite close_frame_match, push_literals_alts,
      push_literals_match, Hcur, orb_false_r. reflexivity.
  - change (push_alternatives true f (e :: e' :: exts))
      with (push_alternatives true (regexp.next_alt (push_literals true f e)) (e' :: exts)).
    rewrite IH by (discriminate || reflexivity).
    cbn [regexp.next_alt regexp.alts]. rewrite existsb_app, push_literals_alts.
    cbn [existsb]. rewrite push_literals_match, Hcur, orb_false_r, <- orb_assoc. reflexivity.
Qed.

Lemma existsb_pointwise {A : Type} (f g : A -> bool) (l : list A) :
  (forall a, f a = g a) -> existsb f l = existsb g l.
Proof. intros H. induction l as [|a l IH]; [reflexivity | cbn; now rewrite H, IH]. Qed.

Lemma andb_existsb {A : Type} (b : bool) (g : A -> bool) (l : list A) :
  b && existsb g l = existsb (fun a => b && g a) l.
Proof.
  destruct b; [apply existsb_pointwise; reflexivity |].
  induction l as [|a l IH]; [reflexivity | exact IH].
Qed.

(** At a given offset, the pattern matches exactly the texts that are a dot
    and one of the extensions, case apart. *)
Lemma pattern_matches_here (exts : list string) (s : string) :
  exts <> [] ->
  regexp.matchAt
    (regexp.Concat
       (regexp.Concat
          (regexp.Concat regexp.EmptyMatch (regexp.Literal "." true))
          (regexp.close_frame (push_alternatives true regexp.empty_frame exts)))
       regexp.EndText) s (fun _ => true)
  = existsb (fun e => fold_eq s ("." ++ e)) exts.
Proof.
  intros Hne. cbn [regexp.matchAt].
  transitivity (existsb (fun e => match regexp.fold_step "." s with
                                  | Some s' => match strip_fold e s' with
                                               | Some EmptyString => true
                                               | _ => false
                                               end
                                  | None => false
                                  end) exts).
  - destruct (regexp.fold_step "." s) as [s'|].
    + rewrite push_alternatives_match by (assumption || reflexivity).
      cbn [regexp.empty_frame regexp.alts existsb orb].
      apply existsb_pointwise. intros e.
      destruct (strip_fold e s') as [[|y t]|]; reflexivity.
    + clear. induction exts as [|e exts IH]; [reflexivity | exact IH].
  - apply existsb_pointwise. intros e. unfold fold_eq.
    change ("." ++ e) with (String "." e). cbn [strip_fold].
    destruct (regexp.fold_step "." s) as [s'|]; reflexivity.
Qed.

Lemma MatchString_iff (re : regexp.Regexp) (s : string) :
  regexp.MatchString re s = true
  <-> exists pre tail, s = pre ++ tail /\ regexp.matchAt re tail (fun _ => true) = true.
Proof.
  induction s as [|c s IH]; cbn [regexp.MatchString].
  - rewrite orb_false_r. split.
    + intros H. now exists EmptyString, EmptyString.
    + intros ([|x pre] & tail & E & H); [| discriminate]. simpl in E. now subst tail.
  - rewrite orb_true_iff, IH. split.
    + intros [H | (pre & tail & -> & H)].
      * now exists EmptyString, (String c s).
      * now exists (String c pre), tail.
    + intros ([|x pre] & tail & E & H).
      * simpl in E. subst tail. now left.
      * injection E as -> ->. right. now exists pre, tail.
Qed.

(** The compiled pattern finds a match in exactly the texts that end, case
    apart, with a dot and one of the extensions. *)
Lemma pattern_matches (c : Config) :
  Gzip (Httpd c) <> [] ->
  Forall (fun ext => plain ext = true) (Gzip (Httpd c)) ->
  exists re,
    regexp.Compile (pattern c) = regexp.Parsed re
    /\ forall s, regexp.Match re s = true
                 <-> exists ext, In ext (Gzip (Httpd c)) /\ ends_with_fold s ("." ++ ext).
Proof.
  intros Hne Hp. eexists. split; [now apply Compile_pattern |].
  intros s. unfold regexp.Match. rewrite MatchString_iff. split.
  - intros (pre & tail & -> & H). rewrite pattern_matches_here in H by exact Hne.
    apply existsb_exists in H as (ext & Hin & Hf). exists ext. split; [exact Hin |].
    now exists pre, tail.
  - intros (ext & Hin & pre & tail & -> & Hf). exists pre, tail. split; [reflexivity |].
    rewrite pattern_matches_here by exact Hne. apply existsb_exists. now exists ext.
Qed.

(** For matching, "/index.html" and "index.html" are worth the same. *)
Lemma index_html_suffix (ext : string) :
  ends_with_fold "/index.html" ("." ++ ext) <-> ends_with_fold "index.html" ("." ++ ext).
Proof.
  split.
  - intros ([|x pre] & tail & E & H).
    + simpl in E. subst tail. discriminate.
    + injection E as _ E. now exists pre, tail.
  - intros (pre & tail & E & H). exists (String "/" pre), tail. split; [| exact H].
    simpl. now rewrite <- E.
Qed.

(** C2, amended: with at least one extension configured, all of them
    written in ASCII characters that are literal in a regular expression,
    the middleware compresses exactly when Accept-Encoding contains "gzip"
    and the request URI, query string included, with "/" standing for
    "index.html", ends, case apart in the sense of [(?i)], with a dot and
    one of the extensions.  Compressing, its first call on the writer sets
    Content-Encoding to gzip; the inner handler's calls other than [Write]
    follow as they were made, and in place of what it wrote the writer
    receives the gzip stream, the whole of it if the compressor met no
    failed write.  Otherwise the inner handler is called with the writer as
    it came, and the writer receives that handler's calls and no other. *)
Theorem GZip_compresses_eligible_requests {GZ : gzip.Compressor} (c : Config) :
  Gzip (Httpd c) <> [] ->
  Forall (fun ext => plain ext = true) (Gzip (Httpd c)) ->
  exists re,
    regexp.Compile (pattern c) = regexp.Parsed re
    /\ (forall (H : Type) (HH : http.Handler H) (inner : H) (r : http.Request),
          let h := {| GZip_Regexp := re; GZip_Handler := inner |} in
          let wanted := eligible (Gzip (Httpd c))
                          (textproto.Get (http.RequestHeader r) "Accept-Encoding")
                          (http.RequestURI r) in
          (compresses h r = true <-> wanted)
          /\ (~ wanted ->
              forall (W : Type) (RW : http.ResponseWriter W) (w : W) (e : Env),
                GZip_ServeHTTP h W RW w r e = http.ServeHTTP inner W RW w r e))
    /\ (forall (inner : Handler http.fileHandler) (r : http.Request)
               (W : Type) (RW : http.ResponseWriter W) (w : W) (e : Env) (c' : Config),
          config e = Some c' ->
          let h := {| GZip_Regexp := re; GZip_Handler := inner |} in
          let b := filtered c' inner r in
          let res := GZip_ServeHTTP h W RW w r e in
          let wanted := eligible (Gzip (Httpd c))
                          (textproto.Get (http.RequestHeader r) "Accept-Encoding")
                          (http.RequestURI r) in
          (wanted ->
           exists received tail rest,
             http.sink res
             = fst (http.perform_all
                      (http.SetHeader "Content-Encoding" "gzip"
                       :: received ++ map http.CallWrite tail)%list (w, e))
             /\ without_writes received = without_writes (http.actions b)
             /\ gzip_stream (write_calls (http.actions b))
                = (write_calls received ++ tail ++ rest)%list
             /\ (gzip.err (snd (GZip_compressed h W RW w r e)) = None ->
                 rest = []
                 /\ received = diverted gzip.start (http.actions b)
                 /\ tail = gzip.finish (compressor_after gzip.start
                                          (write_calls (http.actions b)))))
          /\ (~ wanted -> http.sink res = fst (http.perform_all (http.actions b) (w, e)))).
Proof.
  intros Hne Hp. destruct (pattern_matches c Hne Hp) as (re & Hre & Hmatch).
  exists re. split; [exact Hre |].
  assert (Hiff : forall (H : Type) (inner : H) (r : http.Request),
             compresses {| GZip_Regexp := re; GZip_Handler := inner |} r = true
             <-> eligible (Gzip (Httpd c))
                   (textproto.Get (http.RequestHeader r) "Accept-Encoding") (http.RequestURI r)).
  { intros H inner r. unfold compresses, eligible. cbn [GZip_Regexp].
    rewrite andb_true_iff, Contains_iff, Hmatch. unfold matching_uri, effective_path.
    destruct (String.eqb (http.RequestURI r) "/") eqn:E.
    + apply String.eqb_eq in E. rewrite E. change ("/" ++ "index.html") with "/index.html".
      split; intros [Ha (ext & Hin & Hs)]; (split; [exact Ha |]); exists ext;
        (split; [exact Hin |]); now apply index_html_suffix.
    + reflexivity. }
  assert (Helse : forall (H : Type) (HH : http.Handler H) (inner : H) (r : http.Request),
             compresses {| GZip_Regexp := re; GZip_Handler := inner |} r = false ->
             forall (W : Type) (RW : http.ResponseWriter W) (w : W) (e : Env),
               GZip_ServeHTTP {| GZip_Regexp := re; GZip_Handler := inner |} W RW w r e
               = http.ServeHTTP inner W RW w r e).
  { intros H HH inner r Hno W RW w e. unfold compresses in Hno. unfold GZip_ServeHTTP.
    cbn [GZip_Regexp GZip_Handler] in *.
    destruct (gostrings.Contains _ _); [| reflexivity].
    destruct (regexp.Match _ _); [discriminate | reflexivity]. }
  split.
  - intros H HH inner r. cbv zeta. split; [apply Hiff |].
    intros Hno. apply Helse.
    destruct (compresses _ r) eqn:E; [| reflexivity].
    apply Hiff in E. contradiction.
  - intros inner r W RW w e c' Hc'. cbv zeta. split.
    + intros Hyes. apply (Hiff _ inner) in Hyes.
      assert (Hbranch : GZip_ServeHTTP {| GZip_Regexp := re; GZip_Handler := inner |} W RW w r e
                        = fst (GZip_compressed {| GZip_Regexp := re; GZip_Handler := inner |}
                                 W RW w r e)).
      { unfold compresses in Hyes. apply andb_true_iff in Hyes as [Hae Hm].
        unfold GZip_ServeHTTP. now rewrite Hae, Hm. }
      rewrite Hbranch.
      exact (GZip_compressed_as_calls {| GZip_Regexp := re; GZip_Handler := inner |}
               w r e c' Hc').
    + intros Hno.
      rewrite Helse.
      * change (http.ServeHTTP inner W RW w r e) with (Handler_ServeHTTP inner W RW w r e).
        rewrite (Handler_plays_filtered inner w r e c' Hc'). unfold http.play.
        now destruct (http.perform_all _ _).
      * destruct (compresses _ r) eqn:E; [| reflexivity].
        apply Hiff in E. contradiction.
Qed.

(** The root, asked for with gzip among the encodings accepted: the
    pattern of the sample configuration takes it for index.html, and the
    server's writer gets the header and then the framed page. *)
Lemma GZip_compresses_eligible_requests_witness :
  let r := sample.request "GET" "/" "www.example.com" "deflate, gzip" in
  exists re,
    regexp.Compile (pattern sample.config_value) = regexp.Parsed re
    /\ compresses {| GZip_Regexp := re; GZip_Handler := GZip_Handler (Log_Handler sample.site_handler) |}
         r = true
    /\ http.sink (GZip_ServeHTTP (GZ := sample.framing)
                    {| GZip_Regexp := re;
                       GZip_Handler := GZip_Handler (Log_Handler sample.site_handler) |}
                    http.response _ (http.newResponse r) r sample.env)
       = fst (http.perform_all
                [http.SetHeader "Content-Encoding" "gzip";
                 http.CallWriteHeader 200; http.Elapse 5;
                 http.CallWrite "GZIPHEADER"; http.CallWrite "<html>hello</html>";
                 http.CallWrite "CRC+SIZE"]
                (http.newResponse r, sample.env)).
Proof.
  intros r.
  destruct (GZip_compresses_eligible_requests (GZ := sample.framing) sample.config_value)
    as (re & Hre & Hall & Hsite).
  - discriminate.
  - repeat constructor.
  - assert (Hwanted : eligible (Gzip (Httpd sample.config_value))
                        (textproto.Get (http.RequestHeader r) "Accept-Encoding")
                        (http.RequestURI r)).
    { split.
      + exists "deflate, ", EmptyString. reflexivity.
      + exists "html". split; [now left |]. exists "index", ".html". split; reflexivity. }
    exists re. split; [exact Hre |]. split.
    + exact (proj2 (proj1 (Hall _ _ (GZip_Handler (Log_Handler sample.site_handler)) r)) Hwanted).
    + destruct (proj1 (Hsite (GZip_Handler (Log_Handler sample.site_handler)) r
                         http.response _ (http.newResponse r) sample.env sample.config_value
                         eq_refl) Hwanted)
        as (received & tail & rest & Hsink & _ & _ & Hnone).
      rewrite Hsink. clear Hsink.
      assert (Hparsed : regexp.Parsed re = regexp.Parsed sample.re)
        by (rewrite <- Hre; reflexivity).
      injection Hparsed as ->.
      destruct (Hnone eq_refl) as (_ & -> & ->). reflexivity.
Defined.

(** C2 as stated fails: what is matched is the request URI, not the path.
    A request for /app.js?v=2 has a path that ends in .js and accepts gzip,
    yet is served uncompressed and without a Content-Encoding header.  And
    with no extension configured, a request for /archive. is compressed. *)
Lemma GZip_matches_request_uri_not_path :
  let r := sample.versioned_script in
  let res := serve_on (GZ := sample.framing) (TF := sample.counter) (UE := sample.verbatim)
               sample.site_listener http.response _ (http.newResponse r) r sample.env in
  (eligible (Gzip (Httpd sample.config_value))
     (textproto.Get (http.RequestHeader r) "Accept-Encoding") (url.Path (http.URL r))
   /\ compresses (Log_Handler sample.site_handler) r = false
   /\ textproto.Get (http.sentHeader (http.sink res)) "Content-Encoding" = EmptyString
   /\ http.sentBody (http.sink res) = "<html>hello</html>")
  /\ (exists re,
        regexp.Compile (pattern sample.bare_config) = regexp.Parsed re
        /\ compresses {| GZip_Regexp := re; GZip_Handler := GZip_Handler (Log_Handler sample.site_handler) |}
             sample.dotted = true
        /\ ~ eligible (Gzip (Httpd sample.bare_config))
               (textproto.Get (http.RequestHeader sample.dotted) "Accept-Encoding")
               (url.Path (http.URL sample.dotted))).
Proof.
  cbv zeta. split.
  - split; [| vm_compute; repeat split].
    split.
    + exists EmptyString, ", deflate". reflexivity.
    + exists "js". split; [right; right; now left |]. exists "/app", ".js". split; reflexivity.
  - eexists. split; [reflexivity |]. split; [vm_compute; reflexivity |].
    intros [_ (ext & [] & _)].
Qed.

(** C6 at an ordinary request: [GET /docs/index.html] with
    [Host: www.example.com].  The server fills the request's URL with the
    path only, and the redirect, 301 with the Strict-Transport-Security
    header, goes to a Location that has the https scheme and no host. *)
Lemma redirect_location_has_no_host :
  let r := sample.request "GET" "/docs/index.html" "www.example.com" "gzip" in
  let res := serve_on (GZ := sample.framing) (TF := sample.counter) (UE := sample.verbatim)
               sample.redirect_listener http.response _ (http.newResponse r) r sample.env in
  http.status (http.sink res) = 301
  /\ textproto.Get (http.sentHeader (http.sink res)) "Strict-Transport-Security" = "max-age=604800"
  /\ textproto.Get (http.sentHeader (http.sink res)) "Location" = "https:///docs/index.html"
  /\ textproto.Get (http.sentHeader (http.sink res)) "Location"
     <> "https://www.example.com/docs/index.html".
Proof. vm_compute. repeat split. discriminate. Qed.

(** ** The recorded status, request by request *)

Section RecordedStatus.

Context {GZ : gzip.Compressor} {W : Type} {RW : http.ResponseWriter W}.

Lemma Close_Writer_Status (z : gzip.Writer) (lw : Writer W) :
  Status (snd (gzip.Close z lw)) = Status lw.
Proof.
  unfold gzip.Close. destruct (gzip.err z); [reflexivity |].
  destruct (gzip.closed z); [reflexivity |].
  pose proof (emit_Writer_Status (gzip.finish (gzip.compressor z)) lw) as Hs.
  destruct (gzip.emit lw _). exact Hs.
Qed.

Lemma site_recorded_status (h : GZip (Handler http.fileHandler)) (lw : Writer W)
    (r : http.Request) (e : Env) (c : Config) :
  config e = Some c ->
  Status (http.sink (GZip_ServeHTTP h (Writer W) _ lw r e))
  = List.last (status_calls (http.actions (filtered c (GZip_Handler h) r))) (Status lw).
Proof.
  intros Hc. unfold GZip_ServeHTTP.
  change (http.ServeHTTP (GZip_Handler h)) with (Handler_ServeHTTP (GZip_Handler h)).
  assert (Hdirect : Status (http.sink (Handler_ServeHTTP (GZip_Handler h) (Writer W) _ lw r e))
                    = List.last (status_calls (http.actions (filtered c (GZip_Handler h) r)))
                        (Status lw)).
  { rewrite (Handler_plays_filtered _ lw r e c Hc). unfold http.play.
    pose proof (perform_all_Status (http.actions (filtered c (GZip_Handler h) r)) lw e) as Hs.
    destruct (http.perform_all _ (lw, e)). exact Hs. }
  destruct (gostrings.Contains _ _); [| exact Hdirect].
  destruct (regexp.Match _ _); [| exact Hdirect].
  rewrite GZip_compressed_parts. cbn [fst http.sink]. rewrite Close_Writer_Status.
  rewrite (Handler_plays_filtered _ _ r e c Hc). unfold http.play.
  match goal with
  | |- context [http.perform_all ?l (?gw, e)] =>
      pose proof (Status_through_GzipWriter l (gz gw) (GzipWriter_ResponseWriter gw) e) as Hs
  end.
  cbn [gz GzipWriter_ResponseWriter] in Hs.
  destruct (http.perform_all _ _). exact Hs.
Qed.

(** C1, amended: the recorded status is the last value passed to
    [WriteHeader], for calls made on the recorder itself and for calls that
    reach it through a [GzipWriter]; when [WriteHeader] is never called it
    stays 0, the value the recorder is created with, whatever is written.
    So the status logged for a request to the site is the last code the
    host filter or the file server passed, 0 if none. *)
Theorem Writer_records_last_status (l : list http.action) (w : W) (e : Env) :
  let fresh := {| Writer_ResponseWriter := w; Status := 0; Bytes := 0 |} in
  let lw := fst (http.perform_all l (fresh, e)) in
  Status lw = List.last (status_calls l) 0
  /\ (status_calls l = [] -> Status lw = 0)
  /\ (forall z : gzip.Writer,
         Status (GzipWriter_ResponseWriter
                   (fst (http.perform_all l ({| gz := z; GzipWriter_ResponseWriter := fresh |}, e))))
         = List.last (status_calls l) 0)
  /\ (forall (h : GZip (Handler http.fileHandler)) (r : http.Request) (c : Config),
         config e = Some c ->
         Status (http.sink (GZip_ServeHTTP h (Writer W) _ fresh r e))
         = List.last (status_calls (http.actions (filtered c (GZip_Handler h) r))) 0).
Proof.
  cbv zeta. rewrite perform_all_Status. split; [reflexivity | split; [| split]].
  - now intros ->.
  - intros z. apply Status_through_GzipWriter.
  - intros h r c Hc. now apply site_recorded_status.
Qed.

End RecordedStatus.

Lemma Writer_records_last_status_witness :
  Status (fst (http.perform_all
                 [http.SetHeader "Content-Type" "text/html"; http.CallWrite "<p>hi</p>"]
                 ({| Writer_ResponseWriter := http.newResponse (sample.request "GET" "/" "example.com" "gzip");
                     Status := 0; Bytes := 0 |}, sample.env))) = 0.
Proof.
  apply (proj1 (proj2 (Writer_records_last_status (GZ := sample.framing)
                  [http.SetHeader "Content-Type" "text/html"; http.CallWrite "<p>hi</p>"]
                  (http.newResponse (sample.request "GET" "/" "example.com" "gzip"))
                  sample.env))).
  reflexivity.
Defined.

(** ** Start-up with a configuration *)

Section StartupConfigured.

Context {JD : json.Decoder}.

Lemma run_configured (main_ : OS -> Env -> startup) (os : OS) (content : string) (c : Config) :
  config_json os = Some content ->
  json.Decode content = inl c ->
  run main_ os = main_ os {| config := Some c; now := 0; written := []; appended := [] |}.
Proof. intros Ho Hd. unfold run, init. rewrite Ho, Hd. reflexivity. Qed.

(** X2: with a configuration that decodes and extensions free of regexp
    metacharacters, start-up of main.go does not panic ([MustCompile]
    accepts the pattern) and serves exactly one listener: at [Listen],
    without TLS, with the chain Log, GZip, Handler, FileServer over [Root];
    the log goes to the access-log file if it opens and to standard output
    otherwise. *)
Theorem main_serves_one_listener (os : OS) (content : string) (c : Config) :
  config_json os = Some content ->
  json.Decode content = inl c ->
  Forall (fun ext => plain ext = true) (Gzip (Httpd c)) ->
  exists re,
    regexp.Compile (pattern c) = regexp.Parsed re
    /\ run main os
       = Serving
           [ {| address := Listen (Httpd c);
                certificate := None;
                handler :=
                  Site {| Log_Writer := if opens os (AccessLog (Httpd c))
                                        then NamedFile (AccessLog (Httpd c)) else Stdout;
                          Path := AccessLog (Httpd c);
                          Log_Handler :=
                            {| GZip_Regexp := re;
                               GZip_Handler :=
                                 {| files := {| http.root := Root (Httpd c);
                                                http.serve := files_under os (Root (Httpd c)) |} |} |} |} |} ].
Proof.
  intros Ho Hd Hp. eexists. split; [now apply Compile_pattern |].
  rewrite (run_configured main os content c Ho Hd). unfold main. cbn [config].
  rewrite (Compile_pattern c Hp). reflexivity.
Qed.

End StartupConfigured.

Lemma main_serves_one_listener_witness :
  exists l, run (JD := sample.decoder) main sample.os = Serving [l] /\ address l = ":8080".
Proof.
  destruct (main_serves_one_listener (JD := sample.decoder) sample.os "{}" sample.config_value
              eq_refl eq_refl) as (re & _ & Hrun).
  - repeat constructor.
  - eexists. split; [exact Hrun | reflexivity].
Defined.

(** ** A pattern that does not compile *)

Lemma Join_cons_cons (e e' : string) (exts : list string) (sep : string) :
  gostrings.Join (e :: e' :: exts) sep = e ++ sep ++ gostrings.Join (e' :: exts) sep.
Proof. reflexivity. Qed.

(** An extension cut in two at one of its characters cuts the joined list
    in two. *)
Lemma Join_middle (before after : list string) (e1 e2 : string) (x : ascii) :
  gostrings.Join (before ++ [(e1 ++ String x e2)%string] ++ after)%list "|"
  = gostrings.Join (before ++ [e1])%list "|" ++ String x (gostrings.Join (e2 :: after) "|").
Proof.
  induction before as [|b before IH].
  - cbn [app]. destruct after as [|a after].
    + cbn [gostrings.Join]. reflexivity.
    + rewrite !Join_cons_cons. cbn [gostrings.Join]. now rewrite append_assoc.
  - destruct before as [|b' before].
    + cbn [app] in *. rewrite Join_cons_cons, IH, Join_cons_cons. cbn [gostrings.Join].
      now rewrite !append_assoc.
    + change (((b :: b' :: before) ++ [(e1 ++ String x e2)%string] ++ after)%list)
        with (b :: b' :: (before ++ [(e1 ++ String x e2)%string] ++ after))%list.
      change (((b :: b' :: before) ++ [e1])%list) with (b :: b' :: (before ++ [e1]))%list.
      rewrite !Join_cons_cons.
      change (b' :: (before ++ [(e1 ++ String x e2)%string] ++ after))%list
        with ((b' :: before) ++ [(e1 ++ String x e2)%string] ++ after)%list.
      change (b' :: (before ++ [e1]))%list with ((b' :: before) ++ [e1])%list.
      rewrite IH. now rewrite !append_assoc.
Qed.

Lemma plain_head (e tail : string) (x : ascii) :
  plain e = true -> Ascii.eqb x "?" = false ->
  match e ++ String x tail with
  | String q _ => Ascii.eqb q "?" = false
  | EmptyString => True
  end.
Proof.
  intros He Hx. destruct e as [|c e]; [exact Hx |].
  cbn [plain gostrings.all_bytes] in He. apply andb_true_iff in He as [Hc _].
  now destruct (plain_char c Hc) as (_ & _ & _ & _ & _ & H6 & _).
Qed.

Lemma Join_head (exts : list string) (x : ascii) (rest : string) :
  Forall (fun ext => plain ext = true) exts -> Ascii.eqb x "?" = false ->
  match gostrings.Join exts "|" ++ String x rest with
  | String q _ => Ascii.eqb q "?" = false
  | EmptyString => True
  end.
Proof.
  intros Hp Hx. destruct exts as [|e exts]; [exact Hx |].
  inversion Hp as [|? ? He _]; subst.
  destruct exts as [|e' exts].
  - cbn [gostrings.Join]. now apply plain_head.
  - rewrite Join_cons_cons.
    rewrite append_assoc. change (("|" ++ gostrings.Join (e' :: exts) "|") ++ String x rest)
      with (String "|" (gostrings.Join (e' :: exts) "|" ++ String x rest)).
    now apply plain_head.
Qed.

(** The pattern up to the alternatives of a plain list, whatever follows. *)
Lemma parse_pattern_head (exts : list string) (x : ascii) (rest : string) :
  Forall (fun ext => plain ext = true) exts -> Ascii.eqb x "?" = false ->
  regexp.Compile ("(?i)\.(" ++ gostrings.Join exts "|" ++ String x rest)
  = regexp.parse_loop true
      [(regexp.push_atom regexp.empty_frame (regexp.Literal "." true), true)]
      (push_alternatives true regexp.empty_frame exts) (String x rest).
Proof.
  intros Hp Hx. unfold regexp.Compile.
  change ("(?i)\.(" ++ gostrings.Join exts "|" ++ String x rest)
    with (String "(" (String "?" (String "i" (String ")" (String "\" (String "." (String "("
            (gostrings.Join exts "|" ++ String x rest)))))))).
  cbn [regexp.parse_loop Ascii.eqb Bool.eqb andb].
  change (regexp.is_ascii "." && negb (regexp.is_alnum ".")) with true. cbv iota.
  pose proof (Join_head exts x rest Hp Hx) as Hq.
  destruct (gostrings.Join exts "|" ++ String x rest) as [|q tail] eqn:E.
  - exfalso. destruct exts as [|e [|e' exts']]; cbn [gostrings.Join] in E.
    + discriminate.
    + destruct e; discriminate.
    + destruct e; discriminate.
  - rewrite Hq, <- E. now rewrite parse_alternatives.
Qed.

(** X5: when one extension of the configuration holds a parenthesis, and
    only one, every other character of the list being a literal ASCII
    character, the pattern [main] builds is malformed: a closing
    parenthesis ends the group early and leaves the pattern's own without
    a partner, an opening one is never closed.  [regexp.MustCompile]
    panics with that parse error, and neither variant serves anything. *)
Theorem unbalanced_extension_stops_startup (os : OS) (e : Env) (c : Config)
    (before after : list string) (e1 e2 : string) :
  config e = Some c ->
  Forall (fun ext => plain ext = true) before ->
  Forall (fun ext => plain ext = true) after ->
  plain e1 = true -> plain e2 = true ->
  (Gzip (Httpd c) = (before ++ [(e1 ++ ")" ++ e2)%string] ++ after)%list ->
   regexp.Compile (pattern c) = regexp.ParseError regexp.ErrUnexpectedParen
   /\ main os e = Aborted (PanicMustCompile (pattern c) regexp.ErrUnexpectedParen)
   /\ main_tls os e = Aborted (PanicMustCompile (pattern c) regexp.ErrUnexpectedParen))
  /\ (Gzip (Httpd c) = (before ++ [(e1 ++ "(" ++ e2)%string] ++ after)%list ->
      regexp.Compile (pattern c) = regexp.ParseError regexp.ErrMissingParen
      /\ main os e = Aborted (PanicMustCompile (pattern c) regexp.ErrMissingParen)
      /\ main_tls os e = Aborted (PanicMustCompile (pattern c) regexp.ErrMissingParen)).
Proof.
  intros Hc Hbefore Hafter He1 He2.
  assert (Hp1 : Forall (fun ext => plain ext = true) (before ++ [e1])%list).
  { apply Forall_app. split; [exact Hbefore | now constructor]. }
  assert (Hp2 : Forall (fun ext => plain ext = true) (e2 :: after)) by now constructor.
  assert (Hstop : forall code,
             regexp.Compile (pattern c) = regexp.ParseError code ->
             regexp.Compile (pattern c) = regexp.ParseError code
             /\ main os e = Aborted (PanicMustCompile (pattern c) code)
             /\ main_tls os e = Aborted (PanicMustCompile (pattern c) code)).
  { intros code Herr. unfold main, main_tls. rewrite Hc, Herr. repeat split. }
  split; intros Hgzip; apply Hstop; unfold pattern; rewrite Hgzip.
  - change (e1 ++ ")" ++ e2) with (e1 ++ String ")" e2).
    rewrite Join_middle.
    change ((gostrings.Join (before ++ [e1]) "|"
             ++ String ")" (gostrings.Join (e2 :: after) "|")) ++ ")$")
      with ((gostrings.Join (before ++ [e1]) "|"
             ++ String ")" (gostrings.Join (e2 :: after) "|")) ++ ")$").
    rewrite append_assoc.
    change (String ")" (gostrings.Join (e2 :: after) "|") ++ ")$")
      with (String ")" (gostrings.Join (e2 :: after) "|" ++ ")$")).
    rewrite parse_pattern_head by (assumption || reflexivity).
    cbn [regexp.parse_loop Ascii.eqb Bool.eqb].
    rewrite parse_alternatives by exact Hp2. reflexivity.
  - change (e1 ++ "(" ++ e2) with (e1 ++ String "(" e2).
    rewrite Join_middle, append_assoc.
    change (String "(" (gostrings.Join (e2 :: after) "|") ++ ")$")
      with (String "(" (gostrings.Join (e2 :: after) "|" ++ ")$")).
    rewrite parse_pattern_head by (assumption || reflexivity).
    cbn [regexp.parse_loop Ascii.eqb Bool.eqb].
    pose proof (Join_head (e2 :: after) ")" "$" Hp2 eq_refl) as Hq.
    change (String ")" "$") with ")$" in Hq.
    destruct (gostrings.Join (e2 :: after) "|" ++ ")$") as [|q tail] eqn:E.
    + exfalso. destruct after; cbn [gostrings.Join] in E; destruct e2; discriminate.
    + rewrite Hq, <- E. rewrite parse_alternatives by exact Hp2. reflexivity.
Qed.

(** The list html, js), css: the pattern is [(?i)\.(html|js)|css)$]. *)
Lemma unbalanced_extension_stops_startup_witness :
  let c := {| Httpd := {| Listen := ":8080"; Http := ":80"; Https := ":443";
                          Ssl := {| Key := EmptyString; Cert := EmptyString; Enabled := false |};
                          Hostname := "example.com"; Root := "/var/www";
                          AccessLog := "access.log"; Gzip := ["html"; "js)"; "css"] |} |} in
  main sample.os {| config := Some c; now := 0; written := []; appended := [] |}
  = Aborted (PanicMustCompile "(?i)\.(html|js)|css)$" regexp.ErrUnexpectedParen).
Proof.
  intros c.
  refine (proj1 (proj2 (proj1 (unbalanced_extension_stops_startup sample.os
                   {| config := Some c; now := 0; written := []; appended := [] |} c
                   ["html"] ["css"] "js" EmptyString
                   eq_refl _ _ eq_refl eq_refl) eq_refl))).
  - repeat constructor.
  - repeat constructor.
Defined.

(** ** Edges of the host filter and of the Accept-Encoding test *)

Lemma Index_empty (s : string) : gostrings.Index s EmptyString = 0.
Proof. unfold gostrings.Index. now destruct s. Qed.

(** X6: a configuration with an empty [Hostname] (the value the decoder
    leaves when the key is absent) switches the host filter off: every
    request, whatever its Host, an empty one included, goes to the file
    handler, and none is answered by the filter's 404. *)
Theorem empty_hostname_admits_every_host {F} `{http.Handler F} (h : Handler F)
    (r : http.Request) (e : Env) (c : Config) :
  config e = Some c ->
  Hostname (Httpd c) = EmptyString ->
  forall (W : Type) (RW : http.ResponseWriter W) (w : W),
    Handler_ServeHTTP h W RW w r e = http.ServeHTTP (files h) W RW w r e.
Proof.
  intros Hc Hh W RW w. unfold Handler_ServeHTTP. rewrite Hc, Hh, Index_empty. reflexivity.
Qed.

Lemma empty_hostname_admits_every_host_witness :
  let c := {| Httpd := {| Listen := ":8080"; Http := ":80"; Https := ":443";
                          Ssl := {| Key := EmptyString; Cert := EmptyString; Enabled := false |};
                          Hostname := EmptyString; Root := "/var/www";
                          AccessLog := "access.log"; Gzip := ["html"] |} |} in
  let r := sample.request "GET" "/index.html" "anything.test" "identity" in
  http.status
    (http.sink
       (Handler_ServeHTTP
          {| files := {| http.root := "/var/www"; http.serve := fun _ => sample.page |} |}
          http.response _ (http.newResponse r) r
          {| config := Some c; now := 0; written := []; appended := [] |})) = 200.
Proof.
  intros c r.
  rewrite (empty_hostname_admits_every_host
             {| files := {| http.root := "/var/www"; http.serve := fun _ => sample.page |} |}
             r {| config := Some c; now := 0; written := []; appended := [] |} c eq_refl eq_refl).
  reflexivity.
Defined.

(** X7: the middleware looks at the first Accept-Encoding line of the
    request only ([Header.Get]): with no such line, or a first line that
    does not contain "gzip", nothing is compressed, whatever later lines
    say, and the inner handler is called with the writer as it came. *)
Theorem GZip_reads_first_Accept_Encoding {GZ : gzip.Compressor} {H} `{http.Handler H}
    (h : GZip H) (r : http.Request) :
  compresses h r
  = match http.RequestHeader r !! "Accept-Encoding" with
    | Some (first :: _) =>
        gostrings.Contains first "gzip" && regexp.Match (GZip_Regexp h) (matching_uri r)
    | _ => false
    end
  /\ (match http.RequestHeader r !! "Accept-Encoding" with
      | Some (first :: _) => gostrings.Contains first "gzip" = false
      | _ => True
      end ->
      forall (W : Type) (RW : http.ResponseWriter W) (w : W) (e : Env),
        GZip_ServeHTTP h W RW w r e = http.ServeHTTP (GZip_Handler h) W RW w r e).
Proof.
  unfold compresses, GZip_ServeHTTP, textproto.Get, textproto.values.
  change (textproto.CanonicalMIMEHeaderKey "Accept-Encoding") with "Accept-Encoding".
  destruct (http.RequestHeader r !! "Accept-Encoding") as [[|first rest]|].
  - split; [reflexivity |]. intros _ W RW w e. reflexivity.
  - split; [reflexivity |]. intros Hno W RW w e. now rewrite Hno.
  - split; [reflexivity |]. intros _ W RW w e. reflexivity.
Qed.

Lemma GZip_reads_first_Accept_Encoding_witness :
  let r := {| http.Method := "GET";
              http.URL := url.origin_form "/site.css" false EmptyString;
              http.RequestHeader := {[ "Accept-Encoding" := ["br"; "gzip"] ]};
              http.Host := "www.example.com";
              http.RemoteAddr := "203.0.113.5:51000";
              http.RequestURI := "/site.css" |} in
  http.sentBody
    (http.sink (GZip_ServeHTTP (GZ := sample.framing) (Log_Handler sample.site_handler)
                  http.response _ (http.newResponse r) r sample.env))
  = "<html>hello</html>".
Proof.
  intros r.
  rewrite (proj2 (GZip_reads_first_Accept_Encoding (GZ := sample.framing)
                    (Log_Handler sample.site_handler) r) eq_refl).
  reflexivity.
Defined.

(** ** The recorder and the log change nothing for the client *)

Section UnderWriter.

Context {GZ : gzip.Compressor} {W : Type} {RW : http.ResponseWriter W}.

Lemma perform_under_Writer (a : http.action) (lw : Writer W) (e : Env) :
  http.perform a (Writer_ResponseWriter lw, e)
  = (Writer_ResponseWriter (fst (http.perform a (lw, e))), snd (http.perform a (lw, e))).
Proof.
  destruct a; cbn [http.perform fst snd http.setHeader http.WriteHeader http.Header http.Write
                   Writer_ResponseWriter_impl Writer_WriteHeader Writer_ResponseWriter];
    try reflexivity.
  now rewrite Writer_Write_inner.
Qed.

Lemma perform_all_under_Writer (l : list http.action) (lw : Writer W) (e : Env) :
  http.perform_all l (Writer_ResponseWriter lw, e)
  = (Writer_ResponseWriter (fst (http.perform_all l (lw, e))), snd (http.perform_all l (lw, e))).
Proof.
  revert lw e. induction l as [|a l IH]; intros lw e; [reflexivity |].
  rewrite !perform_all_cons, perform_under_Writer.
  destruct (http.perform a (lw, e)) as [lw' e']. cbn [fst snd]. apply IH.
Qed.

Lemma emit_under_Writer (chunks : list string) (lw : Writer W) :
  gzip.emit (Writer_ResponseWriter lw) chunks
  = (Writer_ResponseWriter (fst (gzip.emit lw chunks)), snd (gzip.emit lw chunks)).
Proof.
  revert lw. induction chunks as [|p chunks IH]; intros lw; [reflexivity |].
  cbn [gzip.emit http.Write Writer_ResponseWriter_impl].
  pose proof (Writer_Write_inner lw p) as Hi. pose proof (Writer_Write_result lw p) as Hr.
  destruct (Writer_Write lw p) as [lw' n]. destruct (http.Write (Writer_ResponseWriter lw) p) as [w' n'].
  cbn [fst snd] in *. subst w' n'.
  destruct (snd n); [reflexivity | apply IH].
Qed.

Lemma gzip_Write_under_Writer (z : gzip.Writer) (lw : Writer W) (p : string) :
  gzip.Write_ z (Writer_ResponseWriter lw) p
  = (fst (fst (gzip.Write_ z lw p)),
     Writer_ResponseWriter (snd (fst (gzip.Write_ z lw p))),
     snd (gzip.Write_ z lw p)).
Proof.
  unfold gzip.Write_. destruct (gzip.err z); [reflexivity |].
  destruct (gzip.feed (gzip.compressor z) p) as [c chunks].
  rewrite emit_under_Writer. now destruct (gzip.emit lw chunks).
Qed.

Lemma Close_under_Writer (z : gzip.Writer) (lw : Writer W) :
  gzip.Close z (Writer_ResponseWriter lw)
  = (fst (gzip.Close z lw), Writer_ResponseWriter (snd (gzip.Close z lw))).
Proof.
  unfold gzip.Close. destruct (gzip.err z); [reflexivity |].
  destruct (gzip.closed z); [reflexivity |].
  rewrite emit_under_Writer. now destruct (gzip.emit lw _).
Qed.

Lemma perform_GzipWriter_under_Writer (a : http.action) (z : gzip.Writer) (lw : Writer W)
    (e : Env) :
  let st := http.perform a ({| gz := z; GzipWriter_ResponseWriter := lw |}, e) in
  http.perform a ({| gz := z; GzipWriter_ResponseWriter := Writer_ResponseWriter lw |}, e)
  = ({| gz := gz (fst st);
        GzipWriter_ResponseWriter := Writer_ResponseWriter (GzipWriter_ResponseWriter (fst st)) |},
     snd st).
Proof.
  cbv zeta.
  destruct a; cbn [http.perform fst snd http.setHeader http.WriteHeader http.Header http.Write
                   GzipWriter_ResponseWriter_impl Writer_ResponseWriter_impl Writer_WriteHeader
                   Writer_ResponseWriter gz GzipWriter_ResponseWriter];
    try reflexivity.
  unfold GzipWriter_Write. cbn [gz GzipWriter_ResponseWriter].
  rewrite gzip_Write_under_Writer. now destruct (gzip.Write_ z lw p) as [[z' lw'] n].
Qed.

Lemma perform_all_GzipWriter_under_Writer (l : list http.action) (z : gzip.Writer)
    (lw : Writer W) (e : Env) :
  let st := http.perform_all l ({| gz := z; GzipWriter_ResponseWriter := lw |}, e) in
  http.perform_all l ({| gz := z; GzipWriter_ResponseWriter := Writer_ResponseWriter lw |}, e)
  = ({| gz := gz (fst st);
        GzipWriter_ResponseWriter := Writer_ResponseWriter (GzipWriter_ResponseWriter (fst st)) |},
     snd st).
Proof.
  cbv zeta. revert z lw e. induction l as [|a l IH]; intros z lw e; [reflexivity |].
  rewrite !perform_all_cons, perform_GzipWriter_under_Writer.
  destruct (http.perform a ({| gz := z; GzipWriter_ResponseWriter := lw |}, e)) as [[z' lw'] e'].
  cbn [fst snd gz GzipWriter_ResponseWriter]. apply IH.
Qed.

Lemma result_eq (V : Type) (a b : http.result V) :
  http.sink a = http.sink b -> http.req a = http.req b -> http.world a = http.world b ->
  http.exit a = http.exit b -> a = b.
Proof. destruct a, b. cbn. now intros -> -> -> ->. Qed.

(** What the site does to a writer below the recorder is what it does to
    that writer without the recorder. *)
Lemma GZip_under_Writer (h : GZip (Handler http.fileHandler)) (lw : Writer W)
    (r : http.Request) (e : Env) :
  let res := GZip_ServeHTTP h (Writer W) _ lw r e in
  GZip_ServeHTTP h W RW (Writer_ResponseWriter lw) r e
  = {| http.sink := Writer_ResponseWriter (http.sink res); http.req := http.req res;
       http.world := http.world res; http.exit := http.exit res |}.
Proof.
  cbv zeta.
  assert (Hplain : Handler_ServeHTTP (GZip_Handler h) W RW (Writer_ResponseWriter lw) r e
                   = {| http.sink :=
                          Writer_ResponseWriter
                            (http.sink (Handler_ServeHTTP (GZip_Handler h) (Writer W) _ lw r e));
                        http.req := http.req (Handler_ServeHTTP (GZip_Handler h) (Writer W) _ lw r e);
                        http.world := http.world (Handler_ServeHTTP (GZip_Handler h) (Writer W) _ lw r e);
                        http.exit := http.exit (Handler_ServeHTTP (GZip_Handler h) (Writer W) _ lw r e) |}).
  { destruct (config e) as [c|] eqn:Hc.
    - rewrite !(Handler_plays_filtered _ _ r e c Hc). unfold http.play.
      rewrite perform_all_under_Writer. now destruct (http.perform_all _ (lw, e)).
    - unfold Handler_ServeHTTP. rewrite Hc. reflexivity. }
  unfold GZip_ServeHTTP.
  change (http.ServeHTTP (GZip_Handler h)) with (Handler_ServeHTTP (GZip_Handler h)).
  destruct (gostrings.Contains _ _); [| exact Hplain].
  destruct (regexp.Match _ _); [| exact Hplain].
  rewrite !GZip_compressed_parts. cbn [fst http.sink http.req http.world http.exit].
  cbn [http.setHeader http.Header Writer_ResponseWriter_impl].
  set (lw0 := {| Writer_ResponseWriter := _; Status := Status lw; Bytes := Bytes lw |}).
  change (http.setHeader (Writer_ResponseWriter lw)
            (textproto.Set_ (http.Header (Writer_ResponseWriter lw)) "Content-Encoding" "gzip"))
    with (Writer_ResponseWriter lw0).
  destruct (config e) as [c|] eqn:Hc.
  - rewrite !(Handler_plays_filtered _ _ r e c Hc). unfold http.play.
    rewrite perform_all_GzipWriter_under_Writer.
    destruct (http.perform_all _ ({| gz := gzip.NewWriter; GzipWriter_ResponseWriter := lw0 |}, e))
      as [[z' lw'] e'].
    cbn [fst snd gz GzipWriter_ResponseWriter http.sink http.req http.world http.exit].
    now rewrite Close_under_Writer.
  - unfold Handler_ServeHTTP. rewrite Hc.
    cbn [http.sink http.req http.world http.exit gz GzipWriter_ResponseWriter].
    now rewrite Close_under_Writer.
Qed.

End UnderWriter.

Section Transparent.

Context {GZ : gzip.Compressor} {TF : time.Formatter} {UE : url.Escaper}.

(** X8: [Log] and its recorder change nothing for the client.  The writer
    the server handed in ends, call for call, in the state it would have
    without them, that is, had the handler inside [Log] been given that
    writer directly; the request, the clock and a panic come out the same.
    All that [Log] adds is its line. *)
Theorem Log_is_transparent (l : listener) (W : Type) (RW : http.ResponseWriter W) (w : W)
    (r : http.Request) (e : Env) :
  let logged := serve_on l W RW w r e in
  let bare :=
    match handler l with
    | Site h => GZip_ServeHTTP (Log_Handler h) W RW w r e
    | Redirector h => SslHandler_ServeHTTP (Log_Handler h) W RW w r e
    end in
  http.sink logged = http.sink bare
  /\ http.req logged = http.req bare
  /\ http.exit logged = http.exit bare
  /\ now (http.world logged) = now (http.world bare)
  /\ config (http.world logged) = config (http.world bare)
  /\ exists line,
       written (http.world logged) = (written (http.world bare) ++ [(log_of l, line)])%list.
Proof.
  cbv zeta. unfold serve_on, log_of. destruct (handler l) as [h | h].
  - change (http.ServeHTTP h W RW w r e) with (Log_ServeHTTP h W RW w r e).
    unfold Log_ServeHTTP.
    change (http.ServeHTTP (Log_Handler h)) with (GZip_ServeHTTP (Log_Handler h)).
    set (lw := {| Writer_ResponseWriter := w; Status := 0; Bytes := 0 |}).
    pose proof (GZip_under_Writer (Log_Handler h) lw r e) as Hbare.
    cbv zeta in Hbare. change (Writer_ResponseWriter lw) with w in Hbare at 1.
    rewrite Hbare.
    cbn [http.sink http.req http.world http.exit].
    rewrite file_Write_now, file_Write_config, file_Write_written.
    repeat split. eexists. reflexivity.
  - change (http.ServeHTTP h W RW w r e) with (Log_ServeHTTP h W RW w r e).
    unfold Log_ServeHTTP.
    change (http.ServeHTTP (Log_Handler h)) with (SslHandler_ServeHTTP (Log_Handler h)).
    unfold SslHandler_ServeHTTP.
    cbn [http.sink http.req http.world http.exit].
    rewrite file_Write_now, file_Write_config, file_Write_written.
    match goal with
    | |- context [http.Redirect ?lw ?r' ?t 301] =>
        destruct (Redirect_on_Writer lw r' t 301) as [Hinner _]; rewrite Hinner
    end.
    repeat split. eexists. reflexivity.
Qed.

End Transparent.

(** ** The redirect, method by method *)

Section RedirectByMethod.

Context {GZ : gzip.Compressor} {TF : time.Formatter} {UE : url.Escaper}.

Lemma access_line_with_URL (r : http.Request) (u : url.URL) (t status n : Z) :
  access_line (http.with_URL r u) t status n = access_line r t status n.
Proof. reflexivity. Qed.

Lemma no_Content_Type_yet :
  bool_decide
    (is_Some (textproto.Add (∅ : MIMEHeader) "Strict-Transport-Security" "max-age=604800"
                !! "Content-Type")) = false.
Proof.
  apply bool_decide_eq_false. unfold textproto.Add.
  change (textproto.CanonicalMIMEHeaderKey "Strict-Transport-Security")
    with "Strict-Transport-Security".
  rewrite lookup_insert_ne by discriminate. rewrite lookup_empty. intros [x Hx]. discriminate.
Qed.

(** X9: the redirector answers every method with 301, and only a GET with
    a body, the HTML link to the target; a HEAD gets the Content-Type of
    that body and no body, any other method neither.  The access-log line
    bears status 301, the length of that body (0 without one) and the
    clock as it then stands; it is made of the request as it arrived,
    although the handler has rewritten the scheme of its URL in place. *)
Theorem redirect_by_method (h : Log SslHandler) (r : http.Request) (e : Env) :
  let res := Log_ServeHTTP h http.response _ (http.newResponse r) r e in
  let target := url.String_ (url.with_Scheme (http.URL r) "https") in
  let body := ("<a href=" ++ quote ++ http.htmlEscape target ++ quote ++ ">"
               ++ "Moved Permanently" ++ "</a>." ++ newline) ++ newline in
  let get := String.eqb (http.Method r) "GET" in
  let head := String.eqb (http.Method r) "HEAD" in
  http.status (http.sink res) = 301
  /\ http.sentBody (http.sink res) = (if get then body else EmptyString)
  /\ textproto.Get (http.sentHeader (http.sink res)) "Content-Type"
     = (if get || head then "text/html; charset=utf-8" else EmptyString)
  /\ written (http.world res)
     = (written e ++
        [(Log_Writer h,
          (addr (http.RemoteAddr r) ++ " ["
           ++ time.Format (now (http.world res)) "02/Jan/2006 15:04:05 -0700" ++ "] "
           ++ http.Method r ++ " " ++ quote ++ http.RequestURI r ++ quote ++ " "
           ++ itoa 301 ++ " " ++ itoa (if get then int (len body) else 0) ++ " "
           ++ quote ++ textproto.Get (http.RequestHeader r) "referer" ++ quote ++ " "
           ++ quote ++ http.UserAgent r ++ quote ++ newline)%string)])%list
  /\ http.req res = http.with_URL r (url.with_Scheme (http.URL r) "https").
Proof.
  cbv zeta. unfold Log_ServeHTTP.
  change (http.ServeHTTP (Log_Handler h)) with (SslHandler_ServeHTTP (Log_Handler h)).
  unfold SslHandler_ServeHTTP.
  cbn [http.sink http.req http.world http.exit].
  rewrite file_Write_written, file_Write_now, access_line_with_URL.
  cbn [http.setHeader http.Header Writer_ResponseWriter_impl Writer_ResponseWriter
       http.response_ResponseWriter http.newResponse http.handlerHeader http.URL http.with_URL
       Status Bytes].
  set (target := url.String_ (url.with_Scheme (http.URL r) "https")).
  unfold http.Redirect, http.Fprintln.
  cbn [http.setHeader http.Header http.WriteHeader http.Write Writer_ResponseWriter_impl
       Writer_ResponseWriter Writer_WriteHeader http.response_ResponseWriter http.handlerHeader
       Status Bytes http.Method http.with_URL].
  rewrite no_Content_Type_yet. cbn [negb andb].
  change (http.StatusText 301) with "Moved Permanently".
  assert (Hbody : forall p : string,
             (len (p ++ newline) =? 0) = false).
  { intros p. apply Z.eqb_neq. rewrite len_append. pose proof (len_nonneg p).
    change (len newline) with 1. lia. }
  set (h0 := textproto.Set_
               (textproto.Add (∅ : MIMEHeader) "Strict-Transport-Security" "max-age=604800")
               "Location" (http.hexEscapeNonASCII target)).
  assert (Hcl0 : textproto.Get h0 "Content-Length" = EmptyString).
  { unfold h0. rewrite Get_Set_other, Get_Add_other by discriminate. apply Get_empty. }
  assert (Hct0 : textproto.Get h0 "Content-Type" = EmptyString).
  { unfold h0. rewrite Get_Set_other, Get_Add_other by discriminate. apply Get_empty. }
  set (h1 := textproto.Set_ h0 "Content-Type" "text/html; charset=utf-8").
  assert (Hcl1 : textproto.Get h1 "Content-Length" = EmptyString).
  { unfold h1. rewrite Get_Set_other by discriminate. exact Hcl0. }
  assert (Hct1 : textproto.Get h1 "Content-Type" = "text/html; charset=utf-8").
  { unfold h1. apply Get_Set_same. }
  destruct (String.eqb (http.Method r) "GET") eqn:Hget.
  - assert (Hm : String.eqb (http.Method r) "HEAD" = false).
    { apply String.eqb_eq in Hget. now rewrite Hget. }
    cbn [orb]. rewrite Writer_Write_Bytes, Writer_Write_inner, Writer_Write_Status.
    cbn [Writer_WriteHeader Writer_ResponseWriter Status Bytes http.Write http.WriteHeader
         http.response_ResponseWriter].
    rewrite response_WriteHeader_undeclared by (reflexivity || exact Hcl1).
    rewrite response_Write_undeclared by (reflexivity || apply Hbody).
    cbn [http.reqMethod http.newResponse http.status http.sentBody http.sentHeader
         http.handlerHeader String.append].
    rewrite Hm. cbn [String.append].
    split; [reflexivity | split; [reflexivity | split; [exact Hct1 | split; reflexivity]]].
  - cbn [orb]. destruct (String.eqb (http.Method r) "HEAD") eqn:Hhead.
    + cbn [Writer_WriteHeader Writer_ResponseWriter Status Bytes http.Write http.WriteHeader
           http.response_ResponseWriter].
      rewrite response_WriteHeader_undeclared by (reflexivity || exact Hcl1).
      cbn [http.status http.sentBody http.sentHeader http.newResponse].
      split; [reflexivity | split; [reflexivity | split; [exact Hct1 | split; reflexivity]]].
    + cbn [Writer_WriteHeader Writer_ResponseWriter Status Bytes http.Write http.WriteHeader
           http.response_ResponseWriter].
      rewrite response_WriteHeader_undeclared by (reflexivity || exact Hcl0).
      cbn [http.status http.sentBody http.sentHeader http.newResponse].
      split; [reflexivity | split; [reflexivity | split; [exact Hct0 | split; reflexivity]]].
Qed.

End RedirectByMethod.

(** ** A request for another host, from the filter to the log *)

Section ForeignHost.

Context {GZ : gzip.Compressor} {TF : time.Formatter} {UE : url.Escaper}.

Lemma filtered_foreign (c : Config) (h : Handler http.fileHandler) (r : http.Request) :
  ~ substring_of (Hostname (Httpd c)) (http.Host r) -> filtered c h r = not_found.
Proof.
  intros Hno. apply Index_missing_iff in Hno. unfold filtered. now rewrite Hno.
Qed.

(** X10: a request to the site whose Host does not contain the configured
    hostname is logged with status 404, whatever the file server would
    have answered, and the handler returns; this whether or not the answer
    is compressed.  When it
    is not compressed, the client is sent exactly what [http.NotFound]
    writes and the line counts its 19 bytes; for a request other than HEAD
    these are the status 404, the text-plain headers and the one-line
    body. *)
Theorem foreign_host_logged_404 (h : Log (GZip (Handler http.fileHandler)))
    (r : http.Request) (e : Env) (c : Config) :
  config e = Some c ->
  ~ substring_of (Hostname (Httpd c)) (http.Host r) ->
  (forall (W : Type) (RW : http.ResponseWriter W) (w : W),
      let res := Log_ServeHTTP h W RW w r e in
      http.exit res = Returned
      /\ (exists n, written (http.world res)
                    = (written e ++ [(Log_Writer h,
                                      access_line r (now (http.world res)) 404 n)])%list)
      /\ (compresses (Log_Handler h) r = false ->
          http.sink res = http.NotFound w r
          /\ written (http.world res)
             = (written e ++ [(Log_Writer h,
                               access_line r (now (http.world res)) 404 19)])%list))
  /\ (compresses (Log_Handler h) r = false ->
      String.eqb (http.Method r) "HEAD" = false ->
      let sent := http.sink (Log_ServeHTTP h http.response _ (http.newResponse r) r e) in
      http.status sent = 404
      /\ http.sentBody sent = "404 page not found" ++ newline
      /\ textproto.Get (http.sentHeader sent) "Content-Type" = "text/plain; charset=utf-8"
      /\ textproto.Get (http.sentHeader sent) "X-Content-Type-Options" = "nosniff").
Proof.
  intros Hc Hno.
  assert (Hplain : forall (W : Type) (RW : http.ResponseWriter W) (w : W),
             compresses (Log_Handler h) r = false ->
             http.sink (Log_ServeHTTP h W RW w r e) = http.NotFound w r
             /\ written (http.world (Log_ServeHTTP h W RW w r e))
                = (written e ++ [(Log_Writer h, access_line r (now e) 404 19)])%list).
  { intros W RW w Hcomp. unfold Log_ServeHTTP.
    change (http.ServeHTTP (Log_Handler h)) with (GZip_ServeHTTP (Log_Handler h)).
    assert (Hg : forall (V : Type) (RV : http.ResponseWriter V) (v : V),
               GZip_ServeHTTP (Log_Handler h) V RV v r e
               = http.play not_found v r e).
    { intros V RV v. unfold GZip_ServeHTTP. unfold compresses in Hcomp.
      change (http.ServeHTTP (GZip_Handler (Log_Handler h)))
        with (Handler_ServeHTTP (GZip_Handler (Log_Handler h))).
      rewrite (Handler_plays_filtered _ v r e c Hc), (filtered_foreign c _ r Hno).
      destruct (gostrings.Contains _ _); [| reflexivity].
      cbn [andb] in Hcomp. now rewrite Hcomp. }
    rewrite Hg. unfold http.play, not_found, http.perform_all.
    cbn [http.actions http.ending fold_left http.perform http.sink http.req http.world
         http.exit].
    rewrite file_Write_written.
    cbn [http.setHeader http.WriteHeader http.Header http.Write Writer_ResponseWriter_impl
         Writer_WriteHeader Writer_ResponseWriter Status Bytes].
    rewrite Writer_Write_inner, Writer_Write_Status, Writer_Write_Bytes.
    cbn [Writer_ResponseWriter Status Bytes]. split; reflexivity. }
  split.
  - intros W RW w. cbv zeta.
    destruct (listener_logs_once {| address := EmptyString; certificate := None; handler := Site h |}
                W RW w r e) as (Hw & Hnow & _ & Hexit).
    cbn [handler] in Hw, Hnow, Hexit. cbv zeta in Hw, Hnow, Hexit.
    change (http.ServeHTTP (Log_Handler h)) with (GZip_ServeHTTP (Log_Handler h)) in Hw, Hnow, Hexit.
    set (lw := {| Writer_ResponseWriter := w; Status := 0; Bytes := 0 |}) in *.
    pose proof (site_recorded_status (Log_Handler h) lw r e c Hc) as Hstatus.
    rewrite (filtered_foreign c _ r Hno) in Hstatus. cbn in Hstatus.
    destruct (GZip_world (Log_Handler h) lw r e) as (_ & _ & _ & Hreq).
    assert (Hinner : http.exit (GZip_ServeHTTP (Log_Handler h) (Writer W) _ lw r e) = Returned
                     /\ now (http.world (GZip_ServeHTTP (Log_Handler h) (Writer W) _ lw r e))
                        = now e).
    { unfold GZip_ServeHTTP.
      change (http.ServeHTTP (GZip_Handler (Log_Handler h)))
        with (Handler_ServeHTTP (GZip_Handler (Log_Handler h))).
      assert (Hplay : forall (V : Type) (RV : http.ResponseWriter V) (v : V),
                 http.exit (Handler_ServeHTTP (GZip_Handler (Log_Handler h)) V RV v r e) = Returned
                 /\ now (http.world (Handler_ServeHTTP (GZip_Handler (Log_Handler h)) V RV v r e))
                    = now e).
      { intros V RV v. rewrite (Handler_plays_filtered _ v r e c Hc), (filtered_foreign c _ r Hno).
        destruct (play_world not_found v r e) as (_ & _ & Hn & _ & Hx).
        rewrite Hn, Hx. split; [reflexivity | cbn; lia]. }
      destruct (gostrings.Contains _ _); [| apply Hplay].
      destruct (regexp.Match _ _); [| apply Hplay].
      rewrite GZip_compressed_parts. cbn [fst http.exit http.world]. apply Hplay. }
    destruct Hinner as [Hret Hclock].
    split; [now rewrite Hexit |]. split.
    + rewrite Hnow, Hw, Hreq, Hstatus. eexists. reflexivity.
    + intros Hcomp. rewrite Hnow, Hclock. now apply Hplain.
  - intros Hcomp Hm. cbv zeta.
    rewrite (proj1 (Hplain http.response _ (http.newResponse r) Hcomp)).
    unfold http.NotFound, http.Error, http.Fprintln.
    cbn [http.setHeader http.WriteHeader http.Header http.Write http.response_ResponseWriter
         http.newResponse http.handlerHeader].
    set (h0 := textproto.Set_
                 (textproto.Set_ (∅ : MIMEHeader) "Content-Type" "text/plain; charset=utf-8")
                 "X-Content-Type-Options" "nosniff").
    assert (Hcl : textproto.Get h0 "Content-Length" = EmptyString).
    { unfold h0. rewrite !Get_Set_other by discriminate. apply Get_empty. }
    rewrite response_WriteHeader_undeclared by (reflexivity || exact Hcl).
    rewrite response_Write_undeclared by reflexivity.
    cbn [http.reqMethod http.status http.sentBody http.sentHeader http.handlerHeader
         http.newResponse].
    rewrite Hm. cbn [String.append].
    split; [reflexivity | split; [reflexivity | split]].
    + unfold h0. rewrite Get_Set_other by discriminate. apply Get_Set_same.
    + unfold h0. apply Get_Set_same.
Qed.

End ForeignHost.

Lemma foreign_host_logged_404_witness :
  let r := sample.request "GET" "/notes.txt" "elsewhere.org" "gzip" in
  http.sentBody
    (http.sink (serve_on (GZ := sample.framing) (TF := sample.counter) (UE := sample.verbatim)
                  sample.site_listener http.response _ (http.newResponse r) r sample.env))
  = "404 page not found" ++ newline.
Proof.
  intros r.
  refine (proj1 (proj2 (proj2 (foreign_host_logged_404 (GZ := sample.framing)
                                 (TF := sample.counter) (UE := sample.verbatim)
                                 sample.site_handler r sample.env
                                 sample.config_value eq_refl _) eq_refl eq_refl))).
  apply Index_missing_iff. reflexivity.
Defined.

(** ** After a failed write *)

Section AfterError.

Context {GZ : gzip.Compressor} {W : Type} {RW : http.ResponseWriter W}.

(** X12: once a write below the compressor has failed, the [GzipWriter]
    hands on nothing more: every later [Write] returns that error with a
    count of 0 and leaves the wrapped writer alone, the deferred [Close]
    writes no trailer, while header changes and [WriteHeader] calls still
    reach the wrapped writer as before. *)
Theorem GzipWriter_drops_writes_after_error (l : list http.action) (z : gzip.Writer) (w : W)
    (e : Env) (failure : error) :
  gzip.err z = Some failure ->
  fst (http.perform_all l ({| gz := z; GzipWriter_ResponseWriter := w |}, e))
  = {| gz := z;
       GzipWriter_ResponseWriter := fst (http.perform_all (without_writes l) (w, e)) |}
  /\ (forall p, GzipWriter_Write {| gz := z; GzipWriter_ResponseWriter := w |} p
                = ({| gz := z; GzipWriter_ResponseWriter := w |}, (0, Some failure)))
  /\ snd (gzip.Close z w) = w
  /\ gzip.err (fst (gzip.Close z w)) = Some failure.
Proof.
  intros Hz. split; [| split; [| split]].
  - revert w e. induction l as [|a l IH]; intros w e; [reflexivity |].
    rewrite perform_all_cons.
    destruct a; cbn [without_writes List.filter]; rewrite ?perform_all_cons;
      cbn [http.perform http.setHeader http.WriteHeader http.Header http.Write
           GzipWriter_ResponseWriter_impl gz GzipWriter_ResponseWriter];
      try apply IH.
    unfold GzipWriter_Write, gzip.Write_. cbn [gz GzipWriter_ResponseWriter].
    rewrite Hz. cbn [fst]. apply IH.
  - intros p. unfold GzipWriter_Write, gzip.Write_. cbn [gz GzipWriter_ResponseWriter].
    now rewrite Hz.
  - unfold gzip.Close. now rewrite Hz.
  - unfold gzip.Close. now rewrite Hz.
Qed.

End AfterError.

Lemma GzipWriter_drops_writes_after_error_witness :
  let r := sample.request "GET" "/index.html" "www.example.com" "gzip" in
  let z : @gzip.Writer sample.framing :=
    @gzip.Build_Writer sample.framing true false (Some (ErrOther "broken pipe")) 0%nat in
  http.seen
    (GzipWriter_ResponseWriter (GZ := sample.framing)
       (fst (http.perform_all
               [http.CallWriteHeader 200; http.CallWrite "<html>"; http.CallWrite "</html>"]
               ({| gz := z; GzipWriter_ResponseWriter := http.probe (http.newResponse r) |},
                sample.env))))
  = [http.EvWriteHeader 200].
Proof.
  intros r z.
  rewrite (proj1 (GzipWriter_drops_writes_after_error (GZ := sample.framing)
                    [http.CallWriteHeader 200; http.CallWrite "<html>"; http.CallWrite "</html>"]
                    z (http.probe (http.newResponse r)) sample.env (ErrOther "broken pipe")
                    eq_refl)).
  reflexivity.
Defined.

(** ** The address the server writes, read back *)

Lemma TrimRight_closing_bracket (host : string) :
  host <> EmptyString -> bracket_at (last_byte host) = false ->
  gostrings.TrimRight (host ++ "]") "[]" = host.
Proof.
  induction host as [|c host IH]; intros Hne Hl; [contradiction |].
  destruct host as [|d host].
  - cbn in Hl. cbn [String.append gostrings.TrimRight gostrings.in_cutset Ascii.eqb Bool.eqb orb].
    unfold is_bracket in Hl. now rewrite Hl.
  - change ((String c (String d host)) ++ "]") with (String c (String d host ++ "]")).
    cbn [gostrings.TrimRight]. rewrite IH by (discriminate || exact Hl). reflexivity.
Qed.

Lemma Trim_bracketed (host : string) :
  host <> EmptyString ->
  bracket_at (first_byte host) = false -> bracket_at (last_byte host) = false ->
  gostrings.Trim ("[" ++ host ++ "]") "[]" = host.
Proof.
  intros Hne Hf Hl. unfold gostrings.Trim.
  change ("[" ++ host ++ "]") with (String "[" (host ++ "]")).
  cbn [gostrings.TrimLeft gostrings.in_cutset Ascii.eqb Bool.eqb orb].
  destruct host as [|c host]; [contradiction |].
  cbn [first_byte bracket_at] in Hf. unfold is_bracket in Hf.
  change (String c host ++ "]") with (String c (host ++ "]")) at 1.
  cbn [gostrings.TrimLeft]. rewrite Hf.
  change (String c (host ++ "]")) with (String c host ++ "]").
  now apply TrimRight_closing_bracket.
Qed.

(** X13: the remote address of a connection is written by the server as
    [net.JoinHostPort] of the peer's IP address and port; from it [Log]
    recovers exactly the IP address, for IPv4 and for IPv6 (with or
    without a zone), brackets and port gone. *)
Theorem addr_of_JoinHostPort (host port : string) :
  host <> EmptyString ->
  occurs ":" port = false ->
  bracket_at (first_byte host) = false ->
  bracket_at (last_byte host) = false ->
  addr (net.JoinHostPort host port) = host.
Proof.
  intros Hne Hport Hf Hl. unfold net.JoinHostPort.
  destruct (0 <=? gostrings.Index host ":").
  - replace ("[" ++ host ++ "]:" ++ port) with (("[" ++ host ++ "]") ++ ":" ++ port).
    + rewrite addr_truncated by (assumption || discriminate). now apply Trim_bracketed.
    + cbn [String.append]. f_equal. now rewrite append_assoc.
  - rewrite addr_truncated by assumption. now apply Trim_unchanged.
Qed.

Lemma addr_of_JoinHostPort_witness :
  net.JoinHostPort "fe80::1%eth0" "51000" = "[fe80::1%eth0]:51000"
  /\ addr (net.JoinHostPort "fe80::1%eth0" "51000") = "fe80::1%eth0"
  /\ addr (net.JoinHostPort "203.0.113.5" "51000") = "203.0.113.5".
Proof.
  split; [reflexivity | split].
  - apply (addr_of_JoinHostPort "fe80::1%eth0" "51000"); [discriminate | reflexivity ..].
  - apply (addr_of_JoinHostPort "203.0.113.5" "51000"); [discriminate | reflexivity ..].
Defined.

(** ** The root and the other directories *)

Lemma lower_fixes (x c : ascii) :
  gostrings.is_lower c = false -> gostrings.lower x = c -> x = c.
Proof.
  intros Hc Hx. unfold gostrings.lower in Hx.
  destruct (gostrings.is_upper x) eqn:Hu; [| exact Hx].
  exfalso. subst c.
  destruct x as [[] [] [] [] [] [] [] []]; vm_compute in Hu; try discriminate Hu;
    vm_compute in Hc; discriminate Hc.
Qed.

Lemma CutPrefix_spec (s p s' : string) :
  gostrings.CutPrefix s p = Some s' -> s = p ++ s'.
Proof.
  revert s. induction p as [|c p IH]; intros s H.
  - cbn in H. now injection H as ->.
  - destruct s as [|x s]; cbn in H; [discriminate |].
    destruct (Ascii.eqb x c) eqn:E; [| discriminate].
    apply Ascii.eqb_eq in E. subst x. cbn. f_equal. now apply IH.
Qed.

(** One step of folded matching takes one byte of the same letter, or the
    bytes of the long s or of the Kelvin sign. *)
Lemma fold_step_cases (c : ascii) (s s' : string) :
  regexp.fold_step c s = Some s' ->
  (exists x, s = String x s' /\ gostrings.lower x = gostrings.lower c)
  \/ s = regexp.long_s ++ s' \/ s = regexp.kelvin ++ s'.
Proof.
  unfold regexp.fold_step. destruct s as [|x s]; [discriminate |].
  destruct (Ascii.eqb (gostrings.lower x) (gostrings.lower c)) eqn:E.
  - intros [= <-]. left. exists x. split; [reflexivity | now apply Ascii.eqb_eq].
  - destruct (Ascii.eqb (gostrings.lower c) "s").
    + intros H. right. left. now apply CutPrefix_spec.
    + destruct (Ascii.eqb (gostrings.lower c) "k"); [| discriminate].
      intros H. right. right. now apply CutPrefix_spec.
Qed.

Lemma fold_step_dot (s s' : string) :
  regexp.fold_step "." s = Some s' -> s = String "." s'.
Proof.
  unfold regexp.fold_step. destruct s as [|x s]; [discriminate |].
  change (gostrings.lower ".") with "."%char.
  change (Ascii.eqb "." "s") with false. change (Ascii.eqb "." "k") with false. cbv iota.
  destruct (Ascii.eqb (gostrings.lower x) ".") eqn:E; [| discriminate].
  intros [= <-]. apply Ascii.eqb_eq in E. apply lower_fixes in E; [| reflexivity].
  now subst x.
Qed.

Lemma strip_fold_nonempty (e s : string) :
  strip_fold e s = Some EmptyString -> e <> EmptyString -> s <> EmptyString.
Proof. destruct e as [|c e]; [contradiction |]. intros H _ ->. discriminate H. Qed.

Lemma last_byte_append (pre tail : string) :
  tail <> EmptyString -> last_byte (pre ++ tail) = last_byte tail.
Proof.
  intros Hne. induction pre as [|x pre IH]; [reflexivity |].
  cbn [String.append]. destruct (pre ++ tail) eqn:E.
  - destruct pre; [cbn in E; contradiction | discriminate].
  - exact IH.
Qed.

Lemma last_byte_cons (c : ascii) (s : string) :
  last_byte (String c s) = match last_byte s with Some d => Some d | None => Some c end.
Proof.
  revert c. induction s as [|d s IH]; intros c; [reflexivity |].
  change (last_byte (String c (String d s))) with (last_byte (String d s)).
  rewrite (IH d). now destruct (last_byte s).
Qed.

Lemma last_byte_dot (ext : string) :
  last_byte ("." ++ ext) = match last_byte ext with Some c => Some c | None => Some "."%char end.
Proof. apply (last_byte_cons "." ext). Qed.

(** The last byte of a text that folds to a pattern: the last character
    of the pattern, case apart, or the last byte of one of the two runes
    outside ASCII. *)
Lemma strip_fold_last (e s : string) :
  strip_fold e s = Some EmptyString -> e <> EmptyString ->
  exists c,
    last_byte e = Some c
    /\ (option_map gostrings.lower (last_byte s) = Some (gostrings.lower c)
        \/ last_byte s = Some (ascii_of_nat 191)
        \/ last_byte s = Some (ascii_of_nat 170)).
Proof.
  revert s. induction e as [|c e IH]; intros s H Hne; [contradiction |].
  cbn [strip_fold] in H. destruct (regexp.fold_step c s) as [s'|] eqn:Hstep; [| discriminate].
  destruct e as [|d e].
  - cbn in H. injection H as ->. exists c. split; [reflexivity |].
    apply fold_step_cases in Hstep as [(x & -> & Hx) | [-> | ->]].
    + left. cbn. now rewrite Hx.
    + right. left. reflexivity.
    + right. right. reflexivity.
  - destruct (IH s' H ltac:(discriminate)) as (c' & Hlast & Hcases).
    exists c'. split; [exact Hlast |].
    pose proof (strip_fold_nonempty _ _ H ltac:(discriminate)) as Hs'.
    assert (Hsame : last_byte s = last_byte s').
    { apply fold_step_cases in Hstep as [(x & -> & _) | [-> | ->]].
      - change (String x s') with (String x EmptyString ++ s'). now apply last_byte_append.
      - now apply last_byte_append.
      - now apply last_byte_append. }
    now rewrite Hsame.
Qed.

Lemma directory_never_matches (dir ext : string) :
  last_byte ext <> Some "/"%char -> ~ ends_with_fold (dir ++ "/") ("." ++ ext).
Proof.
  intros Hext (pre & tail & E & Hf). unfold fold_eq in Hf.
  destruct (strip_fold ("." ++ ext) tail) as [[|y t]|] eqn:Hstrip; try discriminate Hf.
  pose proof (strip_fold_nonempty _ _ Hstrip ltac:(discriminate)) as Hne.
  destruct (strip_fold_last _ _ Hstrip ltac:(discriminate)) as (c & Hlast & Hcases).
  assert (Htail : last_byte tail = Some "/"%char).
  { rewrite <- (last_byte_append pre tail Hne), <- E.
    now rewrite (last_byte_append dir "/" ltac:(discriminate)). }
  rewrite Htail in Hcases. rewrite last_byte_dot in Hlast.
  destruct Hcases as [Hl | [Hl | Hl]]; try discriminate Hl.
  cbn [option_map] in Hl. injection Hl as Hl.
  change (gostrings.lower "/") with "/"%char in Hl. symmetry in Hl.
  apply lower_fixes in Hl; [| reflexivity]. subst c.
  destruct (last_byte ext) as [d|]; [| discriminate Hlast].
  injection Hlast as ->. now apply Hext.
Qed.

Lemma append_cons_cases (pre tail s : string) (x c : ascii) :
  pre ++ String x tail = String c s ->
  (pre = EmptyString /\ x = c /\ tail = s)
  \/ (exists pre', pre = String c pre' /\ pre' ++ String x tail = s).
Proof.
  destruct pre as [|y pre]; cbn [String.append]; intros [= -> <-].
  - now left.
  - right. now exists pre.
Qed.

Lemma root_matches_html (ext : string) :
  ends_with_fold "/index.html" ("." ++ ext) <-> fold_eq "html" ext = true.
Proof.
  split.
  - intros (pre & tail & E & Hf). unfold fold_eq in *.
    change ("." ++ ext) with (String "." ext) in Hf. cbn [strip_fold] in Hf.
    destruct (regexp.fold_step "." tail) as [s'|] eqn:Hstep; [| discriminate Hf].
    apply fold_step_dot in Hstep. subst tail. symmetry in E.
    repeat match goal with
           | E : ?p ++ String "." s' = String _ _ |- _ =>
               apply append_cons_cases in E as [(_ & Hx & Ht) | (? & _ & E)];
               [try discriminate Hx; subst s'; exact Hf |]
           end.
    match goal with
    | E : ?p ++ String "." s' = EmptyString |- _ => destruct p; discriminate E
    end.
  - intros Hf. exists "/index", (".html"). split; [reflexivity |].
    unfold fold_eq in *. change ("." ++ ext) with (String "." ext). exact Hf.
Qed.

(** X14: "/" alone stands for index.html.  With extensions that are plain
    and none of which ends in a slash, a request for "/" that accepts gzip
    is compressed exactly when html, case apart, is among the extensions,
    while a request for any other URI that ends in a slash, a directory
    the file server may well answer with its index.html, is never
    compressed. *)
Theorem only_the_root_stands_for_index (c : Config) :
  Gzip (Httpd c) <> [] ->
  Forall (fun ext => plain ext = true) (Gzip (Httpd c)) ->
  exists re,
    regexp.Compile (pattern c) = regexp.Parsed re
    /\ forall (H : Type) (inner : H) (r : http.Request),
         let h := {| GZip_Regexp := re; GZip_Handler := inner |} in
         (http.RequestURI r = "/" ->
          compresses h r
          = gostrings.Contains (textproto.Get (http.RequestHeader r) "Accept-Encoding") "gzip"
            && existsb (fold_eq "html") (Gzip (Httpd c)))
         /\ (forall dir,
               http.RequestURI r = dir ++ "/" -> dir <> EmptyString ->
               Forall (fun ext => last_byte ext <> Some "/"%char) (Gzip (Httpd c)) ->
               compresses h r = false).
Proof.
  intros Hne Hp. destruct (pattern_matches c Hne Hp) as (re & Hre & Hmatch).
  exists re. split; [exact Hre |]. intros H inner r. cbv zeta. split.
  - intros Huri. unfold compresses, matching_uri. cbn [GZip_Regexp]. rewrite Huri.
    change (String.eqb "/" "/") with true. cbv iota.
    change ("/" ++ "index.html") with "/index.html". f_equal.
    apply eq_true_iff_eq. rewrite Hmatch, existsb_exists. split.
    + intros (ext & Hin & Hs). exists ext. split; [exact Hin | now apply root_matches_html].
    + intros (ext & Hin & Hf). exists ext. split; [exact Hin | now apply root_matches_html].
  - intros dir Huri Hdir Hslash. unfold compresses, matching_uri. cbn [GZip_Regexp].
    rewrite Huri.
    replace (String.eqb (dir ++ "/") "/") with false.
    + apply andb_false_iff. right. apply not_true_iff_false. rewrite Hmatch.
      intros (ext & Hin & Hs). rewrite List.Forall_forall in Hslash.
      exact (directory_never_matches dir ext (Hslash ext Hin) Hs).
    + symmetry. apply String.eqb_neq. destruct dir as [|x dir]; [contradiction |].
      destruct dir; discriminate.
Qed.

Lemma only_the_root_stands_for_index_witness :
  exists re,
    regexp.Compile (pattern sample.config_value) = regexp.Parsed re
    /\ compresses {| GZip_Regexp := re; GZip_Handler := sample.site_handler |}
         (sample.request "GET" "/docs/" "www.example.com" "gzip") = false.
Proof.
  destruct (only_the_root_stands_for_index sample.config_value)
    as (re & Hre & Hall).
  - discriminate.
  - repeat constructor.
  - exists re. split; [exact Hre |].
    apply (proj2 (Hall _ sample.site_handler
                    (sample.request "GET" "/docs/" "www.example.com" "gzip")) "/docs").
    + reflexivity.
    + discriminate.
    + repeat constructor; discriminate.
Defined.

(** ** The plain-HTTP listener of the TLS variant *)

Section PlainListener.

Context {GZ : gzip.Compressor} {TF : time.Formatter} {UE : url.Escaper}.

(** X15: with TLS enabled, the listener [main] starts without a
    certificate is the one at [Http], and the server behind it answers a
    request in one of two ways.  The request [OPTIONS *] never reaches the
    program: the library answers it, with Content-Length 0, no Location
    and no status set by a handler, and the log writer is handed nothing.
    Every other request, whatever its path and its Host, is answered by
    the program with status 301, a Location that is the request's URL with
    its scheme rewritten to https (so it starts with "https:") and a
    Strict-Transport-Security header of max-age 604800, and the log writer
    is handed one line, with status 301. *)
Theorem plain_http_listener_redirects (os : OS) (e0 : Env) (c : Config)
    (ls : list listener) (l : listener) (r : http.Request) (e : Env) :
  config e0 = Some c ->
  Enabled (Ssl (Httpd c)) = true ->
  main_tls os e0 = Serving ls ->
  In l ls ->
  certificate l = None ->
  let res := serverHandler_ServeHTTP l http.response _ (http.newResponse r) r e in
  let asterisk := String.eqb (http.RequestURI r) "*" && String.eqb (http.Method r) "OPTIONS" in
  let location := http.hexEscapeNonASCII (url.String_ (url.with_Scheme (http.URL r) "https")) in
  address l = Http (Httpd c)
  /\ http.exit res = Returned
  /\ (asterisk = true ->
      http.wroteHeader (http.sink res) = false
      /\ textproto.Get (http.handlerHeader (http.sink res)) "Content-Length" = "0"
      /\ textproto.Get (http.handlerHeader (http.sink res)) "Location" = EmptyString
      /\ written (http.world res) = written e)
  /\ (asterisk = false ->
      http.status (http.sink res) = 301
      /\ textproto.Get (http.sentHeader (http.sink res)) "Location" = location
      /\ gostrings.HasPrefix location "https:" = true
      /\ textproto.Get (http.sentHeader (http.sink res)) "Strict-Transport-Security"
         = "max-age=604800"
      /\ exists n,
           written (http.world res)
           = (written e ++
              [(writer os c,
                (addr (http.RemoteAddr r) ++ " ["
                 ++ time.Format (now (http.world res)) "02/Jan/2006 15:04:05 -0700" ++ "] "
                 ++ http.Method r ++ " " ++ quote ++ http.RequestURI r ++ quote ++ " "
                 ++ itoa 301 ++ " " ++ itoa n ++ " "
                 ++ quote ++ textproto.Get (http.RequestHeader r) "referer" ++ quote ++ " "
                 ++ quote ++ http.UserAgent r ++ quote ++ newline)%string)])%list).
Proof.
  intros Hc Hssl Hmain Hin Hcert. unfold main_tls in Hmain. rewrite Hc, Hssl in Hmain.
  destruct (regexp.Compile (pattern c)) as [re | |]; try discriminate.
  injection Hmain as <-.
  destruct Hin as [<- | [<- | []]]; [discriminate |].
  cbv zeta. unfold serverHandler_ServeHTTP.
  destruct (String.eqb (http.RequestURI r) "*" && String.eqb (http.Method r) "OPTIONS").
  - split; [reflexivity | split; [reflexivity | split; [| discriminate]]].
    intros _. unfold globalOptionsHandler_ServeHTTP.
    cbn [http.sink http.world http.setHeader http.Header http.response_ResponseWriter
         http.newResponse http.handlerHeader http.wroteHeader].
    split; [reflexivity | split; [apply Get_Set_same | split; [| reflexivity]]].
    rewrite Get_Set_other by discriminate. apply Get_empty.
  - unfold serve_on. cbn [handler address].
    match goal with
    | |- context [http.ServeHTTP ?h http.response _ _ r e] =>
        change (http.ServeHTTP h http.response _ (http.newResponse r) r e)
          with (Log_ServeHTTP h http.response _ (http.newResponse r) r e);
        destruct (redirector_on_fresh_response h r e) as (H1 & H2 & H3 & H4 & H5)
    end.
    split; [reflexivity | split; [exact H4 | split; [discriminate |]]].
    intros _. split; [exact H1 |]. split; [exact H2 |].
    split; [apply Location_is_https |]. split; [exact H3 | exact H5].
Qed.

End PlainListener.

(** A request for /docs/? is sent to https:///docs/?, the question mark
    kept; [OPTIONS *] gets no Location. *)
Lemma plain_http_listener_redirects_witness :
  let r := {| http.Method := "GET";
              http.URL := url.origin_form "/docs/" true EmptyString;
              http.RequestHeader := ∅;
              http.Host := "example.com";
              http.RemoteAddr := "203.0.113.5:51000";
              http.RequestURI := "/docs/?" |} in
  let o := sample.request "OPTIONS" "*" "example.com" "identity" in
  let answer (q : http.Request) :=
    http.sink (serverHandler_ServeHTTP (GZ := sample.framing) (TF := sample.counter)
                 (UE := sample.verbatim) sample.redirect_listener http.response _
                 (http.newResponse q) q sample.env) in
  textproto.Get (http.sentHeader (answer r)) "Location" = "https:///docs/?"
  /\ http.wroteHeader (answer o) = false.
Proof.
  intros r o answer. split.
  - destruct (plain_http_listener_redirects (GZ := sample.framing) (TF := sample.counter)
                (UE := sample.verbatim) sample.os sample.env sample.config_value
                [sample.site_listener; sample.redirect_listener] sample.redirect_listener
                r sample.env eq_refl eq_refl eq_refl (or_intror (or_introl eq_refl)) eq_refl)
      as (_ & _ & _ & Hredirect).
    destruct (Hredirect eq_refl) as (_ & Hlocation & _).
    etransitivity; [exact Hlocation | reflexivity].
  - destruct (plain_http_listener_redirects (GZ := sample.framing) (TF := sample.counter)
                (UE := sample.verbatim) sample.os sample.env sample.config_value
                [sample.site_listener; sample.redirect_listener] sample.redirect_listener
                o sample.env eq_refl eq_refl eq_refl (or_intror (or_introl eq_refl)) eq_refl)
      as (_ & _ & Hlibrary & _).
    exact (proj1 (Hlibrary eq_refl)).
Defined.


(** ** The header block of a compressed answer *)

(** Once the header block is fixed, no call changes it, and the body the
    server takes in stays within the length declared. *)
Lemma sent_kept (code : Z) (block : MIMEHeader) (declared : option Z) :
  kept_by_calls (fun v : http.response =>
                   http.wroteHeader v = true /\ http.status v = code
                   /\ http.sentHeader v = block
                   /\ http.contentLength v = declared
                   /\ len (http.sentBody v) <= http.bodyWritten v
                   /\ (forall n, declared = Some n -> len (http.sentBody v) <= n)).
Proof.
  split.
  - intros v h Hv. exact Hv.
  - intros v code' (Hw & Hs & Hb & Hrest). cbn [http.WriteHeader http.response_ResponseWriter].
    unfold http.response_WriteHeader. rewrite Hw. auto.
  - intros v p (Hw & Hs & Hb & Hcl & Hlen & Hmax).
    cbn [http.Write http.response_ResponseWriter].
    unfold http.response_Write. rewrite Hw.
    pose proof (len_nonneg p) as Hp.
    destruct (len p =? 0); [cbn [fst]; auto 6 |].
    destruct (negb (http.bodyAllowedForStatus (http.status v))); [cbn [fst]; auto 6 |].
    cbv zeta. unfold http.counted.
    cbn [http.contentLength http.reqMethod http.bodyWritten http.wroteHeader http.status
         http.sentHeader http.handlerHeader http.informational http.sentBody].
    rewrite Hcl.
    destruct declared as [n|].
    + destruct (n <? http.bodyWritten v + len p) eqn:Hover.
      * cbn [fst http.wroteHeader http.status http.sentHeader http.contentLength
             http.sentBody http.bodyWritten].
        repeat split; auto. lia.
      * apply Z.ltb_ge in Hover.
        destruct (String.eqb (http.reqMethod v) "HEAD");
          cbn [fst http.wroteHeader http.status http.sentHeader http.contentLength
               http.sentBody http.bodyWritten];
          rewrite ?len_append; repeat split; auto; try lia.
        intros m [= <-]. lia.
    + destruct (String.eqb (http.reqMethod v) "HEAD");
        cbn [fst http.wroteHeader http.status http.sentHeader http.contentLength
             http.sentBody http.bodyWritten];
        rewrite ?len_append; repeat split; auto; try lia; discriminate.
Qed.

Lemma header_calls_direct (pre : list http.action) (w : http.response) (e : Env) :
  status_calls pre = [] -> write_calls pre = [] ->
  fst (http.perform_all pre (w, e))
  = http.setHeader w (headers_after pre (http.handlerHeader w)).
Proof.
  revert w e. induction pre as [|a pre IH]; intros w e Hs Hw.
  - cbn. now destruct w.
  - rewrite perform_all_cons.
    rewrite (status_calls_cons a pre) in Hs. rewrite (write_calls_cons a pre) in Hw.
    apply app_eq_nil in Hs as [Hs1 Hs]. apply app_eq_nil in Hw as [Hw1 Hw].
    destruct a; try discriminate Hs1; try discriminate Hw1;
      cbn [http.perform http.setHeader http.Header http.response_ResponseWriter];
      rewrite (IH _ _ Hs Hw); reflexivity.
Qed.

(** The length a header block declares, as [WriteHeader] reads it. *)
Lemma WriteHeader_declared (w : http.response) (code n : Z) :
  http.wroteHeader w = false -> http.finalCode code = true ->
  http.contentLength (http.response_WriteHeader w code) = Some n ->
  strconv.ParseInt (textproto.Get (http.handlerHeader w) "Content-Length") = Some n /\ 0 <= n.
Proof.
  intros Hw Hf. unfold http.finalCode in Hf. apply andb_true_iff in Hf as [Hv Hi].
  apply negb_true_iff in Hv, Hi.
  unfold http.response_WriteHeader. rewrite Hw, Hv, Hi. cbv zeta. cbn [http.contentLength].
  destruct (url.nonempty (textproto.Get (http.handlerHeader w) "Content-Length")); [| discriminate].
  destruct (strconv.ParseInt (textproto.Get (http.handlerHeader w) "Content-Length")) as [v|];
    [| discriminate].
  destruct (0 <=? v) eqn:Hpos; [| discriminate].
  intros [= <-]. split; [reflexivity | now apply Z.leb_le].
Qed.

Lemma WriteHeader_undeclared (w : http.response) (code : Z) :
  http.wroteHeader w = false -> http.finalCode code = true ->
  http.contentLength (http.response_WriteHeader w code) = None ->
  forall n, strconv.ParseInt (textproto.Get (http.handlerHeader w) "Content-Length") = Some n ->
            n < 0.
Proof.
  intros Hw Hf. unfold http.finalCode in Hf. apply andb_true_iff in Hf as [Hv Hi].
  apply negb_true_iff in Hv, Hi.
  unfold http.response_WriteHeader. rewrite Hw, Hv, Hi. cbv zeta. cbn [http.contentLength].
  destruct (textproto.Get (http.handlerHeader w) "Content-Length") as [|x t] eqn:Hcl.
  - intros _ n Hn. discriminate Hn.
  - cbn [url.nonempty].
    destruct (strconv.ParseInt (String x t)) as [v|]; [| intros _ n Hn; discriminate Hn].
    destruct (0 <=? v) eqn:Hpos; [discriminate |].
    intros _ n [= <-]. now apply Z.leb_gt.
Qed.

Section HeaderBlock.

Context {GZ : gzip.Compressor}.

Lemma header_calls_through_GzipWriter (pre : list http.action) (z : gzip.Writer)
    (w : http.response) (e : Env) :
  status_calls pre = [] -> write_calls pre = [] ->
  fst (http.perform_all pre ({| gz := z; GzipWriter_ResponseWriter := w |}, e))
  = {| gz := z;
       GzipWriter_ResponseWriter :=
         http.setHeader w (headers_after pre (http.handlerHeader w)) |}.
Proof.
  revert w e. induction pre as [|a pre IH]; intros w e Hs Hw.
  - cbn. now destruct w.
  - rewrite perform_all_cons.
    rewrite (status_calls_cons a pre) in Hs. rewrite (write_calls_cons a pre) in Hw.
    apply app_eq_nil in Hs as [Hs1 Hs]. apply app_eq_nil in Hw as [Hw1 Hw].
    destruct a; try discriminate Hs1; try discriminate Hw1;
      cbn [http.perform http.setHeader http.Header GzipWriter_ResponseWriter_impl gz
           GzipWriter_ResponseWriter];
      rewrite (IH _ _ Hs Hw); reflexivity.
Qed.

(** X16: compressing, the middleware changes one header and no other.
    When the inner handler sets its headers, calls [WriteHeader] with a
    final code and returns, the block fixed for the client is the one that
    handler built, call for call, on top of Content-Encoding: gzip, with
    the handler's status.  What the handler set stays as it set it, a
    Content-Length that gives the length of the uncompressed body
    included, and the server takes no more body bytes than that length:
    what the compressor writes beyond it is refused. *)
Theorem compressed_header_block (h : GZip (Handler http.fileHandler))
    (r : http.Request) (e : Env) (c : Config) (pre post : list http.action) (code : Z) :
  config e = Some c ->
  compresses h r = true ->
  http.actions (filtered c (GZip_Handler h) r) = (pre ++ http.CallWriteHeader code :: post)%list ->
  status_calls pre = [] -> write_calls pre = [] ->
  http.finalCode code = true ->
  http.ending (filtered c (GZip_Handler h) r) = Returned ->
  let res := GZip_ServeHTTP h http.response _ (http.newResponse r) r e in
  let sent := http.sink res in
  let block := headers_after pre (textproto.Set_ (∅ : MIMEHeader) "Content-Encoding" "gzip") in
  http.exit res = Returned
  /\ http.status sent = code
  /\ http.sentHeader sent = block
  /\ (pre = [] -> textproto.Get (http.sentHeader sent) "Content-Encoding" = "gzip")
  /\ (forall pre' key value,
         pre = (pre' ++ [http.SetHeader key value])%list ->
         textproto.Get (http.sentHeader sent) key = value)
  /\ (forall n,
         strconv.ParseInt (textproto.Get block "Content-Length") = Some n -> 0 <= n ->
         len (http.sentBody sent) <= n).
Proof.
  intros Hc Hcomp Hactions Hs Hw Hfinal Hret. cbv zeta.
  set (block := headers_after pre (textproto.Set_ (∅ : MIMEHeader) "Content-Encoding" "gzip")).
  set (w0 := http.setHeader (http.newResponse r)
               (textproto.Set_ (http.Header (http.newResponse r)) "Content-Encoding" "gzip")).
  set (w1 := http.setHeader w0 (headers_after pre (http.handlerHeader w0))).
  set (declared := http.contentLength (http.response_WriteHeader w1 code)).
  assert (Hbranch : GZip_ServeHTTP h http.response _ (http.newResponse r) r e
                    = fst (GZip_compressed h http.response _ (http.newResponse r) r e)).
  { unfold compresses in Hcomp. apply andb_true_iff in Hcomp as [Hae Hm].
    unfold GZip_ServeHTTP. now rewrite Hae, Hm. }
  rewrite Hbranch, GZip_compressed_parts. cbn [fst http.sink http.exit].
  fold w0.
  rewrite (Handler_plays_filtered (GZip_Handler h) _ r e c Hc).
  destruct (play_world (filtered c (GZip_Handler h) r)
              {| gz := gzip.NewWriter; GzipWriter_ResponseWriter := w0 |} r e)
    as (_ & _ & _ & _ & Hexit).
  split; [now rewrite Hexit |].
  assert (Hkept : let v := snd (gzip.Close
                                  (gz (http.sink (http.play (filtered c (GZip_Handler h) r)
                                     {| gz := gzip.NewWriter; GzipWriter_ResponseWriter := w0 |} r e)))
                                  (GzipWriter_ResponseWriter
                                     (http.sink (http.play (filtered c (GZip_Handler h) r)
                                        {| gz := gzip.NewWriter; GzipWriter_ResponseWriter := w0 |}
                                        r e)))) in
                  http.wroteHeader v = true /\ http.status v = code
                  /\ http.sentHeader v = block
                  /\ http.contentLength v = declared
                  /\ len (http.sentBody v) <= http.bodyWritten v
                  /\ (forall n, declared = Some n -> len (http.sentBody v) <= n)).
  { cbv zeta. apply kept_gzip_Close; [apply sent_kept |].
    unfold http.play. rewrite Hactions, perform_all_app.
    pose proof (header_calls_through_GzipWriter pre gzip.NewWriter w0 e Hs Hw) as Hpre.
    destruct (http.perform_all pre _) as [gw e1]. cbn [fst] in Hpre. subst gw. fold w1.
    rewrite perform_all_cons.
    cbn [http.perform http.WriteHeader GzipWriter_ResponseWriter_impl gz GzipWriter_ResponseWriter].
    match goal with
    | |- context [http.perform_all post (?g0, e1)] =>
        pose proof (kept_perform_all
                      (fun gw : GzipWriter http.response =>
                         let v := GzipWriter_ResponseWriter gw in
                         http.wroteHeader v = true /\ http.status v = code
                         /\ http.sentHeader v = block
                         /\ http.contentLength v = declared
                         /\ len (http.sentBody v) <= http.bodyWritten v
                         /\ (forall n, declared = Some n -> len (http.sentBody v) <= n))
                      (kept_through_GzipWriter _ (sent_kept code block declared))
                      post (g0, e1)) as Hpost
    end.
    destruct (http.perform_all post _) as [gw e2]. cbn [fst http.sink] in *.
    apply Hpost. cbv zeta. cbn [GzipWriter_ResponseWriter].
    destruct (response_WriteHeader_first w1 code eq_refl Hfinal) as (H1 & H2 & H3).
    split; [exact H1 | split; [exact H2 | split; [exact H3 | split; [reflexivity |]]]].
    assert (Hempty : http.sentBody (http.response_WriteHeader w1 code) = EmptyString
                     /\ http.bodyWritten (http.response_WriteHeader w1 code) = 0).
    { unfold http.finalCode in Hfinal. apply andb_true_iff in Hfinal as [Hv Hi].
      apply negb_true_iff in Hv, Hi.
      unfold http.response_WriteHeader. cbn [http.wroteHeader w1 w0 http.setHeader
        http.response_ResponseWriter http.newResponse].
      rewrite Hv, Hi. split; reflexivity. }
    change (http.WriteHeader w1 code) with (http.response_WriteHeader w1 code).
    destruct Hempty as [-> ->]. split; [reflexivity |].
    intros n Hn. destruct (WriteHeader_declared w1 code n eq_refl Hfinal Hn) as [_ Hpos].
    exact Hpos. }
  cbv zeta in Hkept. destruct Hkept as (_ & Hstatus & Hblock & Hdeclared & _ & Hmax).
  split; [exact Hstatus | split; [exact Hblock | split; [| split]]].
  - intros ->. rewrite Hblock. unfold block. cbn [headers_after fold_left].
    apply Get_Set_same.
  - intros pre' key value ->. rewrite Hblock. unfold block, headers_after.
    rewrite fold_left_app. cbn [fold_left]. apply Get_Set_same.
  - intros n Hparse Hpos. apply Hmax.
    destruct declared as [m|] eqn:Hd; unfold declared in Hd.
    + destruct (WriteHeader_declared w1 code m eq_refl Hfinal Hd) as [Hm _].
      cbn [w1 http.setHeader http.response_ResponseWriter http.handlerHeader w0 http.Header
           http.newResponse] in Hm.
      fold block in Hm. congruence.
    + exfalso.
      pose proof (WriteHeader_undeclared w1 code eq_refl Hfinal Hd n) as Hneg.
      cbn [w1 http.setHeader http.response_ResponseWriter http.handlerHeader w0 http.Header
           http.newResponse] in Hneg.
      fold block in Hneg. specialize (Hneg Hparse). lia.
Qed.

End HeaderBlock.

(** A style sheet of 18 bytes served with its length: the block keeps
    Content-Length 18 beside Content-Encoding gzip, and of the framed
    stream of 36 bytes the server takes the first chunk only. *)
Lemma compressed_header_block_witness :
  let served : http.behaviour :=
    {| http.actions := [http.SetHeader "Content-Type" "text/css";
                        http.SetHeader "Content-Length" "18";
                        http.CallWriteHeader 200;
                        http.CallWrite "body { margin: 0 }"];
       http.ending := Returned |} in
  let h : GZip (Handler http.fileHandler) :=
    {| GZip_Regexp := sample.re;
       GZip_Handler := {| files := {| http.root := "/var/www"; http.serve := fun _ => served |} |} |} in
  let r := sample.request "GET" "/site.css" "www.example.com" "gzip" in
  let sent := http.sink (GZip_ServeHTTP (GZ := sample.framing) h http.response _
                           (http.newResponse r) r sample.env) in
  textproto.Get (http.sentHeader sent) "Content-Length" = "18"
  /\ len (http.sentBody sent) <= 18
  /\ http.sentBody sent = "GZIPHEADER".
Proof.
  intros served h r sent.
  destruct (compressed_header_block (GZ := sample.framing) h r sample.env
              sample.config_value
              [http.SetHeader "Content-Type" "text/css"; http.SetHeader "Content-Length" "18"]
              [http.CallWrite "body { margin: 0 }"] 200
              eq_refl eq_refl eq_refl eq_refl eq_refl eq_refl eq_refl)
    as (_ & _ & _ & _ & Hset & Hmax).
  split; [| split; [| reflexivity]].
  - exact (Hset [http.SetHeader "Content-Type" "text/css"] "Content-Length" "18" eq_refl).
  - apply Hmax; [reflexivity | lia].
Defined.


(** ** Worked examples *)

Example Index_found : gostrings.Index "www.example.com:8080" "example.com" = 4.
Proof. reflexivity. Qed.

Example Index_is_case_sensitive : gostrings.Index "www.Example.com" "example.com" = -1.
Proof. reflexivity. Qed.

Example LastIndex_of_bracketed : gostrings.LastIndex "[::1]:9999" ":" = 5.
Proof. reflexivity. Qed.

Example Trim_takes_every_bracket : gostrings.Trim "[[::1]" "[]" = "::1".
Proof. reflexivity. Qed.

Example canonical_key : textproto.CanonicalMIMEHeaderKey "referer" = "Referer".
Proof. reflexivity. Qed.

Example pattern_of_sample : pattern sample.config_value = "(?i)\.(html|css|js)$".
Proof. reflexivity. Qed.

Example root_is_compressed :
  compresses (Log_Handler sample.site_handler)
    (sample.request "GET" "/" "www.example.com" "gzip") = true.
Proof. vm_compute. reflexivity. Qed.

Example upper_case_extension_is_compressed :
  compresses (Log_Handler sample.site_handler)
    (sample.request "GET" "/SITE.CSS" "www.example.com" "gzip") = true.
Proof. vm_compute. reflexivity. Qed.

Example no_gzip_no_compression :
  compresses (Log_Handler sample.site_handler)
    (sample.request "GET" "/site.css" "www.example.com" "br") = false.
Proof. vm_compute. reflexivity. Qed.

(** Under [(?i)] the long s stands for an s: with css and js configured, a
    URI that ends in .j and U+017F, or in .c and twice U+017F, is
    compressed. *)
Example long_s_folds_to_s :
  compresses (Log_Handler sample.site_handler)
    (sample.request "GET" ("/app.j" ++ regexp.long_s) "www.example.com" "gzip") = true
  /\ compresses (Log_Handler sample.site_handler)
       (sample.request "GET" ("/site.c" ++ regexp.long_s ++ regexp.long_s)
          "www.example.com" "gzip") = true
  /\ compresses (Log_Handler sample.site_handler)
       (sample.request "GET" ("/app.j" ++ regexp.kelvin) "www.example.com" "gzip") = false.
Proof. vm_compute. repeat split. Qed.

(** The question mark of an empty query is kept by [URL.String], and bytes
    outside ASCII are escaped with lower-case digits. *)
Example String_keeps_empty_query :
  url.String_ (UE := sample.verbatim)
    (url.with_Scheme (url.origin_form "/docs/" true EmptyString) "https")
  = "https:///docs/?".
Proof. reflexivity. Qed.

Example hexEscape_lower_case :
  http.hexEscapeNonASCII
    ("/caf" ++ String (ascii_of_nat 195) (String (ascii_of_nat 169) EmptyString))
  = "/caf%c3%a9".
Proof. reflexivity. Qed.

(** The flag [main] opens the log with gives no right to write. *)
Example log_descriptor_is_read_only :
  open_for_writing log_flag = false
  /\ open_for_writing (Z.lor log_flag O_WRONLY) = true
  /\ snd (file_Write (NamedFile "access.log") "line" sample.env) = (0, Some EBADF)
  /\ snd (file_Write Stdout "line" sample.env) = (4, None).
Proof. repeat split. Qed.

(** A declared Content-Length is a bound on the body the server takes. *)
Example body_beyond_Content_Length_is_refused :
  let w := fst (http.perform_all
                  [http.SetHeader "Content-Length" "5"; http.CallWriteHeader 200;
                   http.CallWrite "12345"]
                  (http.newResponse (sample.request "GET" "/" "example.com" "gzip"),
                   sample.env)) in
  http.sentBody w = "12345"
  /\ snd (http.Write w "6") = (0, Some ErrContentLength)
  /\ http.sentBody (fst (http.Write w "6")) = "12345".
Proof. vm_compute. repeat split. Qed.

(** With no extension configured the pattern is [(?i)\.()$]: it matches
    every URI that ends in a dot. *)
Example empty_extension_list :
  regexp.Compile "(?i)\.()$"
  = regexp.Parsed
      (regexp.Concat
         (regexp.Concat
            (regexp.Concat regexp.EmptyMatch (regexp.Literal "." true)) regexp.EmptyMatch)
         regexp.EndText)
  /\ regexp.Match
       (regexp.Concat
          (regexp.Concat
             (regexp.Concat regexp.EmptyMatch (regexp.Literal "." true)) regexp.EmptyMatch)
          regexp.EndText) "/archive." = true.
Proof. split; reflexivity. Qed.

(** A compressed page, call by call: the header first, then the framed
    body, the trailer last; the log counts the 36 bytes that went out. *)
Example compressed_page :
  let r := sample.request "GET" "/index.html" "www.example.com" "gzip" in
  let res := serve_on (GZ := sample.framing) (TF := sample.counter) (UE := sample.verbatim)
               sample.site_listener (http.Probe http.response) _
               (http.probe (http.newResponse r)) r sample.env in
  writes (http.seen (http.sink res)) = ["GZIPHEADER"; "<html>hello</html>"; "CRC+SIZE"]
  /\ statuses (http.seen (http.sink res)) = [200]
  /\ written (http.world res)
     = [(NamedFile "access.log",
         access_line (TF := sample.counter) r (now sample.env + 5) 200 36)].
Proof. vm_compute. repeat split. Qed.
